(** * rgb-test-express: upload pipeline, pagination and routing

    A shallow embedding of the Express application (app.js, routes/files.js,
    routes/users.js, models/file.js, models/user.js) and the properties of
    its document ingestion and listing paths.

    Conventions of the embedding:
    - a JavaScript number is a [JS.Number]: an integer that a double holds
      exactly (magnitude at most 2^53 - 1), NaN, or some other double, which
      the handlers are not followed on;
    - a JavaScript string is the [string] of the bytes of its UTF-8
      encoding; a header value is the [string] of its bytes;
    - an awaited promise is a [Promise]: it resolves with a value or rejects
      with the message of the thrown error; a message that a library
      composes is kept as the data it is composed from, not as text;
    - the MongoDB collections, the identifier allocator and the upload
      directory are one explicit [Store] threaded through every handler;
    - what a request cannot decide is its [Env]: the clock, the failures of
      the store and the order in which the store scans a collection. *)

From Stdlib Require Import ZArith NArith String Ascii List Lia DecimalString.
From Stdlib Require Import Decimal DecimalPos DecimalZ.
From Stdlib.Strings Require Import Byte.
From stdpp Require Import base option list gmap strings sorting.

Local Set Warnings "-register-all".
Local Open Scope string_scope.
Local Open Scope Z_scope.

(** ** JavaScript primitives used by the handlers *)

Module JS.

(** A number as far as the handlers are followed. [Int z] is the integer
    [z], built by [number] only for a magnitude of at most 2^53 - 1, where
    doubles are exact; [Other] is any other double (a larger magnitude, an
    infinity), which the handlers are not followed on. *)
Inductive Number : Type :=
  | Int (z : Z)
  | NaN
  | Other.

(** [Number.MAX_SAFE_INTEGER] *)
Definition MAX_SAFE_INTEGER : Z := 2 ^ 53 - 1.

(** An integer as a double: itself when a double holds it exactly. *)
Definition number (z : Z) : Number :=
  if Z.abs z <=? MAX_SAFE_INTEGER then Int z else Other.

(** The white space of one code unit below 128 that [parseInt] skips: TAB,
    LF, VT, FF, CR and SPACE. *)
Definition isAsciiWhiteSpace (c : ascii) : bool :=
  let n := N_of_ascii c in
  (N.eqb n 9 || N.eqb n 10 || N.eqb n 11 || N.eqb n 12 || N.eqb n 13 || N.eqb n 32)%bool.

(** The third byte of the white space U+2000 to U+200A, U+2028, U+2029 and
    U+202F, whose encodings start with E2 80. *)
Definition isGeneralPunctuationSpace (c : ascii) : bool :=
  let n := N_of_ascii c in
  ((N.leb 128 n && N.leb n 138) || N.eqb n 168 || N.eqb n 169 || N.eqb n 175)%bool.

(** The string without its leading white space (StrWhiteSpaceChar): the
    characters above, U+00A0 (C2 A0), U+1680 (E1 9A 80), the E2 80 group,
    U+205F (E2 81 9F), U+3000 (E3 80 80) and U+FEFF (EF BB BF). *)
Fixpoint trimStart (s : string) : string :=
  match s with
  | String c s' =>
      if isAsciiWhiteSpace c then trimStart s'
      else
        match s with
        | String "194" (String "160" r) => trimStart r
        | String "225" (String "154" (String "128" r)) => trimStart r
        | String "226" (String "128" (String c3 r)) =>
            if isGeneralPunctuationSpace c3 then trimStart r else s
        | String "226" (String "129" (String "159" r)) => trimStart r
        | String "227" (String "128" (String "128" r)) => trimStart r
        | String "239" (String "187" (String "191" r)) => trimStart r
        | _ => s
        end
  | EmptyString => s
  end.

(** Value of a character read as a digit in some radix up to 36. *)
Definition digitValue (c : ascii) : option Z :=
  let n := Z.of_N (N_of_ascii c) in
  if (48 <=? n) && (n <=? 57) then Some (n - 48)
  else if (97 <=? n) && (n <=? 122) then Some (n - 87)
  else if (65 <=? n) && (n <=? 90) then Some (n - 55)
  else None.

(** The longest prefix of radix-[radix] digits, read as an integer;
    [acc] is [None] while no digit has been read. *)
Fixpoint parseDigits (radix : Z) (s : string) (acc : option Z) : option Z :=
  match s with
  | String c s' =>
      match digitValue c with
      | Some d =>
          if d <? radix
          then parseDigits radix s' (Some (default 0 acc * radix + d))
          else acc
      | None => acc
      end
  | EmptyString => acc
  end.

(** [parseInt(s)] with the radix argument omitted: the digits are read as
    an integer, and the result is the double nearest to it. *)
Definition parseInt (s : string) : Number :=
  let s1 := trimStart s in
  let '(sign, s2) :=
    match s1 with
    | String "-" r => (-1, r)
    | String "+" r => (1, r)
    | _ => (1, s1)
    end in
  let '(radix, s3) :=
    match s2 with
    | String "0" (String "x" r) => (16, r)
    | String "0" (String "X" r) => (16, r)
    | _ => (10, s2)
    end in
  match parseDigits radix s3 None with
  | Some n => number (sign * n)
  | None => NaN
  end.

(** [x || d] on a number: NaN and zero are falsy. *)
Definition or_default (x : Number) (d : Z) : Number :=
  match x with
  | NaN => Int d
  | Int 0 => Int d
  | _ => x
  end.

(** [x - d] and [x * y]; the result of an exact operation on integers is
    the double nearest to the integer result. *)
Definition sub (x : Number) (d : Z) : Number :=
  match x with
  | Int a => number (a - d)
  | NaN => NaN
  | Other => Other
  end.

Definition mul (x y : Number) : Number :=
  match x, y with
  | Int a, Int b => number (a * b)
  | NaN, _ | _, NaN => NaN
  | _, _ => Other
  end.

(** [Math.ceil(a / b)] for a non-zero [b] ([Z.div] rounds down). For
    integers below 2^53 in magnitude the rounded quotient [a / b] of the
    doubles has the same ceiling as the exact one: a quotient that is not an
    integer is further from every integer than half the spacing of the
    doubles around it. *)
Definition ceil_div (a b : Z) : Z := - ((- a) / b).

(** A value of [req.query]: absent, a string, an array (a repeated
    parameter) or a nested object. *)
Inductive QueryValue : Type :=
  | QUndefined
  | QString (s : string)
  | QArray (l : list QueryValue)
  | QObject.

(** [String(v)], the conversion [parseInt] applies to its argument. An array
    is joined with commas, an undefined element printing as nothing. *)
Fixpoint ToString (v : QueryValue) : string :=
  match v with
  | QUndefined => "undefined"
  | QString s => s
  | QArray l =>
      (fix join (l : list QueryValue) : string :=
         match l with
         | [] => ""
         | x :: r =>
             let sx := match x with QUndefined => "" | _ => ToString x end in
             match r with
             | [] => sx
             | _ => sx ++ "," ++ join r
             end
         end) l
  | QObject => "[object Object]"
  end.

End JS.

Coercion JS.Int : Z >-> JS.Number.

(** ** Data model (models/user.js, models/file.js) *)

(** A store identifier: the 96-bit number an ObjectId prints in hexadecimal. *)
Abbreviation ObjectId := N (only parsing).

(** userSchema: [name] is required, [files] lists File identifiers. *)
Record User := mkUser {
  user_id : ObjectId;
  name : string;
  files : list ObjectId
}.

(** fileSchema: only [filename] is required; [pageCount] and [uploadedBy]
    are optional fields of the schema. *)
Record File := mkFile {
  file_id : ObjectId;
  filename : string;
  originalname : string;
  mimetype : string;
  size : Z;
  pageCount : option Z;
  uploadedBy : option ObjectId
}.

(** The members of a parsed request body that [new User(req.body)] reads:
    [_id], [name] and [files] (the schema is strict, other members are
    dropped). Each is given as the string the body holds: a form-encoded
    body holds nothing but strings, and a JSON body is followed when these
    members are strings (a list of strings for [files]). *)
Record UserFields := mkUserFields {
  field_id : option string;
  field_name : option string;
  field_files : list string
}.

Definition no_fields : UserFields :=
  {| field_id := None; field_name := None; field_files := [] |}.

(** The persistent state: the two collections, the identifier allocator and
    the [uploads/] directory. A collection is the list of its documents in
    the order in which they were inserted. *)
Record Store := mkStore {
  Users : list User;
  Files : list File;
  nextId : ObjectId;
  uploads : gmap string (list byte)
}.

Definition empty_store : Store :=
  {| Users := []; Files := []; nextId := 1%N; uploads := ∅ |}.

Definition set_Users (m : list User) (st : Store) : Store :=
  {| Users := m; Files := Files st; nextId := nextId st; uploads := uploads st |}.
Definition set_Files (l : list File) (st : Store) : Store :=
  {| Users := Users st; Files := l; nextId := nextId st; uploads := uploads st |}.
Definition set_nextId (n : ObjectId) (st : Store) : Store :=
  {| Users := Users st; Files := Files st; nextId := n; uploads := uploads st |}.
Definition set_uploads (d : gmap string (list byte)) (st : Store) : Store :=
  {| Users := Users st; Files := Files st; nextId := nextId st; uploads := d |}.

(** ** Promises and the handler monad *)

(** [err.message]. A message written in the source of the application, or
    reported by the store or the PDF library, is its text. A message that
    mongoose, the store or the file system composes is the data it is
    composed from: the text itself is not transcribed. *)
Inductive Message : Type :=
  | Text (s : string)
  | CastErrorMessage (value path model : string)
  | RequiredMessage (model path : string)
  | ValidationMessage (model path : string)
  | DuplicateKeyMessage (id : ObjectId)
  | NegativeSkipMessage
  | NoSuchFileMessage (fpath : string).

Coercion Text : string >-> Message.

Inductive Promise (A : Type) : Type :=
  | Resolved (a : A)
  | Rejected (message : Message).
Arguments Resolved {A} a.
Arguments Rejected {A} message.

(** An asynchronous computation over the store. *)
Definition Async (A : Type) : Type := Store -> Store * Promise A.

Definition ret {A} (a : A) : Async A := fun st => (st, Resolved a).
Definition throw {A} (message : Message) : Async A := fun st => (st, Rejected message).
Definition bind {A B} (m : Async A) (k : A -> Async B) : Async B :=
  fun st =>
    match m st with
    | (st', Resolved a) => k a st'
    | (st', Rejected e) => (st', Rejected e)
    end.
(** [try { m } catch (err) { h err.message }] *)
Definition try_catch {A} (m : Async A) (h : Message -> Async A) : Async A :=
  fun st =>
    match m st with
    | (st', Resolved a) => (st', Resolved a)
    | (st', Rejected e) => h e st'
    end.
Definition get_store : Async Store := fun st => (st, Resolved st).
Definition modify_store (f : Store -> Store) : Async unit := fun st => (f st, Resolved tt).

Declare Scope async_scope.
Delimit Scope async_scope with async.
Notation "'await' x <- m ;; k" := (bind m (fun x => k))
  (at level 10, x pattern, m at level 99, k at level 200) : async_scope.
Notation "'run' m ;; k" := (bind m (fun _ => k))
  (at level 10, m at level 99, k at level 200) : async_scope.

(** ** The environment of one request *)

(** The store operations a handler awaits. *)
Inductive StoreOp : Type :=
  | OpUserFindById | OpUserSave | OpUserFind | OpUserDelete
  | OpFileSave | OpFileFindById | OpFileFind | OpFileCount.

(** What the handler cannot decide: the clock read by [Date.now()]; for
    each store operation, whether the store fails it (and with what
    message); and the order in which the store hands out the documents of a
    query that has no sort clause, given as a rank of the documents (see
    [Mongoose.natural_order]). *)
Record Env := mkEnv {
  now : Z;
  fault : StoreOp -> option Message;
  scan_files : File -> Z;
  scan_users : User -> Z
}.

Definition no_fault : StoreOp -> option Message := fun _ => None.

(** The store scans in the order of insertion. *)
Definition insertion_order {A} : A -> Z := fun _ => 0.

(** Run a store operation unless the store fails it. *)
Definition store_op {A} (env : Env) (op : StoreOp) (m : Async A) : Async A :=
  match fault env op with
  | Some e => throw e
  | None => m
  end.

Local Open Scope async_scope.

(** ** The mongoose layer: casts, queries and saves *)

Module Mongoose.

Definition hexValue (c : ascii) : option N :=
  match JS.digitValue c with
  | Some d => if d <? 16 then Some (Z.to_N d) else None
  | None => None
  end.

Fixpoint parseHex (s : string) (acc : N) : option N :=
  match s with
  | EmptyString => Some acc
  | String c r =>
      match hexValue c with
      | Some d => parseHex r (acc * 16 + d)%N
      | None => None
      end
  end.

(** The cast of a request string to an ObjectId: exactly 24 hexadecimal
    digits. The statements below only use whether the cast succeeds, and
    that it fails for short strings such as [all]. *)
Definition castObjectId (s : string) : option ObjectId :=
  if Nat.eqb (String.length s) 24 then parseHex s 0%N else None.

(** The message of the CastError thrown for a malformed identifier: it
    names the value, the path and the model. *)
Definition CastError (value path model : string) : Message :=
  CastErrorMessage value path model.

(** The order in which the store hands out documents when the query gives
    no sort clause: by increasing rank, and in the order of insertion among
    documents of equal rank. Every arrangement of a collection is the
    natural order of some rank. *)
Fixpoint insert_by {A} (rank : A -> Z) (x : A) (l : list A) : list A :=
  match l with
  | [] => [x]
  | y :: r => if rank x <=? rank y then x :: l else y :: insert_by rank x r
  end.

Definition natural_order {A} (rank : A -> Z) (l : list A) : list A :=
  foldr (insert_by rank) [] l.

(** The [_id] that the driver generates when a document is constructed
    without one. The driver's identifiers do not repeat; the store hands
    them out from a counter here. *)
Definition new_ObjectId : Async ObjectId :=
  fun st => (set_nextId (N.succ (nextId st)) st, Resolved (nextId st)).

Definition find_user (oid : ObjectId) (l : list User) : option User :=
  List.find (fun u => N.eqb (user_id u) oid) l.

Definition find_file (oid : ObjectId) (l : list File) : option File :=
  List.find (fun f => N.eqb (file_id f) oid) l.

(** The collection with the document of that identifier replaced. *)
Definition replace_user (u' : User) (l : list User) : list User :=
  map (fun u => if N.eqb (user_id u) (user_id u') then u' else u) l.

(** The collection without the first document of that identifier. *)
Fixpoint remove_user (oid : ObjectId) (l : list User) : list User :=
  match l with
  | [] => []
  | u :: r => if N.eqb (user_id u) oid then r else u :: remove_user oid r
  end.

(** [User.findById(id)]: an undefined id finds nothing, a malformed one
    throws the cast error before the store is asked. *)
Definition User_findById (env : Env) (id : option string) : Async (option User) :=
  match id with
  | None => store_op env OpUserFindById (ret None)
  | Some s =>
      match castObjectId s with
      | None => throw (CastError s "_id" "User")
      | Some oid =>
          store_op env OpUserFindById
            (await st <- get_store ;; ret (find_user oid (Users st)))
      end
  end.

(** [user.save()] of a document read from the store: it replaces the
    stored document of the same identifier. *)
Definition User_save (env : Env) (u : User) : Async User :=
  store_op env OpUserSave
    (run modify_store (fun st => set_Users (replace_user u (Users st)) st) ;;
     ret u).

(** The message of the validation error for a missing required path. *)
Definition required_message (model path : string) : Message :=
  RequiredMessage model path.

(** [file.save()] of a new document: validated against the schema
    ([filename] is required), then appended to the collection. *)
Definition File_save (env : Env) (f : File) : Async File :=
  if String.eqb (filename f) "" then throw (required_message "File" "filename")
  else
    store_op env OpFileSave
      (run modify_store (fun st => set_Files (Files st ++ [f]) st) ;;
       ret f).

(** [File.findById(id).populate('uploadedBy', 'name')]: the owner reference
    is replaced by the owner's identifier and name, or by null when no such
    user exists. *)
Definition File_findById_populate (env : Env) (id : string)
  : Async (option (File * option (ObjectId * string))) :=
  match castObjectId id with
  | None => throw (CastError id "_id" "File")
  | Some oid =>
      await found <- store_op env OpFileFindById
                       (await st <- get_store ;; ret (find_file oid (Files st))) ;;
      match found with
      | None => ret None
      | Some f =>
          match uploadedBy f with
          | None => ret (Some (f, None))
          | Some uid =>
              await owner <- store_op env OpUserFind
                               (await st <- get_store ;; ret (find_user uid (Users st))) ;;
              ret (Some (f, option_map (fun u => (user_id u, name u)) owner))
          end
      end
  end.

Definition owned_by (oid : ObjectId) (f : File) : bool :=
  match uploadedBy f with
  | Some o => N.eqb o oid
  | None => false
  end.

(** [.skip(n)]: the store refuses a negative skip. *)
Definition apply_skip (n : Z) (l : list File) : Promise (list File) :=
  if n <? 0 then Rejected NegativeSkipMessage
  else Resolved (skipn (Z.to_nat n) l).

(** [.limit(n)]: zero means no limit, a negative limit counts as its
    absolute value. *)
Definition apply_limit (n : Z) (l : list File) : list File :=
  if n =? 0 then l else firstn (Z.to_nat (Z.abs n)) l.

(** [File.find({ uploadedBy: userId }).skip(skip).limit(limit)]: the
    matching documents in the order the store scans them, without the first
    [skip] and cut after [limit]. *)
Definition File_find_by_owner (env : Env) (userId : string) (skip limit : Z)
  : Async (list File) :=
  match castObjectId userId with
  | None => throw (CastError userId "uploadedBy" "File")
  | Some oid =>
      store_op env OpFileFind
        (await st <- get_store ;;
         match apply_skip skip
                 (natural_order (scan_files env) (List.filter (owned_by oid) (Files st))) with
         | Rejected e => throw e
         | Resolved l => ret (apply_limit limit l)
         end)
  end.

(** [File.countDocuments({ uploadedBy: userId })] *)
Definition File_countDocuments (env : Env) (userId : string) : Async Z :=
  match castObjectId userId with
  | None => throw (CastError userId "uploadedBy" "File")
  | Some oid =>
      store_op env OpFileCount
        (await st <- get_store ;;
         ret (Z.of_nat (length (List.filter (owned_by oid) (Files st)))))
  end.

(** [File.find()] *)
Definition File_find_all (env : Env) : Async (list File) :=
  store_op env OpFileFind
    (await st <- get_store ;; ret (natural_order (scan_files env) (Files st))).

(** [User.find()] *)
Definition User_find_all (env : Env) : Async (list User) :=
  store_op env OpUserFind
    (await st <- get_store ;; ret (natural_order (scan_users env) (Users st))).

(** [User.findById(id).populate('files')]: each listed identifier is
    replaced by its document, in the order of the list; identifiers of
    missing documents drop out. *)
Definition User_findById_populate (env : Env) (id : string)
  : Async (option (User * list File)) :=
  await found <- User_findById env (Some id) ;;
  match found with
  | None => ret None
  | Some u =>
      await docs <- store_op env OpFileFind
                      (await st <- get_store ;;
                       ret (omap (fun oid => find_file oid (Files st)) (files u))) ;;
      ret (Some (u, docs))
  end.

(** [User.findByIdAndDelete(id)] *)
Definition User_findByIdAndDelete (env : Env) (id : string) : Async (option User) :=
  match castObjectId id with
  | None => throw (CastError id "_id" "User")
  | Some oid =>
      store_op env OpUserDelete
        (await st <- get_store ;;
         run modify_store (fun st => set_Users (remove_user oid (Users st)) st) ;;
         ret (find_user oid (Users st)))
  end.

(** [new User(req.body)] followed by [user.save()]. The document takes the
    [_id] of the body when there is one, and a fresh one otherwise; [_id]
    and the [files] are cast, [name] is required and must not be empty; the
    store refuses a document whose [_id] is already in the collection. *)
Definition User_create (env : Env) (b : UserFields) : Async User :=
  await oid <- match field_id b with
               | None => new_ObjectId
               | Some s =>
                   match castObjectId s with
                   | Some oid => ret oid
                   | None => throw (ValidationMessage "User" "_id")
                   end
               end ;;
  match mapM castObjectId (field_files b) with
  | None => throw (ValidationMessage "User" "files")
  | Some ids =>
      match field_name b with
      | None => throw (required_message "User" "name")
      | Some n =>
          if String.eqb n "" then throw (required_message "User" "name")
          else
            let u := {| user_id := oid; name := n; files := ids |} in
            store_op env OpUserSave
              (await st <- get_store ;;
               match find_user oid (Users st) with
               | Some _ => throw (DuplicateKeyMessage oid)
               | None =>
                   run modify_store (fun st => set_Users (Users st ++ [u]) st) ;;
                   ret u
               end)
      end
  end.

End Mongoose.

(** ** Requests and responses *)

Inductive Method : Type := GET | POST | DELETE | OTHER.

(** The part of a multipart body that is named [file] and carries a file
    name, as the client sends it: the file name of its Content-Disposition
    header, the value of its Content-Type header (empty when the part has
    none) and its bytes. *)
Record RawPart := mkRawPart {
  raw_filename : string;
  raw_type : string;
  raw_content : list byte
}.

(** The same part as the multipart parser hands it to the upload
    middleware: [originalname] and [mimetype] of the [file] object that the
    filter and the storage callbacks of routes/files.js receive. *)
Record FilePart := mkFilePart {
  part_originalname : string;
  part_mimetype : string;
  part_content : list byte
}.

(** A request body: none, multipart form data (the [userId] field and the
    [file] part), or a JSON or form-encoded body (express.json and
    express.urlencoded of app.js), of which the members that the User
    schema reads are kept. *)
Inductive ReqBody : Type :=
  | NoBody
  | Multipart (userId : option string) (file : option RawPart)
  | Json (fields : UserFields)
  | Form (fields : UserFields).

(** [req.body] as [new User] reads it. *)
Definition body_fields (b : ReqBody) : UserFields :=
  match b with
  | Json f | Form f => f
  | _ => no_fields
  end.

(** [path] is the list of the (decoded, non-empty) segments of the URL. *)
Record Request := mkRequest {
  method : Method;
  path : list string;
  query : string -> JS.QueryValue;
  req_body : ReqBody
}.

(** The JSON documents the handlers send. *)
Inductive Body : Type :=
  | BError (error : Message)
  | BAppError (message : Message)
  | BMessage (message : string)
  | BFile (f : File)
  | BFilePopulated (f : File) (owner : option (ObjectId * string))
  | BFiles (l : list File)
  | BListing (files : list File) (totalPages total currentPage : Z)
  | BUser (u : User)
  | BUsers (l : list User)
  | BUserPopulated (u : User) (docs : list File)
  | BDocs
  | BNotFollowed.

Record Response := mkResponse {
  status : Z;
  body : Body
}.

(** [res.json(b)] and [res.status(s).json(b)] *)
Definition json (b : Body) : Response := {| status := 200; body := b |}.
Definition status_json (s : Z) (b : Body) : Response := {| status := s; body := b |}.

(** The answer to a request that takes the handler to numbers it is not
    followed on ([JS.Other]); it stands for whatever the application
    answers there, and no statement is about it. *)
Definition not_followed : Response := {| status := 0; body := BNotFollowed |}.

(** ** Route tables *)

Module Router.

(** A path pattern: literal segments and named parameters. *)
Inductive Seg : Type := Lit (s : string) | Param (name : string).

Definition lower (c : ascii) : ascii :=
  let n := N_of_ascii c in
  if (N.leb 65 n && N.leb n 90)%bool then ascii_of_N (n + 32) else c.

Fixpoint lowercase (s : string) : string :=
  match s with
  | EmptyString => EmptyString
  | String c r => String (lower c) (lowercase r)
  end.

(** Matching a pattern against the segments of a path (literals are
    compared without regard to case); the result binds the parameters. *)
Fixpoint match_path (pat : list Seg) (p : list string) : option (list (string * string)) :=
  match pat, p with
  | [], [] => Some []
  | Lit s :: pat', x :: p' =>
      if String.eqb (lowercase s) (lowercase x) then match_path pat' p' else None
  | Param n :: pat', x :: p' =>
      option_map (cons (n, x)) (match_path pat' p')
  | _, _ => None
  end.

Definition method_eqb (a b : Method) : bool :=
  match a, b with
  | GET, GET | POST, POST | DELETE, DELETE | OTHER, OTHER => true
  | _, _ => false
  end.

(** The first route, in registration order, whose method and pattern match. *)
Fixpoint find_route {R : Type} (routes : list (Method * list Seg * R))
    (m : Method) (p : list string) : option (R * list (string * string)) :=
  match routes with
  | [] => None
  | (m', pat, r) :: rest =>
      if method_eqb m' m then
        match match_path pat p with
        | Some params => Some (r, params)
        | None => find_route rest m p
        end
      else find_route rest m p
  end.

(** [req.params.name] *)
Fixpoint param (params : list (string * string)) (n : string) : string :=
  match params with
  | [] => ""
  | (k, v) :: rest => if String.eqb k n then v else param rest n
  end.

End Router.

(** ** The multipart parser (busboy) *)

Module Busboy.

(** The characters of an HTTP token. *)
Definition isToken (c : ascii) : bool :=
  let n := N_of_ascii c in
  (N.eqb n 33 || (N.leb 35 n && N.leb n 39) || N.eqb n 42 || N.eqb n 43 ||
   N.eqb n 45 || N.eqb n 46 || (N.leb 48 n && N.leb n 57) ||
   (N.leb 65 n && N.leb n 90) || (N.leb 94 n && N.leb n 122) ||
   N.eqb n 124 || N.eqb n 126)%bool.

(** The characters allowed unescaped inside a quoted parameter value. *)
Definition isQdtext (c : ascii) : bool :=
  let n := N_of_ascii c in
  (N.eqb n 9 || N.eqb n 32 || N.eqb n 33 || (N.leb 35 n && N.leb n 91) ||
   (N.leb 93 n && N.leb n 126) || N.leb 128 n)%bool.

Definition isBlank (c : ascii) : bool :=
  let n := N_of_ascii c in (N.eqb n 32 || N.eqb n 9)%bool.

(** The longest prefix of token characters, and what follows it. *)
Fixpoint span_token (s : string) : string * string :=
  match s with
  | String c r =>
      if isToken c then let '(t, rest) := span_token r in (String c t, rest)
      else (EmptyString, s)
  | EmptyString => (EmptyString, EmptyString)
  end.

(** Where the scan of the parameters of a Content-Type value stands:
    before a semicolon, after it, inside a name, at the start of a value,
    inside an unquoted value, inside a quoted one (after a backslash or
    not). *)
Inductive ParamState : Type :=
  | BeforeSemicolon | AfterSemicolon | InName | ValueStart | InValue
  | InQuoted (escaping : bool).

(** Whether what follows the subtype is a well-formed list of parameters
    ([parseContentTypeParams] does not give up). *)
Fixpoint params_ok (state : ParamState) (s : string) : bool :=
  match s with
  | EmptyString =>
      match state with
      | BeforeSemicolon | InValue => true
      | _ => false
      end
  | String c r =>
      match state with
      | BeforeSemicolon =>
          if isBlank c then params_ok BeforeSemicolon r
          else if Ascii.eqb c ";" then params_ok AfterSemicolon r
          else false
      | InValue =>
          if isToken c then params_ok InValue r
          else if isBlank c then params_ok BeforeSemicolon r
          else if Ascii.eqb c ";" then params_ok AfterSemicolon r
          else false
      | AfterSemicolon =>
          if isBlank c then params_ok AfterSemicolon r
          else if isToken c then params_ok InName r
          else if Ascii.eqb c "=" then params_ok ValueStart r
          else false
      | InName =>
          if isToken c then params_ok InName r
          else if Ascii.eqb c "=" then params_ok ValueStart r
          else false
      | ValueStart =>
          if Ascii.eqb c "034" then params_ok (InQuoted false) r
          else if isToken c then params_ok InValue r
          else false
      | InQuoted escaping =>
          if Ascii.eqb c "\" then params_ok (InQuoted (negb escaping)) r
          else if Ascii.eqb c "034"
          then (if escaping then params_ok (InQuoted false) r
                else params_ok BeforeSemicolon r)
          else if isQdtext c then params_ok (InQuoted false) r
          else false
      end
  end.

(** [parseContentType]: a type and a subtype made of token characters and
    separated by a slash, both put in lower case, then well-formed
    parameters, which are dropped. *)
Definition parseContentType (str : string) : option (string * string) :=
  let '(type, rest) := span_token str in
  match rest with
  | String "/" rest1 =>
      if String.eqb type "" then None
      else
        let '(subtype, rest2) := span_token rest1 in
        if String.eqb subtype "" then None
        else if params_ok BeforeSemicolon rest2
        then Some (Router.lowercase type, Router.lowercase subtype)
        else None
  | _ => None
  end.

(** The MIME type of a part: text/plain unless its Content-Type header
    parses. *)
Definition mimeType (header : string) : string :=
  match parseContentType header with
  | Some (type, subtype) => type ++ "/" ++ subtype
  | None => "text/plain"
  end.

Definition isSeparator (c : ascii) : bool :=
  (Ascii.eqb c "/" || Ascii.eqb c "\")%bool.

Fixpoint has_separator (s : string) : bool :=
  match s with
  | EmptyString => false
  | String c r => (isSeparator c || has_separator r)%bool
  end.

(** What follows the last slash or backslash. *)
Fixpoint last_segment (s : string) : string :=
  match s with
  | EmptyString => EmptyString
  | String c r =>
      if has_separator r then last_segment r
      else if isSeparator c then r
      else s
  end.

(** [basename]: the last segment of the declared file name, and nothing
    when that segment is [.] or [..]. *)
Definition basename (p : string) : string :=
  let b := last_segment p in
  if (String.eqb b ".." || String.eqb b ".")%bool then EmptyString else b.

(** The [file] event for a part: its file name without the directories
    (preservePath is off) and its MIME type. *)
Definition file (raw : RawPart) : FilePart :=
  {| part_originalname := basename (raw_filename raw);
     part_mimetype := mimeType (raw_type raw);
     part_content := raw_content raw |}.

End Busboy.

(** ** The upload middleware (multer) *)

Module Multer.

(** [req.file] *)
Record Uploaded := mkUploaded {
  up_filename : string;
  up_originalname : string;
  up_mimetype : string;
  up_size : Z;
  up_path : string
}.

(** limits: { fileSize: 5 * 1024 * 1024 } *)
Definition fileSize_limit : Z := 5 * 1024 * 1024.

(** fileFilter: only the MIME type application/pdf is let through, as the
    parser reports it. *)
Definition fileFilter (p : FilePart) : Promise bool :=
  if negb (String.eqb (part_mimetype p) "application/pdf")
  then Rejected "Only PDF files are allowed"
  else Resolved true.

Definition number_to_string (n : Z) : string := NilZero.string_of_int (Z.to_int n).

(** storage: destination uploads/, filename Date.now() + '-' + originalname *)
Definition destination : string := "uploads/".
Definition storage_filename (env : Env) (p : FilePart) : string :=
  number_to_string (now env) ++ "-" ++ part_originalname p.

(** [upload.single('file')]: a part whose file name is empty is passed
    over; the filter runs before anything is written; a file that reaches
    the size limit is refused and what was written of it is removed. *)
Definition single (env : Env) (part : option FilePart) : Async (option Uploaded) :=
  match part with
  | None => ret None
  | Some p =>
      if String.eqb (part_originalname p) "" then ret None
      else
      match fileFilter p with
      | Rejected e => throw e
      | Resolved _ =>
          let sz := Z.of_nat (length (part_content p)) in
          if fileSize_limit <=? sz then throw "File too large"
          else
            let fname := storage_filename env p in
            let fpath := destination ++ fname in
            run modify_store
                  (fun st => set_uploads (<[fpath := part_content p]> (uploads st)) st) ;;
            ret (Some {| up_filename := fname;
                         up_originalname := part_originalname p;
                         up_mimetype := part_mimetype p;
                         up_size := sz;
                         up_path := fpath |})
      end
  end.

End Multer.

(** [fs.readFileSync(path)] *)
Definition readFileSync (fpath : string) : Async (list byte) :=
  await st <- get_store ;;
  match uploads st !! fpath with
  | Some bytes => ret bytes
  | None => throw (NoSuchFileMessage fpath)
  end.

(** Lift a promise that does not touch the store. *)
Definition lift {A} (p : Promise A) : Async A := fun st => (st, p).


(** routes/files.js, in the order of the [router.post] / [router.get] calls *)
Inductive FilesRoute : Type := UploadFile | GetFileById | ListUserFiles | ListAllFiles.

Definition files_routes : list (Method * list Router.Seg * FilesRoute) :=
  [ (POST, [], UploadFile);
    (GET, [Router.Param "id"], GetFileById);
    (GET, [Router.Lit "user"; Router.Param "userId"], ListUserFiles);
    (GET, [Router.Lit "all"], ListAllFiles) ].

(** routes/users.js *)
Inductive UsersRoute : Type := ListUsers | GetUser | CreateUser | DeleteUser.

Definition users_routes : list (Method * list Router.Seg * UsersRoute) :=
  [ (GET, [], ListUsers);
    (GET, [Router.Param "id"], GetUser);
    (POST, [], CreateUser);
    (DELETE, [Router.Param "id"], DeleteUser) ].

(** ** The handlers *)

(** [parseInt(req.query.page) || 1] and [parseInt(req.query.limit) || 10] *)
Definition page_of (q : string -> JS.QueryValue) : JS.Number :=
  JS.or_default (JS.parseInt (JS.ToString (q "page"))) 1.
Definition limit_of (q : string -> JS.QueryValue) : JS.Number :=
  JS.or_default (JS.parseInt (JS.ToString (q "limit"))) 10.

Section Handlers.

(** [pdfLib.PDFDocument.load(bytes)] followed by [getPageCount()]: resolves
    with the page count, or rejects when the bytes are not a PDF document. *)
Variable PDFDocument_load : list byte -> Promise Z.

(** router.post('/', upload.single('file'), ...): the handler proper *)
Definition post_files_handler (env : Env) (userId : option string)
    (req_file : option Multer.Uploaded) : Async Response :=
  try_catch
    (match req_file with
     | None => ret (status_json 400 (BError "No file uploaded"))
     | Some f =>
         await user <- Mongoose.User_findById env userId ;;
         match user with
         | None => ret (status_json 404 (BError "User not found"))
         | Some user =>
             await bytes <- readFileSync (Multer.up_path f) ;;
             await pageCount <- lift (PDFDocument_load bytes) ;;
             await oid <- Mongoose.new_ObjectId ;;
             let file :=
               {| file_id := oid;
                  filename := Multer.up_filename f;
                  originalname := Multer.up_originalname f;
                  mimetype := Multer.up_mimetype f;
                  size := Multer.up_size f;
                  pageCount := Some pageCount;
                  uploadedBy := userId ≫= Mongoose.castObjectId |} in
             await savedFile <- Mongoose.File_save env file ;;
             let user' :=
               {| user_id := user_id user;
                  name := name user;
                  files := files user ++ [file_id savedFile] |} in
             run Mongoose.User_save env user' ;;
             ret (status_json 201 (BFile savedFile))
         end
     end)
    (fun err => ret (status_json 400 (BError err))).

(** The middleware, then the handler. A rejection here is the error the
    middleware passes to [next]. *)
Definition post_files_on (env : Env) (userId : option string)
    (part : option FilePart) : Async Response :=
  await req_file <- Multer.single env part ;;
  post_files_handler env userId req_file.

(** The route on a request body: the parser reads the [file] part first. *)
Definition post_files (env : Env) (b : ReqBody) : Async Response :=
  let '(userId, raw) :=
    match b with
    | Multipart userId raw => (userId, raw)
    | _ => (None, None)
    end in
  post_files_on env userId (option_map Busboy.file raw).

(** router.get('/:id', ...) of routes/files.js *)
Definition get_file (env : Env) (fileId : string) : Async Response :=
  try_catch
    (await file <- Mongoose.File_findById_populate env fileId ;;
     match file with
     | None => ret (status_json 404 (BError "File not found"))
     | Some (f, owner) => ret (json (BFilePopulated f owner))
     end)
    (fun err => ret (status_json 500 (BError err))).

(** router.get('/user/:userId', ...); the count of a collection is taken
    to be below 2^53. *)
Definition get_user_files (env : Env) (userId : string)
    (q : string -> JS.QueryValue) : Async Response :=
  try_catch
    (let page := page_of q in
     let limit := limit_of q in
     let skip := JS.mul (JS.sub page 1) limit in
     match page, limit, skip with
     | JS.Int page, JS.Int limit, JS.Int skip =>
         await files <- Mongoose.File_find_by_owner env userId skip limit ;;
         await totalFiles <- Mongoose.File_countDocuments env userId ;;
         let totalPages := JS.ceil_div totalFiles limit in
         ret (json (BListing files totalPages totalFiles page))
     | _, _, _ => ret not_followed
     end)
    (fun err => ret (status_json 500 (BError err))).

(** router.get('/all', ...) *)
Definition get_all_files (env : Env) : Async Response :=
  try_catch
    (await files <- Mongoose.File_find_all env ;;
     ret (json (BFiles files)))
    (fun err => ret (status_json 500 (BError err))).

(** routes/users.js *)
Definition get_users (env : Env) : Async Response :=
  try_catch
    (await users <- Mongoose.User_find_all env ;;
     ret (json (BUsers users)))
    (fun _ => ret (status_json 500 (BError "Failed to fetch users"))).

Definition get_user (env : Env) (id : string) : Async Response :=
  try_catch
    (await user <- Mongoose.User_findById_populate env id ;;
     match user with
     | None => ret (status_json 404 (BError "User not found"))
     | Some (u, docs) => ret (json (BUserPopulated u docs))
     end)
    (fun _ => ret (status_json 500 (BError "Failed to fetch user"))).

Definition post_users (env : Env) (b : ReqBody) : Async Response :=
  try_catch
    (await savedUser <- Mongoose.User_create env (body_fields b) ;;
     ret (status_json 201 (BUser savedUser)))
    (fun _ => ret (status_json 400 (BError "Failed to create user"))).

Definition delete_user (env : Env) (id : string) : Async Response :=
  try_catch
    (await user <- Mongoose.User_findByIdAndDelete env id ;;
     match user with
     | None => ret (status_json 404 (BError "User not found"))
     | Some _ => ret (json (BMessage "User deleted successfully"))
     end)
    (fun _ => ret (status_json 500 (BError "Failed to delete user"))).

(** ** The routers and the application (app.js) *)

(** A router answers with the handler of the first matching route, or with
    nothing when no route matches (the request goes on to the next
    middleware). *)
Definition files_router (env : Env) (req : Request) (p : list string)
  : option (Async Response) :=
  match Router.find_route files_routes (method req) p with
  | Some (UploadFile, _) => Some (post_files env (req_body req))
  | Some (GetFileById, ps) => Some (get_file env (Router.param ps "id"))
  | Some (ListUserFiles, ps) =>
      Some (get_user_files env (Router.param ps "userId") (query req))
  | Some (ListAllFiles, _) => Some (get_all_files env)
  | None => None
  end.

Definition users_router (env : Env) (req : Request) (p : list string)
  : option (Async Response) :=
  match Router.find_route users_routes (method req) p with
  | Some (ListUsers, _) => Some (get_users env)
  | Some (GetUser, ps) => Some (get_user env (Router.param ps "id"))
  | Some (CreateUser, _) => Some (post_users env (req_body req))
  | Some (DeleteUser, ps) => Some (delete_user env (Router.param ps "id"))
  | None => None
  end.

(** The mounts of app.js: /api-docs (only the page itself is modelled),
    /users, /files; whatever is left gets createError(404). *)
Definition mounted (env : Env) (req : Request) : option (Async Response) :=
  match path req with
  | [] => None
  | seg :: rest =>
      let seg := Router.lowercase seg in
      if String.eqb seg "users" then users_router env req rest
      else if String.eqb seg "files" then files_router env req rest
      else if (String.eqb seg "api-docs" && Router.method_eqb (method req) GET)%bool
      then match rest with [] => Some (ret (json BDocs)) | _ => None end
      else None
  end.

(** The final error handler: [res.status(err.status || 500)] with
    [{ message: err.message, error: err }]. Only createError(404) carries a
    status. *)
Definition app (env : Env) (req : Request) (st : Store) : Store * Response :=
  match mounted env req with
  | None => (st, status_json 404 (BAppError "Not Found"))
  | Some handler =>
      match handler st with
      | (st', Resolved r) => (st', r)
      | (st', Rejected e) => (st', status_json 500 (BAppError e))
      end
  end.

(** The stores the application can reach from the empty one. *)
Inductive reachable : Store -> Prop :=
  | reachable_empty : reachable empty_store
  | reachable_step st env req :
      reachable st -> reachable (fst (app env req st)).

End Handlers.

(** ** Sample data for the concrete instances *)

Module Sample.

(** A stand-in for the PDF library: a document is the header [%PDF]
    followed by one byte holding its page count. *)
Definition toy_pdf (bytes : list byte) : Promise Z :=
  match bytes with
  | x25 :: x50 :: x44 :: x46 :: n :: _ => Resolved (Z.of_N (Byte.to_N n))
  | _ => Rejected (Text "Failed to parse PDF document")
  end.

Definition one_page : list byte := [x25; x50; x44; x46; x01].
Definition garbage : list byte := [x68; x69].

Definition env0 : Env :=
  {| now := 1700000000000; fault := no_fault;
     scan_files := insertion_order; scan_users := insertion_order |}.

(** The store refuses the save of the owner, and nothing else. *)
Definition env_user_save_fails : Env :=
  {| now := 1700000000000;
     fault := fun op => match op with
                        | OpUserSave => Some (Text "connection lost")
                        | _ => None
                        end;
     scan_files := insertion_order; scan_users := insertion_order |}.

(** The store scans the Documents from the newest to the oldest. *)
Definition env_newest_first : Env :=
  {| now := 1700000000000; fault := no_fault;
     scan_files := fun f => - Z.of_N (file_id f); scan_users := insertion_order |}.

Definition no_query : string -> JS.QueryValue := fun _ => JS.QUndefined.

Definition page_query (page limit : string) : string -> JS.QueryValue :=
  fun k => if String.eqb k "page" then JS.QString page
           else if String.eqb k "limit" then JS.QString limit
           else JS.QUndefined.

Definition create_alice : Request :=
  {| method := POST; path := ["users"]; query := no_query;
     req_body := Json {| field_id := None; field_name := Some "Alice";
                         field_files := [] |} |}.

Definition alice_id : string := "000000000000000000000001".

(** A well-formed identifier that names no user. *)
Definition bob_id : string := "0000000000000000000000ff".

Definition pdf_part : FilePart :=
  {| part_originalname := "a.pdf"; part_mimetype := "application/pdf";
     part_content := one_page |}.
Definition text_part : FilePart :=
  {| part_originalname := "a.txt"; part_mimetype := "text/plain";
     part_content := garbage |}.
Definition broken_part : FilePart :=
  {| part_originalname := "b.pdf"; part_mimetype := "application/pdf";
     part_content := garbage |}.

(** The part a client sends for a file of that name, type and content. *)
Definition sent (p : FilePart) : RawPart :=
  {| raw_filename := part_originalname p; raw_type := part_mimetype p;
     raw_content := part_content p |}.

Definition upload_raw (userId : string) (raw : RawPart) : Request :=
  {| method := POST; path := ["files"]; query := no_query;
     req_body := Multipart (Some userId) (Some raw) |}.

Definition upload (userId : string) (p : FilePart) : Request :=
  upload_raw userId (sent p).

(** A one-page document declared in capitals, and one declared with a
    directory and a parameter. *)
Definition capitals_part : RawPart :=
  {| raw_filename := "a.pdf"; raw_type := "Application/PDF";
     raw_content := one_page |}.
Definition nested_part : RawPart :=
  {| raw_filename := "dir/sub/a.pdf"; raw_type := "application/pdf; charset=binary";
     raw_content := one_page |}.

Definition list_files (userId page limit : string) : Request :=
  {| method := GET; path := ["files"; "user"; userId];
     query := page_query page limit; req_body := NoBody |}.

(** The store after Alice was created. *)
Definition st_alice : Store := fst (app toy_pdf env0 create_alice empty_store).

(** The creation of Alice with a list that names the identifier of a
    Document that does not exist yet, and the store after it. *)
Definition create_alice_listing : Request :=
  {| method := POST; path := ["users"]; query := no_query;
     req_body := Json {| field_id := None; field_name := Some "Alice";
                         field_files := ["000000000000000000000002"] |} |}.
Definition st_listing : Store :=
  fst (app toy_pdf env0 create_alice_listing empty_store).

(** [n] uploads by Alice, one after the other. *)
Fixpoint uploads_by_alice (n : nat) (st : Store) : Store :=
  match n with
  | O => st
  | S n' => uploads_by_alice n' (fst (app toy_pdf env0 (upload alice_id pdf_part) st))
  end.

Definition st_alice_15 : Store := uploads_by_alice 15 st_alice.

End Sample.

(** ** Vocabulary of the statements *)

(** The file that the upload middleware takes up from the [file] part of a
    body: the part as the parser reports it, unless the file name it
    reports is empty. *)
Definition taken (raw : option RawPart) : option FilePart :=
  match raw with
  | Some r =>
      if String.eqb (part_originalname (Busboy.file r)) "" then None
      else Some (Busboy.file r)
  | None => None
  end.

(** A request that sends a part named [file] to POST /files. *)
Definition sends (req : Request) (userId : option string) (raw : RawPart) : Prop :=
  method req = POST /\ path req = ["files"] /\
  req_body req = Multipart userId (Some raw).

(** An upload request: POST /files with a multipart body, its [userId]
    field and the file the middleware takes up from it. *)
Definition is_upload (req : Request) (userId : option string) (part : option FilePart) : Prop :=
  method req = POST /\ path req = ["files"] /\
  exists raw, req_body req = Multipart userId raw /\ taken raw = part.

(** A listing request: GET /files/user/:userId. *)
Definition is_listing (req : Request) (userId : string) : Prop :=
  method req = GET /\ path req = ["files"; "user"; userId].

(** The file passes the middleware: it has a name, its type is the allowed
    one and its size is below the limit. *)
Definition accepted (p : FilePart) : Prop :=
  part_mimetype p = "application/pdf" /\
  part_originalname p <> "" /\
  Z.of_nat (length (part_content p)) < Multer.fileSize_limit.

(** The Owner record a request identifier resolves to, if any. *)
Definition owner_of (st : Store) (userId : option string) : option User :=
  match userId with
  | Some s =>
      match Mongoose.castObjectId s with
      | Some oid => Mongoose.find_user oid (Users st)
      | None => None
      end
  | None => None
  end.

(** The identifier is present but is not a store identifier. *)
Definition malformed (userId : option string) : Prop :=
  exists s, userId = Some s /\ Mongoose.castObjectId s = None.

(** The documents of an owner, in the order of the collection. *)
Definition documents_of (st : Store) (oid : ObjectId) : list File :=
  List.filter (Mongoose.owned_by oid) (Files st).

(** The documents of an owner in the order in which the store scans them
    for this request. *)
Definition scanned (env : Env) (st : Store) (oid : ObjectId) : list File :=
  Mongoose.natural_order (scan_files env) (documents_of st oid).

(** The response reports an internal (5xx) error. *)
Definition internal_error (r : Response) : Prop := 500 <= status r.

(** The response reports a success (2xx). *)
Definition success (r : Response) : Prop := 200 <= status r < 300.

(** Identifiers grow along the collection and are all below the allocator. *)
Definition ids_ordered (st : Store) : Prop :=
  StronglySorted N.lt (map file_id (Files st)) /\
  Forall (fun f => (file_id f < nextId st)%N) (Files st).

(** No Owner record lists the identifier the allocator hands out next. *)
Definition next_id_unlisted (st : Store) : Prop :=
  forall u, In u (Users st) -> ~ In (nextId st) (files u).

(** Every identifier an Owner record lists was handed out already. *)
Definition listed_below (st : Store) : Prop :=
  forall u, In u (Users st) -> Forall (fun i => (i < nextId st)%N) (files u).

(** The store as [Multer.single] leaves it after staging an accepted part,
    and the [req.file] it hands to the handler. *)
Definition staged (env : Env) (p : FilePart) (st : Store) : Store :=
  set_uploads (<[Multer.destination ++ Multer.storage_filename env p := part_content p]>
                 (uploads st)) st.

Definition req_file_of (env : Env) (p : FilePart) : Multer.Uploaded :=
  {| Multer.up_filename := Multer.storage_filename env p;
     Multer.up_originalname := part_originalname p;
     Multer.up_mimetype := part_mimetype p;
     Multer.up_size := Z.of_nat (length (part_content p));
     Multer.up_path := Multer.destination ++ Multer.storage_filename env p |}.

(** The Document record the pipeline builds for an accepted part. *)
Definition document_of (env : Env) (p : FilePart) (oid : ObjectId)
    (pages : Z) (owner : ObjectId) : File :=
  {| file_id := oid;
     filename := Multer.storage_filename env p;
     originalname := part_originalname p;
     mimetype := part_mimetype p;
     size := Z.of_nat (length (part_content p));
     pageCount := Some pages;
     uploadedBy := Some owner |}.

(** What one request may do to the Files collection and to the allocator:
    nothing, or append one Document that carries the identifier allocated
    for it and a page count. *)
Definition appends_at_most_one (st st' : Store) : Prop :=
  (nextId st <= nextId st')%N /\
  (Files st' = Files st \/
   exists f, Files st' = (Files st ++ [f])%list /\ file_id f = nextId st /\
             (nextId st < nextId st')%N /\ is_Some (pageCount f)).

(** The Owner record with the Document's identifier pushed on its list. *)
Definition linked (u : User) (f : File) : User :=
  {| user_id := user_id u; name := name u; files := files u ++ [file_id f] |}.

(** What the upload handler answers when the owner lookup finds nobody. *)
Definition unresolved_response (env : Env) (userId : option string) : Response :=
  let asked :=
    match fault env OpUserFindById with
    | Some e => status_json 400 (BError e)
    | None => status_json 404 (BError "User not found")
    end in
  match userId with
  | None => asked
  | Some s =>
      match Mongoose.castObjectId s with
      | None => status_json 400 (BError (Mongoose.CastError s "_id" "User"))
      | Some _ => asked
      end
  end.

(** ** Vocabulary of the further properties *)

(** The store after a sequence of requests, each with its environment. *)
Definition serve (pdf : list byte -> Promise Z) (reqs : list (Env * Request))
    (st : Store) : Store :=
  fold_left (fun s er => fst (app pdf (fst er) (snd er) s)) reqs st.

(** What the validator and the handler guarantee of a Document record. *)
Definition valid_document (f : File) : Prop :=
  mimetype f = "application/pdf" /\
  0 <= size f <= Multer.fileSize_limit /\
  filename f <> "" /\
  is_Some (pageCount f) /\
  is_Some (uploadedBy f).

(** The request carries no file part that the middleware takes up. *)
Definition no_file (b : ReqBody) : Prop :=
  match b with
  | Multipart _ raw => taken raw = None
  | _ => True
  end.

(** The documents of a listing answer (none for any other answer). *)
Definition listing_files (r : Response) : list File :=
  match body r with
  | BListing window _ _ _ => window
  | _ => []
  end.

(** A get-by-id request: GET /files/:id. *)
Definition is_get_file (req : Request) (id : string) : Prop :=
  method req = GET /\ path req = ["files"; id].

(** No character of the string is a hyphen. *)
Fixpoint no_hyphen (s : string) : Prop :=
  match s with
  | EmptyString => True
  | String c r => c <> "-"%char /\ no_hyphen r
  end.

(** Requests to routes/users.js. *)
Definition is_create_user (req : Request) : Prop :=
  method req = POST /\ path req = ["users"].
Definition is_get_user (req : Request) (id : string) : Prop :=
  method req = GET /\ path req = ["users"; id].
Definition is_delete_user (req : Request) (id : string) : Prop :=
  method req = DELETE /\ path req = ["users"; id].

(** The identifiers of the Owner records are pairwise distinct. *)
Definition user_ids_fresh (st : Store) : Prop :=
  NoDup (map user_id (Users st)).

(** The body of a POST /users, JSON or form-encoded, gives a non-empty
    name and well-formed file identifiers. *)
Definition user_body (b : ReqBody) (n : string) (ids : list ObjectId) : Prop :=
  field_name (body_fields b) = Some n /\ n <> "" /\
  mapM Mongoose.castObjectId (field_files (body_fields b)) = Some ids.

(** The identifier that a POST /users gives the new record: the [_id] of
    the body when there is one (none when it is malformed), and else the
    next identifier of the allocator. *)
Definition new_user_id (b : ReqBody) (st : Store) : option ObjectId :=
  match field_id (body_fields b) with
  | Some s => Mongoose.castObjectId s
  | None => Some (nextId st)
  end.

(** The body of a POST /users that the schema or the store turns away: no
    name or an empty one, a malformed file identifier, a malformed [_id],
    or an identifier that an Owner record of the store has already. *)
Definition refused_body (b : ReqBody) (st : Store) : Prop :=
  field_name (body_fields b) = None \/
  field_name (body_fields b) = Some "" \/
  mapM Mongoose.castObjectId (field_files (body_fields b)) = None \/
  match new_user_id b st with
  | None => True
  | Some oid => Mongoose.find_user oid (Users st) <> None
  end.

(** ** More sample data *)

Module Scenario.

(** The identifier the sample store hands out after Alice's. *)
Definition file_2 : string := "000000000000000000000002".

Definition get_file_req (id : string) : Request :=
  {| method := GET; path := ["files"; id]; query := Sample.no_query;
     req_body := NoBody |}.
Definition get_user_req (id : string) : Request :=
  {| method := GET; path := ["users"; id]; query := Sample.no_query;
     req_body := NoBody |}.
Definition delete_user_req (id : string) : Request :=
  {| method := DELETE; path := ["users"; id]; query := Sample.no_query;
     req_body := NoBody |}.
(** The members of a body that only gives a name. *)
Definition named (n : string) : UserFields :=
  {| field_id := None; field_name := Some n; field_files := [] |}.

Definition create_user_req (b : ReqBody) : Request :=
  {| method := POST; path := ["users"]; query := Sample.no_query; req_body := b |}.

(** A JSON body that asks for the identifier Alice has. *)
Definition alice_again : ReqBody :=
  Json {| field_id := Some Sample.alice_id; field_name := Some "Alice";
          field_files := [] |}.

(** An upload request whose multipart body has no file part. *)
Definition upload_nothing : Request :=
  {| method := POST; path := ["files"]; query := Sample.no_query;
     req_body := Multipart (Some Sample.alice_id) None |}.

(** A payload one byte over the size limit. *)
Definition big_part : FilePart :=
  {| part_originalname := "big.pdf"; part_mimetype := "application/pdf";
     part_content := repeat x00 (Z.to_nat (Multer.fileSize_limit + 1)) |}.

(** Alice's first upload, the deletion of Alice once she has fifteen
    Documents, and the creation of Bob. *)
Definition uploaded : Store * Response :=
  app Sample.toy_pdf Sample.env0 (Sample.upload Sample.alice_id Sample.pdf_part)
    Sample.st_alice.
Definition alice_deleted : Store * Response :=
  app Sample.toy_pdf Sample.env0 (delete_user_req Sample.alice_id) Sample.st_alice_15.
Definition uploaded_nested : Store * Response :=
  app Sample.toy_pdf Sample.env0 (Sample.upload_raw Sample.alice_id Sample.nested_part)
    Sample.st_alice.
Definition bob_created : Store * Response :=
  app Sample.toy_pdf Sample.env0 (create_user_req (Form (named "Bob")))
    Sample.st_alice.

(** The request for page [i + 1] of Alice's documents, ten to a page. *)
Definition page_req (i : nat) : Request :=
  Sample.list_files Sample.alice_id (match i with O => "1" | _ => "2" end) "10".

End Scenario.

(** * Properties *)

(** ** JavaScript primitives *)

Example parseInt_plain : JS.parseInt "15" = 15.
Proof. reflexivity. Qed.

Example parseInt_prefix : JS.parseInt "  12abc" = 12.
Proof. reflexivity. Qed.

Example parseInt_hex : JS.parseInt "0x1f" = 31.
Proof. reflexivity. Qed.

Example parseInt_negative : JS.parseInt "-3" = -3.
Proof. reflexivity. Qed.

Example parseInt_nan :
  JS.parseInt "abc" = JS.NaN /\ JS.parseInt "" = JS.NaN /\ JS.parseInt "0x" = JS.NaN.
Proof. repeat split; reflexivity. Qed.

Example parseInt_undefined : JS.parseInt (JS.ToString JS.QUndefined) = JS.NaN.
Proof. reflexivity. Qed.

Example parseInt_array :
  JS.parseInt (JS.ToString (JS.QArray [JS.QString "2"; JS.QString "7"])) = 2.
Proof. reflexivity. Qed.

(** A no-break space (U+00A0) and a byte order mark (U+FEFF) are skipped
    like a blank. *)
Example parseInt_no_break_space :
  JS.parseInt (String "194" (String "160" "2")) = 2 /\
  JS.parseInt (String "239" (String "187" (String "191" " 7"))) = 7.
Proof. split; reflexivity. Qed.

(** The largest integer that is followed, and the first that is not. *)
Example parseInt_beyond_safe_integers :
  JS.parseInt "9007199254740991" = 9007199254740991 /\
  JS.parseInt "9007199254740993" = JS.Other /\
  JS.parseInt "-9007199254740993" = JS.Other.
Proof. repeat split; reflexivity. Qed.

(** The type that the parser reports for a declared Content-Type. *)
Example mimeType_examples :
  Busboy.mimeType "application/pdf" = "application/pdf" /\
  Busboy.mimeType "Application/PDF" = "application/pdf" /\
  Busboy.mimeType "application/pdf; charset=binary" = "application/pdf" /\
  Busboy.mimeType "application/x-pdf" = "application/x-pdf" /\
  Busboy.mimeType "pdf" = "text/plain" /\
  Busboy.mimeType "" = "text/plain".
Proof. repeat split; reflexivity. Qed.

(** The file name that the parser reports for a declared one. *)
Example basename_examples :
  Busboy.basename "a.pdf" = "a.pdf" /\
  Busboy.basename "dir/sub/a.pdf" = "a.pdf" /\
  Busboy.basename "C:\docs\a.pdf" = "a.pdf" /\
  Busboy.basename "dir/" = "" /\
  Busboy.basename ".." = "" /\
  Busboy.basename "" = "".
Proof. repeat split; reflexivity. Qed.

Example ceil_div_examples :
  JS.ceil_div 15 10 = 2 /\ JS.ceil_div 20 10 = 2 /\ JS.ceil_div 0 10 = 0.
Proof. repeat split; reflexivity. Qed.

Example castObjectId_examples :
  Mongoose.castObjectId Sample.alice_id = Some 1%N /\
  Mongoose.castObjectId "all" = None /\
  Mongoose.castObjectId "xyz" = None.
Proof. repeat split; reflexivity. Qed.

(** ** The monad and the middleware *)

Ltac unfold_async :=
  unfold store_op in *;
  unfold bind, ret, throw, try_catch, lift, get_store, modify_store in *.

Ltac unfold_handlers :=
  unfold get_file, get_user_files, get_all_files, get_users, get_user, post_users,
    delete_user, post_files, post_files_on, post_files_handler, Multer.single,
    Multer.fileFilter,
    readFileSync,
    Mongoose.File_findById_populate, Mongoose.File_find_by_owner,
    Mongoose.File_countDocuments, Mongoose.File_find_all, Mongoose.User_find_all,
    Mongoose.User_findById_populate, Mongoose.User_findById,
    Mongoose.User_findByIdAndDelete, Mongoose.User_create, Mongoose.User_save,
    Mongoose.File_save, Mongoose.new_ObjectId, Mongoose.apply_skip in *;
  unfold_async.

(** A part sent with a plain file name and a type in lower case is taken
    up as it is. *)
Lemma taken_sent p :
  Busboy.basename (part_originalname p) = part_originalname p ->
  part_originalname p <> "" ->
  Busboy.mimeType (part_mimetype p) = part_mimetype p ->
  taken (Some (Sample.sent p)) = Some p.
Proof.
  intros Hbase Hname Hmime. unfold taken, Busboy.file, Sample.sent.
  cbn [raw_filename raw_type raw_content part_originalname].
  rewrite Hbase, Hmime. apply String.eqb_neq in Hname. rewrite Hname.
  destruct p; reflexivity.
Qed.

Lemma is_upload_sent userId p :
  Busboy.basename (part_originalname p) = part_originalname p ->
  part_originalname p <> "" ->
  Busboy.mimeType (part_mimetype p) = part_mimetype p ->
  is_upload (Sample.upload userId p) (Some userId) (Some p).
Proof.
  intros Hbase Hname Hmime. split; [reflexivity|]. split; [reflexivity|].
  exists (Some (Sample.sent p)). split; [reflexivity|].
  apply taken_sent; assumption.
Qed.

(** Concrete instances: the request is an upload of the file, and the
    file is accepted. *)
Ltac solve_upload :=
  apply is_upload_sent; [vm_compute; reflexivity|discriminate|vm_compute; reflexivity].
Ltac solve_accepted :=
  split; [reflexivity|split; [discriminate|vm_compute; reflexivity]].

Ltac split_cases :=
  repeat (case_match; simplify_eq; simpl in *; try reflexivity).

Lemma single_accepted env p st :
  accepted p ->
  Multer.single env (Some p) st = (staged env p st, Resolved (Some (req_file_of env p))).
Proof.
  intros (Hmime & Hname & Hsize). unfold Multer.single, Multer.fileFilter.
  apply String.eqb_neq in Hname. rewrite Hname.
  rewrite (proj2 (String.eqb_eq _ _) Hmime). simpl.
  destruct (Z.leb_spec Multer.fileSize_limit (Z.of_nat (length (part_content p)))); [lia|].
  reflexivity.
Qed.

Lemma single_wrong_type env p st :
  part_originalname p <> "" ->
  part_mimetype p <> "application/pdf" ->
  Multer.single env (Some p) st = (st, Rejected "Only PDF files are allowed").
Proof.
  intros Hname Hmime. unfold Multer.single, Multer.fileFilter.
  apply String.eqb_neq in Hname. rewrite Hname.
  apply String.eqb_neq in Hmime. rewrite Hmime. reflexivity.
Qed.

(** The middleware does the same on the part as the parser reports it and
    on the file it takes up from it. *)
Lemma single_taken env raw :
  Multer.single env (option_map Busboy.file raw) = Multer.single env (taken raw).
Proof.
  destruct raw as [r|]; [|reflexivity]. unfold taken. cbn [option_map].
  destruct (String.eqb (part_originalname (Busboy.file r)) "") eqn:Hname;
    [|reflexivity].
  unfold Multer.single. rewrite Hname. reflexivity.
Qed.

Lemma taken_named raw p : taken raw = Some p -> part_originalname p <> "".
Proof.
  destruct raw as [r|]; [|discriminate]. unfold taken.
  destruct (String.eqb_spec (part_originalname (Busboy.file r)) "");
    [discriminate|].
  intros [= <-]. assumption.
Qed.

Lemma upload_named req userId p : is_upload req userId (Some p) -> part_originalname p <> "".
Proof. intros (_ & _ & raw & _ & Ht). exact (taken_named _ _ Ht). Qed.

Lemma post_files_taken pdf env userId raw :
  post_files pdf env (Multipart userId raw) = post_files_on pdf env userId (taken raw).
Proof. unfold post_files, post_files_on. rewrite single_taken. reflexivity. Qed.

Lemma app_upload pdf env req userId part st :
  is_upload req userId part ->
  app pdf env req st =
    match post_files_on pdf env userId part st with
    | (st', Resolved r) => (st', r)
    | (st', Rejected e) => (st', status_json 500 (BAppError e))
    end.
Proof.
  intros (Hm & Hp & raw & Hb & Ht). unfold app, mounted, files_router.
  rewrite Hp, Hm, Hb. cbn -[post_files]. rewrite post_files_taken, Ht. reflexivity.
Qed.

Lemma staged_records env p st :
  Users (staged env p st) = Users st /\ Files (staged env p st) = Files st /\
  nextId (staged env p st) = nextId st.
Proof. repeat split. Qed.

Lemma read_staged env p st :
  readFileSync (Multer.up_path (req_file_of env p)) (staged env p st)
  = (staged env p st, Resolved (part_content p)).
Proof.
  unfold readFileSync. unfold_async. simpl. rewrite lookup_insert_eq. reflexivity.
Qed.

Lemma single_records env part st st' r :
  Multer.single env part st = (st', r) ->
  Users st' = Users st /\ Files st' = Files st /\ nextId st' = nextId st.
Proof.
  unfold Multer.single. unfold_async. intros H.
  repeat case_match; simplify_eq; auto.
Qed.

(** ** The owner lookup *)

Lemma findById_store env userId st :
  fst (Mongoose.User_findById env userId st) = st.
Proof.
  unfold Mongoose.User_findById. unfold_async.
  repeat case_match; reflexivity.
Qed.

Lemma findById_unresolved env userId st :
  owner_of st userId = None ->
  forall u, snd (Mongoose.User_findById env userId st) <> Resolved (Some u).
Proof.
  unfold owner_of, Mongoose.User_findById. unfold_async.
  intros H u. repeat case_match; simpl; congruence.
Qed.

Lemma findById_resolved env s oid u st :
  Mongoose.castObjectId s = Some oid ->
  Mongoose.find_user oid (Users st) = Some u ->
  fault env OpUserFindById = None ->
  Mongoose.User_findById env (Some s) st = (st, Resolved (Some u)).
Proof.
  intros Hc Hu Hf. unfold Mongoose.User_findById. unfold_async.
  rewrite Hc, Hf. simpl. rewrite Hu. reflexivity.
Qed.

(** The handler writes nothing when the owner does not resolve. *)
Lemma handler_unresolved_writes_nothing pdf env userId req_file st :
  owner_of st userId = None ->
  fst (post_files_handler pdf env userId req_file st) = st.
Proof.
  intros Hown. unfold post_files_handler.
  destruct req_file as [f|]; [|reflexivity].
  unfold try_catch, bind at 1.
  pose proof (findById_store env userId st) as Hst.
  pose proof (findById_unresolved env userId st Hown) as Hres.
  destruct (Mongoose.User_findById env userId st) as [st1 [[u|]|e]]; simpl in *; subst.
  - exfalso. eapply Hres. reflexivity.
  - reflexivity.
  - reflexivity.
Qed.

(** ** The pipeline on an accepted part whose owner resolves *)

Lemma storage_filename_nonempty env p :
  String.eqb (Multer.storage_filename env p) "" = false.
Proof.
  unfold Multer.storage_filename.
  destruct (Multer.number_to_string (now env)); reflexivity.
Qed.

Lemma pipeline pdf env s p oid u pages st :
  accepted p ->
  Mongoose.castObjectId s = Some oid ->
  Mongoose.find_user oid (Users st) = Some u ->
  fault env OpUserFindById = None ->
  pdf (part_content p) = Resolved pages ->
  post_files_on pdf env (Some s) (Some p) st =
    let st1 := set_nextId (N.succ (nextId st)) (staged env p st) in
    let doc := document_of env p (nextId st) pages oid in
    match fault env OpFileSave with
    | Some e => (st1, Resolved (status_json 400 (BError e)))
    | None =>
        let st2 := set_Files (Files st ++ [doc]) st1 in
        match fault env OpUserSave with
        | Some e => (st2, Resolved (status_json 400 (BError e)))
        | None =>
            (set_Users (Mongoose.replace_user (linked u doc) (Users st)) st2,
             Resolved (status_json 201 (BFile doc)))
        end
    end.
Proof.
  intros Hacc Hcast Hfind Hfault Hpdf.
  unfold post_files_on. unfold bind at 1. rewrite (single_accepted _ _ _ Hacc).
  unfold post_files_handler, try_catch. unfold bind at 1.
  rewrite (findById_resolved env s oid u (staged env p st) Hcast Hfind Hfault).
  unfold bind at 1. rewrite read_staged.
  unfold bind at 1, lift. rewrite Hpdf.
  unfold bind at 1, Mongoose.new_ObjectId.
  unfold Mongoose.File_save, Mongoose.User_save. simpl filename.
  rewrite storage_filename_nonempty. simpl.
  unfold_async. rewrite Hcast.
  destruct (fault env OpFileSave); [reflexivity|].
  destruct (fault env OpUserSave); reflexivity.
Qed.


(** A 201 answer is only sent at the end of the whole pipeline. *)
Lemma upload_created_inv pdf env userId part st st' r :
  post_files_on pdf env userId part st = (st', Resolved r) ->
  status r = 201 ->
  exists s p oid u pages,
    userId = Some s /\ part = Some p /\ accepted p /\
    Mongoose.castObjectId s = Some oid /\
    Mongoose.find_user oid (Users st) = Some u /\
    fault env OpUserFindById = None /\
    pdf (part_content p) = Resolved pages /\
    fault env OpFileSave = None /\ fault env OpUserSave = None.
Proof.
  intros Hrun Hst.
  destruct part as [p|]; [|cbv in Hrun; simplify_eq; discriminate].
  unfold post_files_on, Multer.single, Multer.fileFilter in Hrun.
  unfold bind at 1 in Hrun.
  destruct (String.eqb_spec (part_originalname p) "") as [Hname|Hname];
    [cbv in Hrun; simplify_eq; discriminate|].
  destruct (String.eqb_spec (part_mimetype p) "application/pdf") as [Hmime|Hmime];
    simpl in Hrun; [|discriminate].
  destruct (Z.leb_spec Multer.fileSize_limit (Z.of_nat (length (part_content p))))
    as [Hsz|Hsz]; simpl in Hrun; [discriminate|].
  assert (Hacc : accepted p) by (repeat split; assumption).
  unfold post_files_handler, Mongoose.User_findById, readFileSync,
    Mongoose.new_ObjectId, Mongoose.File_save, Mongoose.User_save in Hrun.
  unfold_async. simpl in Hrun.
  repeat (first [ rewrite lookup_insert_eq in Hrun
                | case_match; simplify_eq; simpl in *; try discriminate ]).
  all: try (cbv in Hst; discriminate).
  match goal with
  | Hl : _ !! _ = Some _ |- _ => rewrite lookup_insert_eq in Hl; simplify_eq
  end.
  eexists _, _, _, _, _. repeat split; eauto.
Qed.

Lemma find_user_spec oid l u :
  Mongoose.find_user oid l = Some u -> user_id u = oid /\ In u l.
Proof.
  unfold Mongoose.find_user. intros H.
  apply List.find_some in H as [Hin Heq]. apply N.eqb_eq in Heq. auto.
Qed.

Lemma find_replace_user oid l u u' :
  Mongoose.find_user oid l = Some u ->
  user_id u' = oid ->
  Mongoose.find_user oid (Mongoose.replace_user u' l) = Some u'.
Proof.
  unfold Mongoose.find_user, Mongoose.replace_user. intros Hfind Hid. subst oid.
  induction l as [|x l IH]; simpl in *; [discriminate|].
  destruct (N.eqb_spec (user_id x) (user_id u')) as [Heq|Hne].
  - simpl. rewrite N.eqb_refl. reflexivity.
  - simpl. destruct (N.eqb_spec (user_id x) (user_id u')); [contradiction|].
    apply IH, Hfind.
Qed.

Lemma count_occ_push (l : list ObjectId) (x : ObjectId) :
  ~ In x l -> count_occ N.eq_dec (l ++ [x]) x = 1%nat.
Proof.
  intros Hnot. rewrite count_occ_app.
  rewrite (proj1 (count_occ_not_In N.eq_dec l x) Hnot). simpl.
  destruct (N.eq_dec x x); [reflexivity|contradiction].
Qed.


(** ** The pipeline when the owner does not resolve *)

Lemma pipeline_unresolved pdf env userId p st :
  accepted p ->
  owner_of st userId = None ->
  post_files_on pdf env userId (Some p) st =
    (staged env p st, Resolved (unresolved_response env userId)).
Proof.
  intros Hacc Hown.
  unfold post_files_on. unfold bind at 1. rewrite (single_accepted _ _ _ Hacc).
  unfold post_files_handler, unresolved_response, owner_of, Mongoose.User_findById in *.
  unfold_async. simpl.
  repeat (case_match; simplify_eq; simpl in *; try reflexivity; try congruence).
Qed.

(** ** The pipeline when the payload does not parse *)


(** ** Rejection by the validator *)

Lemma app_wrong_media_type pdf env req userId p st :
  is_upload req userId (Some p) ->
  part_mimetype p <> "application/pdf" ->
  app pdf env req st = (st, status_json 500 (BAppError "Only PDF files are allowed")).
Proof.
  intros Hup Hmime. rewrite (app_upload _ _ _ _ _ _ Hup).
  unfold post_files_on. unfold bind at 1.
  rewrite (single_wrong_type _ _ _ (upload_named _ _ _ Hup) Hmime). reflexivity.
Qed.

Lemma sends_upload req userId raw :
  sends req userId raw -> is_upload req userId (taken (Some raw)).
Proof. intros (Hm & Hp & Hb). repeat split; eauto. Qed.

Lemma taken_with_name raw :
  Busboy.basename (raw_filename raw) <> "" -> taken (Some raw) = Some (Busboy.file raw).
Proof.
  intros Hname. unfold taken. apply String.eqb_neq in Hname.
  cbn [Busboy.file part_originalname]. rewrite Hname. reflexivity.
Qed.

(** C7, as stated, fails: the validator compares the type that the parser
    reports, which is the declared type in lower case; a part declared
    Application/PDF is not declared exactly application/pdf, and yet it is
    stored, recorded and answered with 201. *)
Lemma declared_type_in_capitals_is_accepted :
  sends (Sample.upload_raw Sample.alice_id Sample.capitals_part)
        (Some Sample.alice_id) Sample.capitals_part /\
  raw_type Sample.capitals_part <> "application/pdf" /\
  status (snd (app Sample.toy_pdf Sample.env0
                   (Sample.upload_raw Sample.alice_id Sample.capitals_part)
                   Sample.st_alice)) = 201 /\
  map mimetype (Files (fst (app Sample.toy_pdf Sample.env0
                                (Sample.upload_raw Sample.alice_id Sample.capitals_part)
                                Sample.st_alice))) = ["application/pdf"] /\
  uploads (fst (app Sample.toy_pdf Sample.env0
                    (Sample.upload_raw Sample.alice_id Sample.capitals_part)
                    Sample.st_alice)) !! "uploads/1700000000000-a.pdf"
  = Some Sample.one_page.
Proof.
  split; [repeat split|]. split; [discriminate|].
  split; [vm_compute; reflexivity|]. split; [vm_compute; reflexivity|].
  vm_compute. reflexivity.
Qed.

(** C7, amended: an upload of a part with a file name whose content type,
    as the parser reads it (type and subtype of the Content-Type header in
    lower case, parameters dropped, text/plain when the header does not
    parse), is not application/pdf is rejected with the error "Only PDF
    files are allowed", and the whole store is left as it was: no Owner
    record, no Document record, no identifier and no byte of the upload
    directory changes. *)
Theorem wrong_media_type_rejected_before_any_write pdf env req userId raw st :
  sends req userId raw ->
  Busboy.basename (raw_filename raw) <> "" ->
  Busboy.mimeType (raw_type raw) <> "application/pdf" ->
  app pdf env req st = (st, status_json 500 (BAppError "Only PDF files are allowed")).
Proof.
  intros Hsend Hname Hmime. apply sends_upload in Hsend.
  rewrite (taken_with_name _ Hname) in Hsend.
  exact (app_wrong_media_type _ _ _ _ _ _ Hsend Hmime).
Qed.

Lemma wrong_media_type_rejected_witness :
  sends (Sample.upload Sample.alice_id Sample.text_part)
        (Some Sample.alice_id) (Sample.sent Sample.text_part) /\
  Busboy.basename (raw_filename (Sample.sent Sample.text_part)) <> "" /\
  Busboy.mimeType (raw_type (Sample.sent Sample.text_part)) <> "application/pdf" /\
  app Sample.toy_pdf Sample.env0 (Sample.upload Sample.alice_id Sample.text_part)
      Sample.st_alice
  = (Sample.st_alice, status_json 500 (BAppError "Only PDF files are allowed")).
Proof.
  assert (H1 : sends (Sample.upload Sample.alice_id Sample.text_part)
                 (Some Sample.alice_id) (Sample.sent Sample.text_part))
    by (repeat split).
  assert (H2 : Busboy.basename (raw_filename (Sample.sent Sample.text_part)) <> "")
    by (vm_compute; discriminate).
  assert (H3 : Busboy.mimeType (raw_type (Sample.sent Sample.text_part))
               <> "application/pdf")
    by (vm_compute; discriminate).
  split; [exact H1|]. split; [exact H2|]. split; [exact H3|].
  exact (wrong_media_type_rejected_before_any_write
           Sample.toy_pdf Sample.env0 _ _ _ Sample.st_alice H1 H2 H3).
Defined.

(** ** Owner not found *)

(** C5, as stated, fails: an identifier that is not a store identifier does
    not resolve to an Owner, yet the upload is answered with the catch-all
    400 and the cast error, not with 404 "User not found". *)
Lemma malformed_owner_id_not_reported_as_not_found :
  is_upload (Sample.upload "xyz" Sample.pdf_part) (Some "xyz") (Some Sample.pdf_part) /\
  accepted Sample.pdf_part /\
  owner_of Sample.st_alice (Some "xyz") = None /\
  status (snd (app Sample.toy_pdf Sample.env0
                   (Sample.upload "xyz" Sample.pdf_part) Sample.st_alice)) = 400 /\
  snd (app Sample.toy_pdf Sample.env0
           (Sample.upload "xyz" Sample.pdf_part) Sample.st_alice)
  <> status_json 404 (BError "User not found").
Proof.
  split; [solve_upload|]. split; [solve_accepted|].
  split; [reflexivity|]. split; [reflexivity|]. vm_compute. discriminate.
Qed.

Lemma app_upload_store pdf env req userId part st :
  is_upload req userId part ->
  fst (app pdf env req st) = fst (post_files_on pdf env userId part st).
Proof.
  intros Hup. rewrite (app_upload _ _ _ _ _ _ Hup).
  destruct (post_files_on pdf env userId part st) as [st' [r|e]]; reflexivity.
Qed.

Lemma post_files_unresolved_records pdf env userId part st :
  owner_of st userId = None ->
  Users (fst (post_files_on pdf env userId part st)) = Users st /\
  Files (fst (post_files_on pdf env userId part st)) = Files st.
Proof.
  intros Hown. unfold post_files_on, bind.
  destruct (Multer.single env part st) as [st1 [f|e]] eqn:Hs;
    apply single_records in Hs as (HU & HF & _); [|auto].
  rewrite handler_unresolved_writes_nothing; [auto|].
  unfold owner_of in *. rewrite HU. exact Hown.
Qed.

(** C5, amended: when the supplied Owner identifier resolves to no Owner
    record, no Document record is created and no Owner record is changed;
    for a file that passed the validator the answer is 404 "User not found"
    when the identifier is absent or well formed (and the store answers the
    lookup), and the 400 carrying the cast error when the identifier is
    malformed. *)
Theorem unresolved_owner_writes_nothing pdf env req userId part st :
  is_upload req userId part ->
  owner_of st userId = None ->
  Users (fst (app pdf env req st)) = Users st /\
  Files (fst (app pdf env req st)) = Files st /\
  (forall p, part = Some p -> accepted p ->
     (~ malformed userId -> fault env OpUserFindById = None ->
      snd (app pdf env req st) = status_json 404 (BError "User not found")) /\
     (forall s, userId = Some s -> Mongoose.castObjectId s = None ->
      snd (app pdf env req st)
      = status_json 400 (BError (Mongoose.CastError s "_id" "User")))).
Proof.
  intros Hup Hown.
  rewrite (app_upload_store _ _ _ _ _ _ Hup).
  destruct (post_files_unresolved_records pdf env userId part st Hown) as [HU HF].
  split; [exact HU|]. split; [exact HF|].
  intros p -> Hacc. rewrite (app_upload _ _ _ _ _ _ Hup).
  rewrite (pipeline_unresolved _ _ _ _ _ Hacc Hown). simpl. split.
  - intros Hwf Hfault. unfold unresolved_response. rewrite Hfault.
    destruct userId as [s|]; [|reflexivity].
    destruct (Mongoose.castObjectId s) eqn:Hcast; [reflexivity|].
    exfalso. apply Hwf. exists s. auto.
  - intros s -> Hcast. unfold unresolved_response. rewrite Hcast. reflexivity.
Qed.

Lemma unresolved_owner_writes_nothing_witness :
  owner_of Sample.st_alice (Some Sample.bob_id) = None /\
  Users (fst (app Sample.toy_pdf Sample.env0
                  (Sample.upload Sample.bob_id Sample.pdf_part) Sample.st_alice))
  = Users Sample.st_alice /\
  Files (fst (app Sample.toy_pdf Sample.env0
                  (Sample.upload Sample.bob_id Sample.pdf_part) Sample.st_alice))
  = Files Sample.st_alice /\
  snd (app Sample.toy_pdf Sample.env0
           (Sample.upload Sample.bob_id Sample.pdf_part) Sample.st_alice)
  = status_json 404 (BError "User not found").
Proof.
  set (req := Sample.upload Sample.bob_id Sample.pdf_part).
  assert (H1 : is_upload req (Some Sample.bob_id) (Some Sample.pdf_part))
    by solve_upload.
  assert (H2 : accepted Sample.pdf_part)
    by (solve_accepted).
  assert (H3 : owner_of Sample.st_alice (Some Sample.bob_id) = None) by reflexivity.
  destruct (unresolved_owner_writes_nothing
              Sample.toy_pdf Sample.env0 req _ _ Sample.st_alice H1 H3)
    as (HU & HF & Hans).
  destruct (Hans Sample.pdf_part eq_refl H2) as [H404 _].
  split; [exact H3|]. split; [exact HU|]. split; [exact HF|].
  apply H404; [|reflexivity].
  intros (s & Hs & Hc). injection Hs as <-. vm_compute in Hc. discriminate.
Defined.

(** ** Structural parse failure *)




(** ** Partial link failure *)

(** C1, as stated, fails: when the Document is saved and the save of the
    Owner fails, the answer has status 400, the status of a parse failure,
    and is not an internal (5xx) error. *)
Lemma link_failure_answered_with_status_400 :
  accepted Sample.pdf_part /\
  owner_of Sample.st_alice (Some Sample.alice_id)
  = Some {| user_id := 1%N; name := "Alice"; files := [] |} /\
  fault Sample.env_user_save_fails OpFileSave = None /\
  fault Sample.env_user_save_fails OpUserSave = Some (Text "connection lost") /\
  length (Files (fst (app Sample.toy_pdf Sample.env_user_save_fails
                          (Sample.upload Sample.alice_id Sample.pdf_part)
                          Sample.st_alice))) = 1%nat /\
  ~ internal_error (snd (app Sample.toy_pdf Sample.env_user_save_fails
                             (Sample.upload Sample.alice_id Sample.pdf_part)
                             Sample.st_alice)) /\
  status (snd (app Sample.toy_pdf Sample.env_user_save_fails
                   (Sample.upload Sample.alice_id Sample.pdf_part) Sample.st_alice))
  = status (snd (app Sample.toy_pdf Sample.env0
                     (Sample.upload Sample.alice_id Sample.broken_part)
                     Sample.st_alice)).
Proof.
  split; [solve_accepted|].
  repeat (split; [vm_compute; reflexivity|]).
  split; [|vm_compute; reflexivity].
  unfold internal_error. vm_compute. intros H. apply H. reflexivity.
Qed.

(** C1, amended: when the Document record is written and the save of the
    Owner's list then fails, the failure reaches the caller as the error
    answer of the handler's catch-all, status 400 with the failure's
    message, and never as a success; the Document record stays in the
    collection and the Owner records are as before. *)
Theorem link_failure_propagated_without_rollback pdf env req s p oid u pages e st :
  is_upload req (Some s) (Some p) ->
  accepted p ->
  Mongoose.castObjectId s = Some oid ->
  Mongoose.find_user oid (Users st) = Some u ->
  fault env OpUserFindById = None ->
  pdf (part_content p) = Resolved pages ->
  fault env OpFileSave = None ->
  fault env OpUserSave = Some e ->
  snd (app pdf env req st) = status_json 400 (BError e) /\
  ~ success (snd (app pdf env req st)) /\
  Files (fst (app pdf env req st))
  = (Files st ++ [document_of env p (nextId st) pages oid])%list /\
  Users (fst (app pdf env req st)) = Users st.
Proof.
  intros Hup Hacc Hcast Hfind Hfault Hpdf Hfs Hus.
  rewrite (app_upload _ _ _ _ _ _ Hup).
  rewrite (pipeline pdf env s p oid u pages st Hacc Hcast Hfind Hfault Hpdf).
  rewrite Hfs, Hus. simpl. repeat split. unfold success. simpl. lia.
Qed.

Lemma link_failure_propagated_without_rollback_witness :
  snd (app Sample.toy_pdf Sample.env_user_save_fails
           (Sample.upload Sample.alice_id Sample.pdf_part) Sample.st_alice)
  = status_json 400 (BError "connection lost") /\
  ~ success (snd (app Sample.toy_pdf Sample.env_user_save_fails
                      (Sample.upload Sample.alice_id Sample.pdf_part) Sample.st_alice)) /\
  Files (fst (app Sample.toy_pdf Sample.env_user_save_fails
                  (Sample.upload Sample.alice_id Sample.pdf_part) Sample.st_alice))
  = (Files Sample.st_alice
     ++ [document_of Sample.env_user_save_fails Sample.pdf_part
           (nextId Sample.st_alice) 1 1%N])%list /\
  Users (fst (app Sample.toy_pdf Sample.env_user_save_fails
                  (Sample.upload Sample.alice_id Sample.pdf_part) Sample.st_alice))
  = Users Sample.st_alice.
Proof.
  apply (link_failure_propagated_without_rollback
           Sample.toy_pdf Sample.env_user_save_fails
           (Sample.upload Sample.alice_id Sample.pdf_part)
           Sample.alice_id Sample.pdf_part 1%N
           {| user_id := 1%N; name := "Alice"; files := [] |} 1 "connection lost"
           Sample.st_alice).
  - solve_upload.
  - solve_accepted.
  - reflexivity.
  - reflexivity.
  - reflexivity.
  - reflexivity.
  - reflexivity.
  - reflexivity.
Defined.

(** ** Successful ingestion *)


Lemma listed_below_unlisted st : listed_below st -> next_id_unlisted st.
Proof.
  intros Hb u Hu Hin. specialize (Hb u Hu).
  rewrite Forall_forall in Hb. apply list_elem_of_In, Hb in Hin. lia.
Qed.

Lemma in_replace_user u' l x :
  In x (Mongoose.replace_user u' l) -> x = u' \/ In x l.
Proof.
  unfold Mongoose.replace_user. intros Hx.
  apply in_map_iff in Hx as (y & Hy & Hin).
  destruct (N.eqb (user_id y) (user_id u')); subst; auto.
Qed.

(** What an upload does to the Owner records and to the allocator: nothing
    to the records, or one Owner gets the newly allocated identifier
    pushed on its list. *)
Lemma post_files_on_users_effect pdf env userId part st :
  (nextId st <= nextId (fst (post_files_on pdf env userId part st)))%N /\
  (Users (fst (post_files_on pdf env userId part st)) = Users st \/
   exists u,
     In u (Users st) /\
     (nextId st < nextId (fst (post_files_on pdf env userId part st)))%N /\
     Users (fst (post_files_on pdf env userId part st))
     = Mongoose.replace_user
         {| user_id := user_id u; name := name u;
            files := (files u ++ [nextId st])%list |}
         (Users st)).
Proof.
  unfold_handlers.
  split_cases; (split; [simpl; lia|]); try (left; reflexivity).
  right.
  match goal with
  | H : Mongoose.find_user _ _ = Some ?u |- _ =>
      apply find_user_spec in H as [_ Hin]; exists u
  end.
  simpl. split; [exact Hin|]. split; [lia|]. reflexivity.
Qed.

Lemma post_files_users_effect pdf env b st :
  (nextId st <= nextId (fst (post_files pdf env b st)))%N /\
  (Users (fst (post_files pdf env b st)) = Users st \/
   exists u,
     In u (Users st) /\
     (nextId st < nextId (fst (post_files pdf env b st)))%N /\
     Users (fst (post_files pdf env b st))
     = Mongoose.replace_user
         {| user_id := user_id u; name := name u;
            files := (files u ++ [nextId st])%list |}
         (Users st)).
Proof. unfold post_files. destruct b; apply post_files_on_users_effect. Qed.

(** Uploads keep the listed identifiers below the allocator, so the
    identifier of the next Document is never listed yet. *)
Lemma upload_keeps_listed_below pdf env req userId part st :
  is_upload req userId part ->
  listed_below st ->
  listed_below (fst (app pdf env req st)).
Proof.
  intros Hup Hb. rewrite (app_upload _ _ _ _ _ _ Hup).
  destruct (post_files_on_users_effect pdf env userId part st)
    as [Hmono Hcases].
  destruct (post_files_on pdf env userId part st) as [st' [r|e]];
    simpl in *.
  all: destruct Hcases as [Heq|(u & Hin & Hlt & Heq)];
    intros x Hx; rewrite Heq in Hx.
  all: try (eapply Forall_impl; [apply Hb, Hx|]; simpl; intros; lia).
  all: apply in_replace_user in Hx as [->|Hx];
    [|eapply Forall_impl; [apply Hb, Hx|]; simpl; intros; lia].
  all: simpl; apply Forall_app; split;
    [eapply Forall_impl; [apply Hb, Hin|]; simpl; intros; lia
    |constructor; [lia|constructor]].
Qed.

(** Uploads that follow one another never meet a listed identifier. *)
Lemma listed_below_st_alice : listed_below Sample.st_alice.
Proof. intros u [<-|[]]. constructor. Qed.

Lemma uploads_by_alice_unlisted n :
  next_id_unlisted (Sample.uploads_by_alice n Sample.st_alice).
Proof.
  apply listed_below_unlisted.
  generalize listed_below_st_alice. generalize Sample.st_alice.
  induction n as [|n IH]; intros st Hb; simpl; [exact Hb|].
  apply IH.
  apply (upload_keeps_listed_below _ _ _ (Some Sample.alice_id) (Some Sample.pdf_part));
    [solve_upload|exact Hb].
Qed.

Lemma st_listing_reachable : reachable Sample.toy_pdf Sample.st_listing.
Proof. apply reachable_step, reachable_empty. Qed.

(** C2, as stated, fails: the handler pushes the identifier of the new
    Document on the Owner's list without looking at the list, and POST
    /users takes a list of identifiers from its caller. After Alice was
    created with a list that names the identifier the store hands out next,
    her upload is answered 201 and her list holds the Document's identifier
    twice. *)
Lemma listed_identifier_is_pushed_again :
  reachable Sample.toy_pdf Sample.st_listing /\
  is_upload (Sample.upload Sample.alice_id Sample.pdf_part)
            (Some Sample.alice_id) (Some Sample.pdf_part) /\
  status (snd (app Sample.toy_pdf Sample.env0
                   (Sample.upload Sample.alice_id Sample.pdf_part)
                   Sample.st_listing)) = 201 /\
  exists f owner,
    body (snd (app Sample.toy_pdf Sample.env0
                   (Sample.upload Sample.alice_id Sample.pdf_part)
                   Sample.st_listing)) = BFile f /\
    Mongoose.find_user 1%N
      (Users (fst (app Sample.toy_pdf Sample.env0
                       (Sample.upload Sample.alice_id Sample.pdf_part)
                       Sample.st_listing))) = Some owner /\
    count_occ N.eq_dec (files owner) (file_id f) = 2%nat.
Proof.
  split; [exact st_listing_reachable|]. split; [solve_upload|].
  split; [vm_compute; reflexivity|].
  eexists _, _. split; [vm_compute; reflexivity|].
  split; [vm_compute; reflexivity|]. vm_compute. reflexivity.
Qed.

(** C2, amended: when an upload is answered 201, the Document sent back is
    in the collection, its owner reference is the Owner identifier of the
    request, and that Owner's list is the list it was before with the
    Document's identifier pushed at its end; the identifier is on the list
    exactly once provided the list did not hold it before the upload. *)
Theorem successful_upload_links_owner_once pdf env req userId part st :
  is_upload req userId part ->
  status (snd (app pdf env req st)) = 201 ->
  exists s oid f before owner,
    userId = Some s /\
    Mongoose.castObjectId s = Some oid /\
    body (snd (app pdf env req st)) = BFile f /\
    uploadedBy f = Some oid /\
    In f (Files (fst (app pdf env req st))) /\
    Mongoose.find_user oid (Users st) = Some before /\
    Mongoose.find_user oid (Users (fst (app pdf env req st))) = Some owner /\
    files owner = (files before ++ [file_id f])%list /\
    (~ In (file_id f) (files before) ->
     count_occ N.eq_dec (files owner) (file_id f) = 1%nat).
Proof.
  intros Hup Hst.
  rewrite (app_upload _ _ _ _ _ _ Hup) in *.
  destruct (post_files_on pdf env userId part st) as [st' [r|e]] eqn:Hrun;
    simpl in Hst; [|discriminate].
  destruct (upload_created_inv pdf env userId part st st' r Hrun Hst)
    as (s & p & oid & u & pages & -> & -> & Hacc & Hcast & Hfind & Hfault & Hpdf & Hfs & Hus).
  rewrite (pipeline pdf env s p oid u pages st Hacc Hcast Hfind Hfault Hpdf) in Hrun.
  rewrite Hfs, Hus in Hrun. simpl in Hrun. injection Hrun as <- <-.
  set (doc := document_of env p (nextId st) pages oid).
  destruct (find_user_spec _ _ _ Hfind) as [Hid Hin].
  exists s, oid, doc, u, (linked u doc). simpl.
  repeat split; auto.
  - apply in_or_app. right. left. reflexivity.
  - apply (find_replace_user oid (Users st) u); auto.
  - intros Hfresh. apply count_occ_push. exact Hfresh.
Qed.

Lemma successful_upload_links_owner_once_witness :
  exists s oid f before owner,
    Some Sample.alice_id = Some s /\
    Mongoose.castObjectId s = Some oid /\
    body (snd (app Sample.toy_pdf Sample.env0
                   (Sample.upload Sample.alice_id Sample.pdf_part) Sample.st_alice))
    = BFile f /\
    uploadedBy f = Some oid /\
    In f (Files (fst (app Sample.toy_pdf Sample.env0
                          (Sample.upload Sample.alice_id Sample.pdf_part)
                          Sample.st_alice))) /\
    Mongoose.find_user oid (Users Sample.st_alice) = Some before /\
    Mongoose.find_user oid
      (Users (fst (app Sample.toy_pdf Sample.env0
                       (Sample.upload Sample.alice_id Sample.pdf_part)
                       Sample.st_alice))) = Some owner /\
    files owner = (files before ++ [file_id f])%list /\
    (~ In (file_id f) (files before) ->
     count_occ N.eq_dec (files owner) (file_id f) = 1%nat).
Proof.
  apply (successful_upload_links_owner_once
           Sample.toy_pdf Sample.env0
           (Sample.upload Sample.alice_id Sample.pdf_part)
           (Some Sample.alice_id) (Some Sample.pdf_part) Sample.st_alice).
  - solve_upload.
  - vm_compute. reflexivity.
Defined.

(** ** Query parameters of the listing *)


Lemma number_spec z :
  JS.number z = if Z.abs z <=? JS.MAX_SAFE_INTEGER then JS.Int z else JS.Other.
Proof. reflexivity. Qed.

Lemma number_safe z : Z.abs z <= JS.MAX_SAFE_INTEGER -> JS.number z = JS.Int z.
Proof.
  intros H. rewrite number_spec.
  destruct (Z.leb_spec (Z.abs z) JS.MAX_SAFE_INTEGER); [reflexivity|lia].
Qed.

Lemma number_int z n : JS.number z = JS.Int n -> n = z /\ Z.abs z <= JS.MAX_SAFE_INTEGER.
Proof.
  rewrite number_spec.
  destruct (Z.leb_spec (Z.abs z) JS.MAX_SAFE_INTEGER); [|discriminate].
  intros [= <-]. auto.
Qed.

(** The offset of a page, when the page, the page size and the offset are
    integers that doubles hold exactly. *)
Lemma skip_exact (page P : Z) :
  1 <= page -> 0 < P -> (page - 1) * P <= JS.MAX_SAFE_INTEGER ->
  JS.mul (JS.sub (JS.Int page) 1) (JS.Int P) = JS.Int ((page - 1) * P).
Proof.
  intros Hp HP Hs. unfold JS.sub. rewrite number_safe by nia.
  unfold JS.mul. rewrite number_safe by nia. reflexivity.
Qed.



(** ** The order in which the store scans *)

Lemma insert_by_perm {A} (rank : A -> Z) (x : A) (l : list A) :
  Mongoose.insert_by rank x l ≡ₚ x :: l.
Proof.
  induction l as [|y l IH]; simpl; [reflexivity|].
  destruct (rank x <=? rank y); [reflexivity|].
  rewrite IH. apply Permutation_swap.
Qed.

(** The scan hands out every document once. *)
Lemma natural_order_perm {A} (rank : A -> Z) (l : list A) :
  Mongoose.natural_order rank l ≡ₚ l.
Proof.
  induction l as [|x l IH]; simpl; [reflexivity|].
  unfold Mongoose.natural_order in *. simpl.
  rewrite insert_by_perm, IH. reflexivity.
Qed.

Lemma natural_order_length {A} (rank : A -> Z) (l : list A) :
  length (Mongoose.natural_order rank l) = length l.
Proof. apply Permutation_length, natural_order_perm. Qed.

(** A rank that does not tell the documents apart leaves the collection in
    the order of insertion. *)
Lemma natural_order_insertion {A} (rank : A -> Z) (l : list A) :
  (forall x y, rank x = rank y) -> Mongoose.natural_order rank l = l.
Proof.
  intros Hconst. induction l as [|x l IH]; [reflexivity|].
  unfold Mongoose.natural_order in *. simpl. rewrite IH.
  destruct l as [|y l]; [reflexivity|]. simpl.
  rewrite (Hconst x y), Z.leb_refl. reflexivity.
Qed.

(** The scan depends on the rank of the documents only. *)
Lemma natural_order_ext {A} (rank rank' : A -> Z) (l : list A) :
  (forall x, rank x = rank' x) ->
  Mongoose.natural_order rank l = Mongoose.natural_order rank' l.
Proof.
  intros Hext. induction l as [|x l IH]; [reflexivity|].
  unfold Mongoose.natural_order in *. simpl. rewrite IH.
  generalize (foldr (Mongoose.insert_by rank') [] l). intros l'.
  induction l' as [|y l' IH']; [reflexivity|]. simpl.
  rewrite !Hext, IH'. reflexivity.
Qed.

Lemma scanned_length env st oid :
  length (scanned env st oid) = length (documents_of st oid).
Proof. apply natural_order_length. Qed.

(** ** Windows of the listing *)

Lemma ceil_div_spec n p :
  0 < p ->
  JS.ceil_div n p = if n mod p =? 0 then n / p else n / p + 1.
Proof.
  intros Hp. unfold JS.ceil_div.
  destruct (Z.eqb_spec (n mod p) 0) as [Hz|Hnz].
  - rewrite Z.div_opp_l_z by lia. lia.
  - rewrite Z.div_opp_l_nz by lia. lia.
Qed.

Lemma ceil_div_bounds n p :
  0 < p -> 0 <= n ->
  (JS.ceil_div n p - 1) * p < n \/ n = 0 /\ JS.ceil_div n p = 0.
Proof.
  intros Hp Hn. rewrite ceil_div_spec by assumption.
  pose proof (Z.div_mod n p ltac:(lia)) as Hdm.
  pose proof (Z.mod_pos_bound n p Hp) as Hb.
  destruct (Z.eqb_spec (n mod p) 0) as [Hz|Hnz].
  - destruct (Z.eq_dec n 0) as [->|Hn0].
    + right. split; [reflexivity|]. apply Z.div_0_l. lia.
    + left. nia.
  - left. nia.
Qed.

Lemma length_window {A} (l : list A) (k n : nat) :
  length (firstn n (skipn k l)) = Nat.min n (length l - k).
Proof. rewrite length_firstn, length_skipn. reflexivity. Qed.

(** The answer of the listing when the page, the page size and the offset
    are integers that doubles hold exactly. *)
Lemma listing_answer pdf env req userId oid st (page P skip : Z) :
  is_listing req userId ->
  Mongoose.castObjectId userId = Some oid ->
  fault env OpFileFind = None ->
  fault env OpFileCount = None ->
  page_of (query req) = page ->
  limit_of (query req) = P ->
  JS.mul (JS.sub page 1) P = skip ->
  0 <= skip ->
  app pdf env req st =
    (st, json (BListing
                 (Mongoose.apply_limit P (skipn (Z.to_nat skip) (scanned env st oid)))
                 (JS.ceil_div (Z.of_nat (length (documents_of st oid))) P)
                 (Z.of_nat (length (documents_of st oid)))
                 page)).
Proof.
  intros [Hm Hp] Hcast Hf Hc Hpage HP Hskip Hpos.
  unfold app, mounted, files_router. rewrite Hp, Hm. simpl.
  unfold get_user_files, Mongoose.File_find_by_owner, Mongoose.File_countDocuments,
    Mongoose.apply_skip.
  rewrite Hpage, HP, Hskip.
  unfold_async. rewrite Hcast, Hf, Hc.
  destruct (Z.ltb_spec skip 0); [lia|].
  reflexivity.
Qed.

(** C3: for an owner with N documents and a page size P > 0, the listing
    answers with the window of the owner's documents, in the order the
    store scans them, that skips (page - 1) * P of them and takes P, and
    reports total N and ceil(N / P) pages. On the last page,
    page = ceil(N / P), the window holds N mod P documents, or P of them
    when P divides N; on any page after the last it is empty, with the same
    totals. The page, the page size and the offset are integers that a
    double holds exactly (at most 2^53 - 1). *)
Theorem listing_windows pdf env req userId oid st (P page : Z) :
  is_listing req userId ->
  Mongoose.castObjectId userId = Some oid ->
  fault env OpFileFind = None ->
  fault env OpFileCount = None ->
  limit_of (query req) = P ->
  page_of (query req) = page ->
  0 < P ->
  1 <= page ->
  (page - 1) * P <= JS.MAX_SAFE_INTEGER ->
  exists window,
    app pdf env req st =
      (st, json (BListing window
                   (JS.ceil_div (Z.of_nat (length (documents_of st oid))) P)
                   (Z.of_nat (length (documents_of st oid)))
                   page)) /\
    window = firstn (Z.to_nat P)
               (skipn (Z.to_nat ((page - 1) * P)) (scanned env st oid)) /\
    scanned env st oid ≡ₚ documents_of st oid /\
    (page = JS.ceil_div (Z.of_nat (length (documents_of st oid))) P ->
     Z.of_nat (length window) =
       if Z.of_nat (length (documents_of st oid)) mod P =? 0 then P
       else Z.of_nat (length (documents_of st oid)) mod P) /\
    (JS.ceil_div (Z.of_nat (length (documents_of st oid))) P < page ->
     window = []).
Proof.
  intros Hl Hcast Hf Hc HP Hpage HPpos Hpage1 Hsafe.
  pose proof (scanned_length env st oid) as Hlen.
  set (docs := scanned env st oid) in *.
  set (n := Z.of_nat (length (documents_of st oid))).
  assert (Hn : n = Z.of_nat (length docs)) by (unfold n; rewrite Hlen; reflexivity).
  exists (firstn (Z.to_nat P) (skipn (Z.to_nat ((page - 1) * P)) docs)).
  split; [|split; [reflexivity|split; [apply natural_order_perm|split]]].
  - rewrite (listing_answer pdf env req userId oid st page P ((page - 1) * P)
               Hl Hcast Hf Hc Hpage HP (skip_exact _ _ Hpage1 HPpos Hsafe))
      by nia.
    fold docs. unfold Mongoose.apply_limit.
    destruct (Z.eqb_spec P 0); [lia|].
    rewrite Z.abs_eq by lia. reflexivity.
  - intros Heq. rewrite length_window.
    rewrite ceil_div_spec in Heq by assumption.
    pose proof (Z.div_mod n P ltac:(lia)) as Hdm.
    pose proof (Z.mod_pos_bound n P HPpos) as Hb.
    destruct (Z.eqb_spec (n mod P) 0) as [Hz|Hnz].
    + assert (Hs : (page - 1) * P = n - P) by nia.
      rewrite Hs. assert (P <= n) by nia. lia.
    + assert (Hs : (page - 1) * P = n - n mod P) by nia.
      rewrite Hs. lia.
  - intros Hlt.
    assert (Hge : n <= (page - 1) * P).
    { rewrite ceil_div_spec in Hlt by assumption.
      pose proof (Z.div_mod n P ltac:(lia)) as Hdm.
      pose proof (Z.mod_pos_bound n P HPpos) as Hb.
      destruct (Z.eqb_spec (n mod P) 0); nia. }
    rewrite skipn_all2; [apply firstn_nil|]. lia.
Qed.

Lemma listing_windows_witness :
  exists window,
    app Sample.toy_pdf Sample.env0
        (Sample.list_files Sample.alice_id "2" "10") Sample.st_alice_15
    = (Sample.st_alice_15,
       json (BListing window
               (JS.ceil_div (Z.of_nat (length (documents_of Sample.st_alice_15 1%N))) 10)
               (Z.of_nat (length (documents_of Sample.st_alice_15 1%N)))
               2)) /\
    window = firstn (Z.to_nat 10)
               (skipn (Z.to_nat ((2 - 1) * 10))
                  (scanned Sample.env0 Sample.st_alice_15 1%N)) /\
    scanned Sample.env0 Sample.st_alice_15 1%N ≡ₚ documents_of Sample.st_alice_15 1%N /\
    (2 = JS.ceil_div (Z.of_nat (length (documents_of Sample.st_alice_15 1%N))) 10 ->
     Z.of_nat (length window) =
       if Z.of_nat (length (documents_of Sample.st_alice_15 1%N)) mod 10 =? 0 then 10
       else Z.of_nat (length (documents_of Sample.st_alice_15 1%N)) mod 10) /\
    (JS.ceil_div (Z.of_nat (length (documents_of Sample.st_alice_15 1%N))) 10 < 2 ->
     window = []).
Proof.
  apply (listing_windows Sample.toy_pdf Sample.env0
           (Sample.list_files Sample.alice_id "2" "10") Sample.alice_id 1%N
           Sample.st_alice_15 10 2).
  - split; reflexivity.
  - reflexivity.
  - reflexivity.
  - reflexivity.
  - reflexivity.
  - reflexivity.
  - lia.
  - lia.
  - vm_compute. discriminate.
Defined.

(** The scenarios of the specification: fifteen documents, pages of ten. *)
Example page_2_of_15 :
  exists window,
    snd (app Sample.toy_pdf Sample.env0
             (Sample.list_files Sample.alice_id "2" "10") Sample.st_alice_15)
    = json (BListing window 2 15 2) /\ length window = 5%nat.
Proof. eexists. split; reflexivity. Qed.

Example page_5_of_15 :
  snd (app Sample.toy_pdf Sample.env0
           (Sample.list_files Sample.alice_id "5" "10") Sample.st_alice_15)
  = json (BListing [] 2 15 5).
Proof. reflexivity. Qed.

(** ** What a request does to the store *)

Lemma get_file_store env id st : fst (get_file env id st) = st.
Proof. unfold_handlers. split_cases. Qed.

Lemma get_user_files_store env userId q st : fst (get_user_files env userId q st) = st.
Proof. unfold_handlers. split_cases. Qed.

Lemma get_all_files_store env st : fst (get_all_files env st) = st.
Proof. unfold_handlers. split_cases. Qed.

Lemma get_users_store env st : fst (get_users env st) = st.
Proof. unfold_handlers. split_cases. Qed.

Lemma get_user_store env id st : fst (get_user env id st) = st.
Proof. unfold_handlers. split_cases. Qed.

Lemma appends_nothing st : appends_at_most_one st st.
Proof. split; [lia|left; reflexivity]. Qed.

Lemma post_users_effect env b st :
  appends_at_most_one st (fst (post_users env b st)).
Proof.
  unfold_handlers.
  split_cases; (split; [simpl; lia|left; reflexivity]).
Qed.

Lemma delete_user_effect env id st :
  appends_at_most_one st (fst (delete_user env id st)).
Proof.
  unfold_handlers.
  split_cases; (split; [simpl; lia|left; reflexivity]).
Qed.

Lemma post_files_effect pdf env b st :
  appends_at_most_one st (fst (post_files pdf env b st)).
Proof.
  unfold_handlers.
  split_cases;
    (split; [simpl; lia|]);
    first [ left; reflexivity
          | right; eexists; simpl; repeat split; [lia|eexists; reflexivity] ].
Qed.

Lemma app_effect pdf env req st :
  appends_at_most_one st (fst (app pdf env req st)).
Proof.
  unfold app, mounted.
  destruct (path req) as [|seg rest]; [apply appends_nothing|].
  destruct (String.eqb (Router.lowercase seg) "users").
  { unfold users_router.
    destruct (Router.find_route users_routes (method req) rest) as [[[] ps]|];
      try apply appends_nothing.
    - pose proof (get_users_store env st) as H.
      destruct (get_users env st) as [st' [r|e]]; simpl in *; subst; apply appends_nothing.
    - pose proof (get_user_store env (Router.param ps "id") st) as H.
      destruct (get_user env _ st) as [st' [r|e]]; simpl in *; subst; apply appends_nothing.
    - pose proof (post_users_effect env (req_body req) st) as H.
      destruct (post_users env _ st) as [st' [r|e]]; exact H.
    - pose proof (delete_user_effect env (Router.param ps "id") st) as H.
      destruct (delete_user env _ st) as [st' [r|e]]; exact H. }
  destruct (String.eqb (Router.lowercase seg) "files").
  { unfold files_router.
    destruct (Router.find_route files_routes (method req) rest) as [[[] ps]|];
      try apply appends_nothing.
    - pose proof (post_files_effect pdf env (req_body req) st) as H.
      destruct (post_files pdf env _ st) as [st' [r|e]]; exact H.
    - pose proof (get_file_store env (Router.param ps "id") st) as H.
      destruct (get_file env _ st) as [st' [r|e]]; simpl in *; subst; apply appends_nothing.
    - pose proof (get_user_files_store env (Router.param ps "userId") (query req) st) as H.
      destruct (get_user_files env _ _ st) as [st' [r|e]]; simpl in *; subst;
        apply appends_nothing.
    - pose proof (get_all_files_store env st) as H.
      destruct (get_all_files env st) as [st' [r|e]]; simpl in *; subst;
        apply appends_nothing. }
  destruct (_ && _)%bool; [|apply appends_nothing].
  destruct rest; apply appends_nothing.
Qed.

(** ** Invariants of the reachable stores *)

Lemma sorted_push (l : list N) (y : N) :
  StronglySorted N.lt l -> Forall (fun x => (x < y)%N) l ->
  StronglySorted N.lt (l ++ [y]).
Proof.
  intros Hs Hall. induction Hs as [|x l Hs IH Hx]; simpl.
  - repeat constructor.
  - inversion Hall; subst. constructor; [apply IH; assumption|].
    apply Forall_app. split; [assumption|]. constructor; [assumption|constructor].
Qed.

Lemma ids_ordered_step st st' :
  ids_ordered st -> appends_at_most_one st st' -> ids_ordered st'.
Proof.
  intros [Hs Hb] [Hmono [Heq|(f & Heq & Hid & Hlt & _)]];
    unfold ids_ordered; rewrite Heq.
  - split; [assumption|].
    eapply Forall_impl; [exact Hb|]. simpl. intros. lia.
  - split.
    + rewrite map_app. simpl. apply sorted_push; [assumption|].
      rewrite Forall_map. eapply Forall_impl; [exact Hb|]. simpl. intros. lia.
    + apply Forall_app. split.
      * eapply Forall_impl; [exact Hb|]. simpl. intros. lia.
      * constructor; [lia|constructor].
Qed.

Lemma reachable_ids_ordered pdf st : reachable pdf st -> ids_ordered st.
Proof.
  induction 1 as [|st env req Hr IH].
  - split; constructor.
  - eapply ids_ordered_step; [exact IH|apply app_effect].
Qed.

Lemma sorted_map_filter (p : File -> bool) (l : list File) :
  StronglySorted N.lt (map file_id l) ->
  StronglySorted N.lt (map file_id (List.filter p l)).
Proof.
  induction l as [|x l IH]; simpl; [auto|].
  intros Hs. apply StronglySorted_inv in Hs as [Hs Hx].
  destruct (p x); simpl; [|auto].
  constructor; [auto|].
  rewrite Forall_map in *. rewrite Forall_forall in *.
  intros y Hy. apply Hx. apply list_elem_of_In, filter_In in Hy as [Hy _].
  apply list_elem_of_In. exact Hy.
Qed.

Lemma sorted_skipn (k : nat) (l : list N) :
  StronglySorted N.lt l -> StronglySorted N.lt (skipn k l).
Proof.
  intros Hs. rewrite <- (firstn_skipn k l) in Hs.
  eapply StronglySorted_app_1_r. exact Hs.
Qed.

Lemma sorted_firstn (k : nat) (l : list N) :
  StronglySorted N.lt l -> StronglySorted N.lt (firstn k l).
Proof.
  intros Hs. rewrite <- (firstn_skipn k l) in Hs.
  eapply StronglySorted_app_1_l. exact Hs.
Qed.

Lemma apply_limit_firstn (m : Z) (l : list File) :
  exists n, Mongoose.apply_limit m l = firstn n l.
Proof.
  unfold Mongoose.apply_limit. destruct (m =? 0).
  - exists (length l). symmetry. apply firstn_all.
  - eexists. reflexivity.
Qed.

(** A listing answer is always a window of the owner's documents, in the
    order the store scans them. *)
Lemma listing_inv pdf env req userId st window tp t cp :
  is_listing req userId ->
  snd (app pdf env req st) = json (BListing window tp t cp) ->
  exists oid k n,
    Mongoose.castObjectId userId = Some oid /\
    window = firstn n (skipn k (scanned env st oid)).
Proof.
  intros [Hm Hp]. unfold app, mounted, files_router. rewrite Hp, Hm. simpl.
  unfold get_user_files, Mongoose.File_find_by_owner, Mongoose.File_countDocuments,
    Mongoose.apply_skip.
  cbv zeta.
  generalize (JS.mul (JS.sub (page_of (query req)) 1) (limit_of (query req))).
  intros skip.
  destruct (page_of (query req)) as [page| |]; [|cbv; discriminate..].
  destruct (limit_of (query req)) as [P| |]; [|cbv; discriminate..].
  destruct skip as [skip| |]; [|cbv; discriminate..].
  unfold_async.
  destruct (Mongoose.castObjectId userId) as [oid|]; [|simpl; discriminate].
  destruct (fault env OpFileFind); [simpl; discriminate|].
  destruct (_ <? 0); [simpl; discriminate|].
  destruct (fault env OpFileCount); simpl; [discriminate|].
  intros H. injection H as <- _ _ _.
  destruct (apply_limit_firstn P (skipn (Z.to_nat skip) (scanned env st oid)))
    as [n Hn].
  exists oid, (Z.to_nat skip), n.
  split; [reflexivity|]. exact Hn.
Qed.

Lemma listing_read_only pdf env req userId st :
  is_listing req userId -> fst (app pdf env req st) = st.
Proof.
  intros [Hm Hp]. unfold app, mounted, files_router. rewrite Hp, Hm. simpl.
  pose proof (get_user_files_store env userId (query req) st) as H.
  destruct (get_user_files env userId (query req) st) as [st' [r|e]]; exact H.
Qed.

(** ** Order of the listing *)

Lemma scanned_owned env st oid f :
  In f (scanned env st oid) -> uploadedBy f = Some oid.
Proof.
  intros Hf. apply list_elem_of_In in Hf.
  unfold scanned in Hf. rewrite natural_order_perm in Hf.
  apply list_elem_of_In, filter_In in Hf as [_ Hown].
  unfold Mongoose.owned_by in Hown.
  destruct (uploadedBy f) as [o|]; [|discriminate].
  apply N.eqb_eq in Hown. congruence.
Qed.

(** The listing depends on the environment through the scan order and the
    failures of the two queries only. *)
Lemma find_by_owner_ext env env' userId skip limit st :
  (forall f, scan_files env' f = scan_files env f) ->
  fault env' OpFileFind = fault env OpFileFind ->
  Mongoose.File_find_by_owner env' userId skip limit st
  = Mongoose.File_find_by_owner env userId skip limit st.
Proof.
  intros Hscan Hf. unfold Mongoose.File_find_by_owner. unfold_async. rewrite Hf.
  destruct (Mongoose.castObjectId userId) as [oid|]; [|reflexivity].
  destruct (fault env OpFileFind); [reflexivity|].
  rewrite (natural_order_ext (scan_files env') (scan_files env) _ Hscan).
  reflexivity.
Qed.

Lemma countDocuments_ext env env' userId st :
  fault env' OpFileCount = fault env OpFileCount ->
  Mongoose.File_countDocuments env' userId st = Mongoose.File_countDocuments env userId st.
Proof.
  intros Hc. unfold Mongoose.File_countDocuments. unfold_async. rewrite Hc.
  reflexivity.
Qed.

Lemma get_user_files_ext env env' userId q st :
  (forall f, scan_files env' f = scan_files env f) ->
  fault env' OpFileFind = fault env OpFileFind ->
  fault env' OpFileCount = fault env OpFileCount ->
  get_user_files env' userId q st = get_user_files env userId q st.
Proof.
  intros Hscan Hf Hc. unfold get_user_files, try_catch. cbv zeta.
  destruct (page_of q) as [page| |]; [|reflexivity..].
  destruct (limit_of q) as [P| |]; [|reflexivity..].
  destruct (JS.mul _ _) as [skip| |]; [|reflexivity..].
  unfold bind.
  rewrite (find_by_owner_ext env env' userId skip P st Hscan Hf).
  destruct (Mongoose.File_find_by_owner env userId skip P st) as [st1 [l|e]];
    [|reflexivity].
  rewrite (countDocuments_ext env env' userId st1 Hc). reflexivity.
Qed.

Lemma st_alice_reachable : reachable Sample.toy_pdf Sample.st_alice.
Proof. unfold Sample.st_alice. apply reachable_step, reachable_empty. Qed.

Lemma uploads_by_alice_reachable n st :
  reachable Sample.toy_pdf st -> reachable Sample.toy_pdf (Sample.uploads_by_alice n st).
Proof.
  revert st. induction n as [|n IH]; intros st Hr; simpl; [exact Hr|].
  apply IH, reachable_step, Hr.
Qed.

Lemma st_alice_15_reachable : reachable Sample.toy_pdf Sample.st_alice_15.
Proof. apply uploads_by_alice_reachable, st_alice_reachable. Qed.

(** C8, as stated, fails: the query of the listing names no sort key, so
    the documents come in the order in which the store scans the
    collection, whatever that order is. When the store scans Alice's
    fifteen Documents from the newest to the oldest, the first page of
    three holds the identifiers 16, 15 and 14, which is not creation order,
    and the same request on the same store is answered differently when the
    store scans in insertion order. *)
Lemma listing_order_is_the_scan_order_of_the_store :
  reachable Sample.toy_pdf Sample.st_alice_15 /\
  is_listing (Sample.list_files Sample.alice_id "1" "3") Sample.alice_id /\
  (exists window,
     snd (app Sample.toy_pdf Sample.env_newest_first
              (Sample.list_files Sample.alice_id "1" "3") Sample.st_alice_15)
     = json (BListing window 5 15 1) /\
     map file_id window = [16; 15; 14]%N /\
     ~ StronglySorted N.lt (map file_id window)) /\
  fst (app Sample.toy_pdf Sample.env_newest_first
           (Sample.list_files Sample.alice_id "1" "3") Sample.st_alice_15)
  = Sample.st_alice_15 /\
  snd (app Sample.toy_pdf Sample.env0
           (Sample.list_files Sample.alice_id "1" "3") Sample.st_alice_15)
  <> snd (app Sample.toy_pdf Sample.env_newest_first
              (Sample.list_files Sample.alice_id "1" "3") Sample.st_alice_15).
Proof.
  split; [exact st_alice_15_reachable|]. split; [split; reflexivity|].
  split; [|split].
  - eexists. split; [vm_compute; reflexivity|]. split; [vm_compute; reflexivity|].
    vm_compute. intros Hs.
    apply StronglySorted_inv in Hs as [_ Hall].
    apply Forall_inv in Hall. discriminate.
  - apply (listing_read_only _ _ _ Sample.alice_id). split; reflexivity.
  - vm_compute. discriminate.
Qed.

(** C8, amended: the documents of a listing answer are a window of the
    owner's documents in the order in which the store scans the collection
    for that request; the scan holds every document of the owner once, and
    every document of the answer belongs to the owner. The handler names no
    sort key: the window is in creation order (the order of insertion) when
    the store scans in that order. The request changes nothing, and it gets
    the same answer again, with no write in between, whenever the store
    scans in the same order and fails neither query. *)
Theorem listing_in_scan_order pdf env req userId st window tp t cp :
  is_listing req userId ->
  snd (app pdf env req st) = json (BListing window tp t cp) ->
  (exists oid k n,
     Mongoose.castObjectId userId = Some oid /\
     window = firstn n (skipn k (scanned env st oid)) /\
     scanned env st oid ≡ₚ documents_of st oid /\
     Forall (fun f => uploadedBy f = Some oid) window /\
     ((forall f g, scan_files env f = scan_files env g) ->
      window = firstn n (skipn k (documents_of st oid)))) /\
  fst (app pdf env req st) = st /\
  (forall env',
     (forall f, scan_files env' f = scan_files env f) ->
     fault env' OpFileFind = fault env OpFileFind ->
     fault env' OpFileCount = fault env OpFileCount ->
     app pdf env' req (fst (app pdf env req st)) = app pdf env req st).
Proof.
  intros Hl Hans.
  destruct (listing_inv pdf env req userId st window tp t cp Hl Hans)
    as (oid & k & n & Hcast & Hw).
  pose proof (listing_read_only pdf env req userId st Hl) as Hro.
  split; [|split].
  - exists oid, k, n. split; [exact Hcast|]. split; [exact Hw|].
    split; [apply natural_order_perm|]. split.
    + rewrite Hw. rewrite Forall_forall. intros f Hf.
      apply (subseteq_take n), (subseteq_drop k) in Hf.
      apply list_elem_of_In in Hf. exact (scanned_owned _ _ _ _ Hf).
    + intros Hconst. rewrite Hw. unfold scanned.
      rewrite (natural_order_insertion _ _ Hconst). reflexivity.
  - exact Hro.
  - intros env' Hscan Hf Hc. rewrite Hro.
    destruct Hl as [Hm Hp]. unfold app, mounted, files_router.
    rewrite Hp, Hm. simpl.
    rewrite (get_user_files_ext env env' userId (query req) st Hscan Hf Hc).
    reflexivity.
Qed.

Lemma listing_in_scan_order_witness :
  snd (app Sample.toy_pdf Sample.env0
           (Sample.list_files Sample.alice_id "2" "10") Sample.st_alice_15)
  = json (BListing (skipn 10 (Files Sample.st_alice_15)) 2 15 2) /\
  map file_id (skipn 10 (Files Sample.st_alice_15)) = [12; 13; 14; 15; 16]%N /\
  Forall (fun f => uploadedBy f = Some 1%N) (skipn 10 (Files Sample.st_alice_15)) /\
  fst (app Sample.toy_pdf Sample.env0
           (Sample.list_files Sample.alice_id "2" "10") Sample.st_alice_15)
  = Sample.st_alice_15.
Proof.
  assert (Hl : is_listing (Sample.list_files Sample.alice_id "2" "10") Sample.alice_id)
    by (split; reflexivity).
  assert (Hans : snd (app Sample.toy_pdf Sample.env0
                          (Sample.list_files Sample.alice_id "2" "10")
                          Sample.st_alice_15)
                 = json (BListing (skipn 10 (Files Sample.st_alice_15)) 2 15 2))
    by (vm_compute; reflexivity).
  destruct (listing_in_scan_order Sample.toy_pdf Sample.env0
              (Sample.list_files Sample.alice_id "2" "10") Sample.alice_id
              Sample.st_alice_15 _ 2 15 2 Hl Hans)
    as ((oid & k & n & Hcast & _ & _ & Hown & _) & Hro & _).
  split; [exact Hans|]. split; [vm_compute; reflexivity|].
  split; [|exact Hro].
  vm_compute in Hcast. injection Hcast as <-. exact Hown.
Defined.

(** ** Page counts *)

Lemma page_counts_step st st' :
  Forall (fun f => is_Some (pageCount f)) (Files st) ->
  appends_at_most_one st st' ->
  Forall (fun f => is_Some (pageCount f)) (Files st').
Proof.
  intros Hall [_ [Heq|(f & Heq & _ & _ & Hpc)]]; rewrite Heq; [assumption|].
  apply Forall_app. split; [assumption|]. constructor; [assumption|constructor].
Qed.

Lemma reachable_page_counts pdf st :
  reachable pdf st -> Forall (fun f => is_Some (pageCount f)) (Files st).
Proof.
  induction 1 as [|st env req Hr IH]; [constructor|].
  eapply page_counts_step; [exact IH|apply app_effect].
Qed.

(** C10: every Document record in a store the application can reach has a
    page count. Documents are only created by the upload handler, which
    builds the record after the payload was parsed and with the page count
    the parser returned. *)
Theorem created_documents_have_page_count pdf st f :
  reachable pdf st ->
  In f (Files st) ->
  exists n, pageCount f = Some n.
Proof.
  intros Hreach Hin.
  pose proof (reachable_page_counts pdf st Hreach) as Hall.
  rewrite Forall_forall in Hall. apply Hall, list_elem_of_In, Hin.
Qed.

Lemma created_documents_have_page_count_witness :
  reachable Sample.toy_pdf Sample.st_alice_15 /\
  In (document_of Sample.env0 Sample.pdf_part 2%N 1 1%N) (Files Sample.st_alice_15) /\
  exists n, pageCount (document_of Sample.env0 Sample.pdf_part 2%N 1 1%N) = Some n.
Proof.
  assert (Hin : In (document_of Sample.env0 Sample.pdf_part 2%N 1 1%N)
                   (Files Sample.st_alice_15)) by (vm_compute; left; reflexivity).
  split; [exact st_alice_15_reachable|]. split; [exact Hin|].
  exact (created_documents_have_page_count Sample.toy_pdf Sample.st_alice_15 _
           st_alice_15_reachable Hin).
Defined.

(** ** The list-all route *)

Ltac route_step :=
  cbn [Router.find_route Router.match_path Router.method_eqb option_map].

Lemma files_route_never_list_all m p ps :
  Router.find_route files_routes m p <> Some (ListAllFiles, ps).
Proof.
  unfold files_routes. destruct m; route_step.
  - destruct p as [|x [|y p']]; route_step; try discriminate.
    destruct (String.eqb (Router.lowercase "user") (Router.lowercase x)); route_step.
    + destruct p'; route_step; try discriminate.
      destruct (String.eqb (Router.lowercase "all") (Router.lowercase x));
        route_step; discriminate.
    + destruct (String.eqb (Router.lowercase "all") (Router.lowercase x));
        route_step; discriminate.
  - destruct p; discriminate.
  - discriminate.
  - discriminate.
Qed.

(** A path of one segment under /files is a get-by-id, whatever the
    segment. *)
Lemma files_route_one_segment x :
  Router.find_route files_routes GET [x] = Some (GetFileById, [("id", x)]).
Proof. reflexivity. Qed.

Lemma post_files_never_lists pdf env b st l :
  forall st' r, post_files pdf env b st = (st', Resolved r) -> body r <> BFiles l.
Proof. intros st' r H. unfold_handlers. split_cases; discriminate. Qed.

Lemma get_file_never_lists env id st l :
  forall st' r, get_file env id st = (st', Resolved r) -> body r <> BFiles l.
Proof. intros st' r H. unfold_handlers. split_cases; discriminate. Qed.

Lemma get_user_files_never_lists env id q st l :
  forall st' r, get_user_files env id q st = (st', Resolved r) -> body r <> BFiles l.
Proof. intros st' r H. unfold_handlers. split_cases; discriminate. Qed.

Lemma users_router_never_lists env req p h st l :
  users_router env req p = Some h ->
  forall st' r, h st = (st', Resolved r) -> body r <> BFiles l.
Proof.
  unfold users_router.
  destruct (Router.find_route users_routes (method req) p) as [[[] ps]|];
    intros Hh st' r H; simplify_eq; unfold_handlers; split_cases; discriminate.
Qed.

(** C9: no request reaches the list-all handler. The route table of
    /files never selects it, because a path of one segment is taken by the
    get-by-id route registered before it; GET /files/all is answered as a
    get-by-id of the identifier "all", with the error of the failed cast;
    and no answer of the application carries the full document listing. *)
Theorem list_all_is_unreachable :
  (forall m p ps, Router.find_route files_routes m p <> Some (ListAllFiles, ps)) /\
  (forall pdf env q b,
     files_router pdf env {| method := GET; path := ["files"; "all"];
                             query := q; req_body := b |} ["all"]
     = Some (get_file env "all")) /\
  (forall pdf env q b st,
     app pdf env {| method := GET; path := ["files"; "all"];
                    query := q; req_body := b |} st
     = (st, status_json 500 (BError (Mongoose.CastError "all" "_id" "File")))) /\
  (forall pdf env req st l, body (snd (app pdf env req st)) <> BFiles l).
Proof.
  split; [exact files_route_never_list_all|].
  split; [reflexivity|]. split; [reflexivity|].
  intros pdf env req st l. unfold app, mounted.
  destruct (path req) as [|seg rest]; [discriminate|].
  destruct (String.eqb (Router.lowercase seg) "users").
  { destruct (users_router env req rest) as [h|] eqn:Hh; [|discriminate].
    pose proof (users_router_never_lists env req rest h st l Hh) as H.
    destruct (h st) as [st' [r|e]]; [eapply H; reflexivity|discriminate]. }
  destruct (String.eqb (Router.lowercase seg) "files").
  { unfold files_router.
    pose proof (files_route_never_list_all (method req) rest) as Hno.
    destruct (Router.find_route files_routes (method req) rest) as [[[] ps]|];
      try discriminate.
    - pose proof (post_files_never_lists pdf env (req_body req) st l) as H.
      destruct (post_files pdf env _ st) as [st' [r|e]];
        [eapply H; reflexivity|discriminate].
    - pose proof (get_file_never_lists env (Router.param ps "id") st l) as H.
      destruct (get_file env _ st) as [st' [r|e]];
        [eapply H; reflexivity|discriminate].
    - pose proof (get_user_files_never_lists env (Router.param ps "userId")
                    (query req) st l) as H.
      destruct (get_user_files env _ _ st) as [st' [r|e]];
        [eapply H; reflexivity|discriminate].
    - exfalso. eapply Hno. reflexivity. }
  destruct (_ && _)%bool; [|discriminate].
  destruct rest; discriminate.
Qed.

(** * Further properties of the handlers *)

(** ** Requests that only read *)

Lemma users_route_get rest r ps :
  Router.find_route users_routes GET rest = Some (r, ps) ->
  r = ListUsers \/ r = GetUser.
Proof.
  unfold users_routes. route_step.
  destruct rest as [|x [|y rest']]; route_step; intros H; simplify_eq; auto.
Qed.

Lemma files_route_get rest r ps :
  Router.find_route files_routes GET rest = Some (r, ps) ->
  r = GetFileById \/ r = ListUserFiles.
Proof.
  intros H. destruct r; auto.
  - unfold files_routes in H. route_step.
    destruct rest as [|x [|y rest']]; route_step; try discriminate.
    revert H. route_step.
    destruct (String.eqb _ _); route_step.
    + destruct rest'; route_step; try discriminate.
      destruct (String.eqb _ _); route_step; discriminate.
    + destruct (String.eqb _ _); route_step; discriminate.
  - exfalso. eapply files_route_never_list_all. exact H.
Qed.

Lemma run_read_only (h : Async Response) st :
  fst (h st) = st ->
  fst (match h st with
       | (st', Resolved r) => (st', r)
       | (st', Rejected e) => (st', status_json 500 (BAppError e))
       end) = st.
Proof. destruct (h st) as [st' [r|e]]; auto. Qed.

(** X1: a GET request never changes the store. *)
Theorem get_requests_change_nothing pdf env req st :
  method req = GET ->
  fst (app pdf env req st) = st.
Proof.
  intros Hm. unfold app, mounted.
  destruct (path req) as [|seg rest]; [reflexivity|].
  destruct (String.eqb (Router.lowercase seg) "users").
  { unfold users_router. rewrite Hm.
    destruct (Router.find_route users_routes GET rest) as [[r ps]|] eqn:Hr;
      [|reflexivity].
    destruct (users_route_get rest r ps Hr) as [-> | ->]; apply run_read_only.
    - apply get_users_store.
    - apply get_user_store. }
  destruct (String.eqb (Router.lowercase seg) "files").
  { unfold files_router. rewrite Hm.
    destruct (Router.find_route files_routes GET rest) as [[r ps]|] eqn:Hr;
      [|reflexivity].
    destruct (files_route_get rest r ps Hr) as [-> | ->]; apply run_read_only.
    - apply get_file_store.
    - apply get_user_files_store. }
  destruct (_ && _)%bool; [|reflexivity].
  destruct rest; reflexivity.
Qed.

(** ** Uploads that the validator or the handler turns away *)

(** X2: a POST to /files without a file part that the middleware takes up
    (no part, or a part whose file name is empty once its directories are
    dropped) is answered 400 "No file uploaded" whatever the owner
    identifier is, and changes nothing. *)
Theorem upload_without_file_is_refused pdf env req st :
  method req = POST ->
  path req = ["files"] ->
  no_file (req_body req) ->
  app pdf env req st = (st, status_json 400 (BError "No file uploaded")).
Proof.
  intros Hm Hp Hb. unfold app, mounted, files_router. rewrite Hp, Hm.
  cbn [Router.lowercase]. change (Router.find_route files_routes POST [])
    with (Some (UploadFile, @nil (string * string))).
  destruct (req_body req) as [|userId raw|fs|fs]; try reflexivity.
  simpl in Hb. cbn -[post_files]. rewrite post_files_taken, Hb. reflexivity.
Qed.

(** X3: an upload of the allowed type whose payload is larger than the
    5 MiB limit is refused with "File too large"; nothing is staged and no
    record is written. *)
Theorem oversized_upload_is_refused pdf env req userId p st :
  is_upload req userId (Some p) ->
  part_mimetype p = "application/pdf" ->
  Multer.fileSize_limit < Z.of_nat (length (part_content p)) ->
  app pdf env req st = (st, status_json 500 (BAppError "File too large")).
Proof.
  intros Hup Hmime Hsz. rewrite (app_upload _ _ _ _ _ _ Hup).
  unfold post_files_on, Multer.single, Multer.fileFilter. unfold bind at 1.
  rewrite (proj2 (String.eqb_neq _ _) (upload_named _ _ _ Hup)).
  rewrite (proj2 (String.eqb_eq _ _) Hmime). simpl.
  destruct (Z.leb_spec Multer.fileSize_limit (Z.of_nat (length (part_content p))));
    [reflexivity|lia].
Qed.

Lemma post_files_all_or_nothing pdf env userId part st :
  fault env OpUserSave = None ->
  forall st' r, post_files_on pdf env userId part st = (st', Resolved r) ->
  status r <> 201 ->
  Users st' = Users st /\ Files st' = Files st.
Proof.
  intros Hf st' r Hrun Hst. revert Hrun. unfold_handlers. intros Hrun.
  split_cases; try congruence; auto.
Qed.

(** X4: unless the store fails the save of the owner, an upload is all or
    nothing: if the answer is not 201, neither collection has changed. *)
Theorem upload_all_or_nothing pdf env req userId part st :
  is_upload req userId part ->
  fault env OpUserSave = None ->
  status (snd (app pdf env req st)) <> 201 ->
  Users (fst (app pdf env req st)) = Users st /\
  Files (fst (app pdf env req st)) = Files st.
Proof.
  intros Hup Hf. rewrite (app_upload _ _ _ _ _ _ Hup).
  destruct (post_files_on pdf env userId part st) as [st' [r|e]] eqn:Hrun;
    simpl; intros Hst.
  - eapply post_files_all_or_nothing; eauto.
  - revert Hrun. unfold_handlers. intros Hrun. split_cases; auto.
Qed.

(** ** What the records look like *)

(** The effect of one request on the store is the effect of the handler it
    is routed to. *)
Lemma app_store_cases pdf env req st (P : Store -> Prop) :
  P st ->
  P (fst (post_files pdf env (req_body req) st)) ->
  P (fst (post_users env (req_body req) st)) ->
  (forall id, P (fst (delete_user env id st))) ->
  P (fst (app pdf env req st)).
Proof.
  intros Hid Hup Hcr Hdel. unfold app, mounted.
  destruct (path req) as [|seg rest]; [exact Hid|].
  destruct (String.eqb (Router.lowercase seg) "users").
  { unfold users_router.
    destruct (Router.find_route users_routes (method req) rest) as [[[] ps]|];
      try exact Hid.
    - pose proof (get_users_store env st) as H.
      destruct (get_users env st) as [st' [r|e]]; simpl in *; subst; exact Hid.
    - pose proof (get_user_store env (Router.param ps "id") st) as H.
      destruct (get_user env _ st) as [st' [r|e]]; simpl in *; subst; exact Hid.
    - destruct (post_users env _ st) as [st' [r|e]]; exact Hcr.
    - specialize (Hdel (Router.param ps "id")).
      destruct (delete_user env _ st) as [st' [r|e]]; exact Hdel. }
  destruct (String.eqb (Router.lowercase seg) "files").
  { unfold files_router.
    destruct (Router.find_route files_routes (method req) rest) as [[[] ps]|];
      try exact Hid.
    - destruct (post_files pdf env _ st) as [st' [r|e]]; exact Hup.
    - pose proof (get_file_store env (Router.param ps "id") st) as H.
      destruct (get_file env _ st) as [st' [r|e]]; simpl in *; subst; exact Hid.
    - pose proof (get_user_files_store env (Router.param ps "userId") (query req) st) as H.
      destruct (get_user_files env _ _ st) as [st' [r|e]]; simpl in *; subst; exact Hid.
    - pose proof (get_all_files_store env st) as H.
      destruct (get_all_files env st) as [st' [r|e]]; simpl in *; subst; exact Hid. }
  destruct (_ && _)%bool; [|exact Hid].
  destruct rest; exact Hid.
Qed.

Lemma post_users_files env b st : Files (fst (post_users env b st)) = Files st.
Proof. unfold_handlers. split_cases. Qed.

Lemma delete_user_files env id st : Files (fst (delete_user env id st)) = Files st.
Proof. unfold_handlers. split_cases. Qed.

(** The only way the Files collection changes: the upload handler appends
    the record of a validated, parsed payload whose owner it has just
    found. *)
Lemma post_files_appends pdf env b st :
  Files (fst (post_files pdf env b st)) = Files st \/
  exists f oid u,
    Files (fst (post_files pdf env b st)) = (Files st ++ [f])%list /\
    valid_document f /\
    file_id f = nextId st /\
    uploadedBy f = Some oid /\
    Mongoose.find_user oid (Users st) = Some u.
Proof.
  unfold_handlers.
  split_cases; try (left; reflexivity).
  all: right; eexists _, _, _; split; [reflexivity|];
    (split; [|split; [reflexivity|split; [reflexivity|eassumption]]]).
  all: unfold valid_document; simpl.
  all: repeat match goal with
       | H : negb _ = false |- _ => apply negb_false_iff, String.eqb_eq in H
       | H : (_ <=? _) = false |- _ => apply Z.leb_gt in H
       | H : String.eqb _ _ = false |- _ => apply String.eqb_neq in H
       end.
  all: repeat split; eauto; lia.
Qed.

Lemma app_appends pdf env req st :
  Files (fst (app pdf env req st)) = Files st \/
  exists f oid u,
    Files (fst (app pdf env req st)) = (Files st ++ [f])%list /\
    valid_document f /\
    file_id f = nextId st /\
    uploadedBy f = Some oid /\
    Mongoose.find_user oid (Users st) = Some u.
Proof.
  apply (app_store_cases pdf env req st
           (fun st' => Files st' = Files st \/
              exists f oid u,
                Files st' = (Files st ++ [f])%list /\ valid_document f /\
                file_id f = nextId st /\ uploadedBy f = Some oid /\
                Mongoose.find_user oid (Users st) = Some u)).
  - left; reflexivity.
  - apply post_files_appends.
  - left. apply post_users_files.
  - intros id. left. apply delete_user_files.
Qed.

Lemma reachable_valid_documents pdf st :
  reachable pdf st -> Forall valid_document (Files st).
Proof.
  induction 1 as [|st env req Hr IH]; [constructor|].
  destruct (app_appends pdf env req st) as [Heq|(f & oid & u & Heq & Hv & _)];
    rewrite Heq; [exact IH|].
  apply Forall_app. split; [exact IH|]. constructor; [exact Hv|constructor].
Qed.

(** X5: every Document record of a reachable store passed the validator and
    the pipeline: its type is application/pdf, its size is within the
    5 MiB limit, its stored name is not empty, and it carries a page count
    and an owner reference. *)
Theorem stored_documents_are_valid pdf st f :
  reachable pdf st ->
  In f (Files st) ->
  valid_document f.
Proof.
  intros Hr Hin. pose proof (reachable_valid_documents pdf st Hr) as Hall.
  rewrite Forall_forall in Hall. apply Hall, list_elem_of_In, Hin.
Qed.

(** X6: a request that changes the Files collection adds exactly one
    Document record, at the end of the collection, and the owner reference
    of that record names an Owner record that exists when the request
    arrives. *)
Theorem new_document_has_existing_owner pdf env req st :
  Files (fst (app pdf env req st)) <> Files st ->
  exists f oid u,
    Files (fst (app pdf env req st)) = (Files st ++ [f])%list /\
    uploadedBy f = Some oid /\
    Mongoose.find_user oid (Users st) = Some u.
Proof.
  intros Hne.
  destruct (app_appends pdf env req st) as [Heq|(f & oid & u & Heq & _ & _ & Hown & Hu)];
    [contradiction|].
  exists f, oid, u. auto.
Qed.

(** X7: the Files collection is append-only: after any sequence of requests
    the records that were there are still there, unchanged and in the same
    order, at the front of the collection. *)
Theorem documents_are_never_changed pdf reqs st :
  exists added, Files (serve pdf reqs st) = (Files st ++ added)%list.
Proof.
  revert st. induction reqs as [|[env req] reqs IH]; intros st.
  - exists []. symmetry. apply app_nil_r.
  - change (serve pdf ((env, req) :: reqs) st)
      with (serve pdf reqs (fst (app pdf env req st))).
    destruct (IH (fst (app pdf env req st))) as [added Hadd].
    rewrite Hadd.
    destruct (app_appends pdf env req st) as [Heq|(f & _ & _ & Heq & _)]; rewrite Heq.
    + exists added. reflexivity.
    + exists (f :: added). rewrite <- app_assoc. reflexivity.
Qed.


(** ** Uploads and the listings of the owners *)

Lemma documents_of_app st oid l :
  List.filter (Mongoose.owned_by oid) (Files st ++ l)
  = (documents_of st oid ++ List.filter (Mongoose.owned_by oid) l)%list.
Proof. unfold documents_of. apply List.filter_app. Qed.

(** X8: an upload answered 201 adds the new Document at the end of its
    owner's documents and leaves the documents of every other owner as
    they were. *)
Theorem upload_extends_only_its_owner pdf env req userId part st :
  is_upload req userId part ->
  status (snd (app pdf env req st)) = 201 ->
  exists s oid f,
    userId = Some s /\
    Mongoose.castObjectId s = Some oid /\
    body (snd (app pdf env req st)) = BFile f /\
    documents_of (fst (app pdf env req st)) oid = (documents_of st oid ++ [f])%list /\
    (forall o, o <> oid ->
       documents_of (fst (app pdf env req st)) o = documents_of st o).
Proof.
  intros Hup Hst.
  rewrite (app_upload _ _ _ _ _ _ Hup) in *.
  destruct (post_files_on pdf env userId part st) as [st' [r|e]] eqn:Hrun;
    simpl in Hst; [|discriminate].
  destruct (upload_created_inv pdf env userId part st st' r Hrun Hst)
    as (s & p & oid & u & pages & -> & -> & Hacc & Hcast & Hfind & Hfault & Hpdf & Hfs & Hus).
  rewrite (pipeline pdf env s p oid u pages st Hacc Hcast Hfind Hfault Hpdf) in Hrun.
  rewrite Hfs, Hus in Hrun. simpl in Hrun. injection Hrun as <- <-.
  exists s, oid, (document_of env p (nextId st) pages oid). simpl.
  split; [reflexivity|]. split; [exact Hcast|]. split; [reflexivity|].
  assert (Hdocs : forall o,
            documents_of
              (set_Users (Mongoose.replace_user
                            (linked u (document_of env p (nextId st) pages oid))
                            (Users st))
                 (set_Files (Files st ++ [document_of env p (nextId st) pages oid])
                    (set_nextId (N.succ (nextId st)) (staged env p st)))) o
            = (documents_of st o
               ++ (if N.eqb oid o then [document_of env p (nextId st) pages oid]
                   else []))%list).
  { intros o. unfold documents_of at 1. simpl. rewrite documents_of_app.
    reflexivity. }
  split.
  - rewrite Hdocs, N.eqb_refl. reflexivity.
  - intros o Ho. rewrite Hdocs.
    destruct (N.eqb_spec oid o); [congruence|]. apply app_nil_r.
Qed.

(** ** Reading one Document *)

Lemma find_file_fresh l f :
  Forall (fun g => (file_id g < file_id f)%N) l ->
  Mongoose.find_file (file_id f) (l ++ [f]) = Some f.
Proof.
  unfold Mongoose.find_file. induction 1 as [|g l Hg Hl IH]; simpl.
  - rewrite N.eqb_refl. reflexivity.
  - destruct (N.eqb_spec (file_id g) (file_id f)); [lia|]. exact IH.
Qed.

Lemma app_get_file pdf env req id st :
  is_get_file req id ->
  app pdf env req st =
    match get_file env id st with
    | (st', Resolved r) => (st', r)
    | (st', Rejected e) => (st', status_json 500 (BAppError e))
    end.
Proof.
  intros [Hm Hp]. unfold app, mounted, files_router. rewrite Hp, Hm. reflexivity.
Qed.

(** X9: on a reachable store, a Document that an upload has just created
    can be read back by its identifier: the get-by-id answer is 200 with
    that same record and, in place of the owner reference, the owner's
    identifier and name. *)
Theorem uploaded_document_is_read_back pdf env req userId part st env' req' id :
  reachable pdf st ->
  is_upload req userId part ->
  status (snd (app pdf env req st)) = 201 ->
  is_get_file req' id ->
  fault env' OpFileFindById = None ->
  fault env' OpUserFind = None ->
  exists f oid owner,
    body (snd (app pdf env req st)) = BFile f /\
    uploadedBy f = Some oid /\
    Mongoose.find_user oid (Users st) = Some owner /\
    (Mongoose.castObjectId id = Some (file_id f) ->
     app pdf env' req' (fst (app pdf env req st))
     = (fst (app pdf env req st),
        json (BFilePopulated f (Some (oid, name owner))))).
Proof.
  intros Hreach Hup Hst Hget Hf1 Hf2.
  rewrite (app_get_file _ _ _ _ _ Hget).
  rewrite (app_upload _ _ _ _ _ _ Hup) in *.
  destruct (post_files_on pdf env userId part st) as [st' [r|e]] eqn:Hrun;
    simpl in Hst; [|discriminate].
  destruct (upload_created_inv pdf env userId part st st' r Hrun Hst)
    as (s & p & oid & u & pages & -> & -> & Hacc & Hcast & Hfind & Hfault & Hpdf & Hfs & Hus).
  rewrite (pipeline pdf env s p oid u pages st Hacc Hcast Hfind Hfault Hpdf) in Hrun.
  rewrite Hfs, Hus in Hrun. simpl in Hrun. injection Hrun as <- <-.
  set (doc := document_of env p (nextId st) pages oid).
  exists doc, oid, u. simpl.
  split; [reflexivity|]. split; [reflexivity|]. split; [exact Hfind|].
  intros Hid.
  destruct (reachable_ids_ordered pdf st Hreach) as [_ Hbelow].
  destruct (find_user_spec _ _ _ Hfind) as [Huid _].
  unfold get_file, Mongoose.File_findById_populate. unfold_async.
  rewrite Hid, Hf1, Hf2. simpl.
  pose proof (find_file_fresh (Files st) doc Hbelow) as Hff.
  change (file_id doc) with (nextId st) in Hff. rewrite Hff.
  change (uploadedBy doc) with (Some oid). cbn [Users set_Users].
  rewrite (find_replace_user oid (Users st) u (linked u doc) Hfind Huid).
  simpl. rewrite Huid. reflexivity.
Qed.

(** X10: a well-formed identifier that names no Document is answered 404
    "File not found" by the get-by-id route, and the store is unchanged. *)
Theorem unknown_document_is_not_found pdf env req id oid st :
  is_get_file req id ->
  Mongoose.castObjectId id = Some oid ->
  Mongoose.find_file oid (Files st) = None ->
  fault env OpFileFindById = None ->
  app pdf env req st = (st, status_json 404 (BError "File not found")).
Proof.
  intros Hget Hcast Hnone Hf.
  rewrite (app_get_file _ _ _ _ _ Hget).
  unfold get_file, Mongoose.File_findById_populate. unfold_async.
  rewrite Hcast, Hf. simpl. rewrite Hnone. reflexivity.
Qed.

(** ** More on the listing *)

(** X11: the listing of an identifier that owns no Document, an existing
    owner or not, is not an error when the page is at least 1 and the page
    size is positive (and their product is an integer that a double holds
    exactly): the answer is 200 with no documents, total 0 and 0 pages. *)
Theorem listing_without_documents_is_empty pdf env req userId oid st (P page : Z) :
  is_listing req userId ->
  Mongoose.castObjectId userId = Some oid ->
  documents_of st oid = [] ->
  fault env OpFileFind = None ->
  fault env OpFileCount = None ->
  limit_of (query req) = P ->
  page_of (query req) = page ->
  0 < P ->
  1 <= page ->
  (page - 1) * P <= JS.MAX_SAFE_INTEGER ->
  app pdf env req st = (st, json (BListing [] 0 0 page)).
Proof.
  intros Hl Hcast Hdocs Hf Hc HP Hpage HPpos Hpage1 Hsafe.
  rewrite (listing_answer pdf env req userId oid st page P ((page - 1) * P)
             Hl Hcast Hf Hc Hpage HP (skip_exact _ _ Hpage1 HPpos Hsafe))
    by nia.
  unfold scanned. rewrite Hdocs. simpl. rewrite skipn_nil.
  unfold Mongoose.apply_limit, JS.ceil_div. simpl.
  destruct (P =? 0); rewrite ?firstn_nil; reflexivity.
Qed.

(** X12: the listing reads the Files collection only: it answers the same
    on two stores that hold the same Document records, whatever their
    Owner records are (an owner that was deleted keeps its listing). *)
Theorem listing_ignores_owner_records pdf env req userId st1 st2 :
  is_listing req userId ->
  Files st1 = Files st2 ->
  snd (app pdf env req st1) = snd (app pdf env req st2).
Proof.
  intros [Hm Hp] Heq. unfold app, mounted, files_router. rewrite Hp, Hm.
  cbn [Router.lowercase]. simpl.
  unfold get_user_files, Mongoose.File_find_by_owner, Mongoose.File_countDocuments.
  cbv zeta.
  destruct (page_of (query req)) as [page| |]; [|reflexivity..].
  destruct (limit_of (query req)) as [P| |]; [|reflexivity..].
  destruct (JS.mul _ _) as [skip| |]; [|reflexivity..].
  unfold_async.
  destruct (Mongoose.castObjectId userId) as [oid|]; [|reflexivity].
  destruct (fault env OpFileFind); [reflexivity|].
  destruct (fault env OpFileCount); simpl; rewrite Heq;
    destruct (Mongoose.apply_skip _ _); simpl; rewrite ?Heq; reflexivity.
Qed.

Lemma firstn_add_skipn {A} (a b : nat) (l : list A) :
  firstn (a + b) l = (firstn a l ++ firstn b (skipn a l))%list.
Proof.
  revert l. induction a as [|a IH]; intros l; [reflexivity|].
  destruct l as [|x l]; simpl.
  - rewrite firstn_nil. reflexivity.
  - rewrite IH. reflexivity.
Qed.

Lemma windows_concat {A} (size k : nat) (l : list A) :
  concat (map (fun i => firstn size (skipn (i * size) l)) (seq 0 k))
  = firstn (k * size) l.
Proof.
  induction k as [|k IH]; [reflexivity|].
  rewrite seq_S, map_app, concat_app, IH. simpl.
  rewrite app_nil_r, (Nat.add_comm size), firstn_add_skipn. reflexivity.
Qed.

(** X13: the pages of a listing partition the owner's documents: for a page
    size P > 0, the windows answered for the pages 1 to k by a store that
    scans in the same order every time, put one after the other, are the
    first k * P documents of the owner in that order, without repetition;
    they are all of them as soon as k * P reaches their number. The offsets
    of the pages are integers that a double holds exactly. *)
Theorem pages_partition_the_documents pdf env (reqs : nat -> Request)
    userId oid st (P : Z) (k : nat) :
  Mongoose.castObjectId userId = Some oid ->
  fault env OpFileFind = None ->
  fault env OpFileCount = None ->
  0 < P ->
  (Z.of_nat k - 1) * P <= JS.MAX_SAFE_INTEGER ->
  (forall i, (i < k)%nat ->
     is_listing (reqs i) userId /\
     limit_of (query (reqs i)) = P /\
     page_of (query (reqs i)) = Z.of_nat (S i)) ->
  concat (map (fun i => listing_files (snd (app pdf env (reqs i) st))) (seq 0 k))
  = firstn (k * Z.to_nat P) (scanned env st oid) /\
  scanned env st oid ≡ₚ documents_of st oid /\
  (Z.of_nat (length (documents_of st oid)) <= Z.of_nat k * P ->
   concat (map (fun i => listing_files (snd (app pdf env (reqs i) st))) (seq 0 k))
   = scanned env st oid).
Proof.
  intros Hcast Hf Hc HP Hsafe Hreqs.
  assert (Hcat : concat (map (fun i => listing_files (snd (app pdf env (reqs i) st)))
                           (seq 0 k))
                 = firstn (k * Z.to_nat P) (scanned env st oid)).
  { rewrite <- windows_concat. f_equal.
    apply map_ext_in. intros i Hi. apply in_seq in Hi.
    destruct (Hreqs i ltac:(lia)) as (Hl & Hlim & Hpage).
    assert (Hoff : (Z.of_nat (S i) - 1) * P <= JS.MAX_SAFE_INTEGER).
    { apply Z.le_trans with ((Z.of_nat k - 1) * P); [|exact Hsafe].
      apply Z.mul_le_mono_nonneg_r; lia. }
    rewrite (listing_answer pdf env (reqs i) userId oid st (Z.of_nat (S i)) P
               ((Z.of_nat (S i) - 1) * P) Hl Hcast Hf Hc Hpage Hlim
               (skip_exact (Z.of_nat (S i)) P ltac:(lia) HP Hoff))
      by nia.
    unfold listing_files. simpl.
    unfold Mongoose.apply_limit.
    destruct (Z.eqb_spec P 0); [lia|].
    rewrite Z.abs_eq by lia.
    replace (Z.to_nat ((Z.of_nat (S i) - 1) * P)) with (i * Z.to_nat P)%nat by nia.
    reflexivity. }
  split; [exact Hcat|]. split; [apply natural_order_perm|].
  intros Hall. rewrite Hcat. apply firstn_all2. rewrite scanned_length. nia.
Qed.

(** ** Stored names *)

Lemma string_of_uint_no_hyphen d : no_hyphen (NilEmpty.string_of_uint d).
Proof. induction d; simpl; auto; split; auto; discriminate. Qed.

Lemma number_to_string_no_hyphen n :
  0 <= n -> no_hyphen (Multer.number_to_string n).
Proof.
  intros Hn. unfold Multer.number_to_string.
  destruct n as [|p|p]; [simpl; split; [discriminate|exact I]| |lia].
  simpl. unfold NilZero.string_of_uint.
  destruct (Pos.to_uint p) eqn:Hp; try (rewrite <- Hp; apply string_of_uint_no_hyphen).
  simpl. split; [discriminate|exact I].
Qed.

Lemma to_int_not_nil n : Z.to_int n <> Pos Nil /\ Z.to_int n <> Neg Nil.
Proof.
  destruct n as [|p|p]; simpl; split; try discriminate;
    intros [= H]; exact (Unsigned.to_uint_nonnil p H).
Qed.

Lemma number_to_string_inj n n' :
  Multer.number_to_string n = Multer.number_to_string n' -> n = n'.
Proof.
  unfold Multer.number_to_string. intros H.
  apply to_int_inj.
  destruct (to_int_not_nil n) as [H1 H2]. destruct (to_int_not_nil n') as [H1' H2'].
  pose proof (NilZero.isi (Z.to_int n) H1 H2) as Hn.
  pose proof (NilZero.isi (Z.to_int n') H1' H2') as Hn'.
  rewrite H in Hn. congruence.
Qed.

Lemma split_at_hyphen a b x y :
  no_hyphen a -> no_hyphen b ->
  a ++ "-" ++ x = b ++ "-" ++ y -> a = b /\ x = y.
Proof.
  assert (Hnil : forall s, "" ++ s = s) by reflexivity.
  assert (Hcons : forall c r s, String c r ++ s = String c (r ++ s)) by reflexivity.
  revert b. induction a as [|c a IH]; intros [|c' b] Ha Hb H;
    repeat (rewrite Hnil in H || rewrite Hcons in H); simpl in Ha, Hb.
  - injection H as ->. auto.
  - injection H as <- _. destruct Hb as [Hb _]. contradiction.
  - injection H as -> _. destruct Ha as [Ha _]. contradiction.
  - injection H as -> H. destruct Ha as [_ Ha]. destruct Hb as [_ Hb].
    destruct (IH b Ha Hb H) as [-> ->]. auto.
Qed.

(** X14: the stored name tells the upload apart: two uploads get the same
    stored name only if they carry the same original name and were stored
    at the same clock value. *)
Theorem stored_name_identifies_upload env env' p p' :
  0 <= now env ->
  0 <= now env' ->
  Multer.storage_filename env p = Multer.storage_filename env' p' ->
  now env = now env' /\ part_originalname p = part_originalname p'.
Proof.
  intros Hn Hn' H. unfold Multer.storage_filename in H.
  apply split_at_hyphen in H as [Hnum Hname];
    try (apply number_to_string_no_hyphen; assumption).
  split; [apply number_to_string_inj, Hnum|exact Hname].
Qed.

(** ** The staged bytes *)

Lemma handler_keeps_uploads pdf env userId req_file st :
  uploads (fst (post_files_handler pdf env userId req_file st)) = uploads st.
Proof. unfold_handlers. split_cases. Qed.

(** X15: the bytes of an accepted upload are written under
    uploads/<stored name> and are still there when the request is
    answered, whatever the answer is: the handler never removes a staged
    file, and no other path of the upload directory changes. *)
Theorem accepted_upload_stays_staged pdf env req userId p st :
  is_upload req userId (Some p) ->
  accepted p ->
  uploads (fst (app pdf env req st))
  = <[Multer.destination ++ Multer.storage_filename env p := part_content p]> (uploads st).
Proof.
  intros Hup Hacc. rewrite (app_upload_store _ _ _ _ _ _ Hup).
  unfold post_files_on. unfold bind at 1. rewrite (single_accepted _ _ _ Hacc).
  rewrite handler_keeps_uploads. reflexivity.
Qed.

(** ** Owner records *)

Lemma app_create_user pdf env req st :
  is_create_user req ->
  app pdf env req st =
    match post_users env (req_body req) st with
    | (st', Resolved r) => (st', r)
    | (st', Rejected e) => (st', status_json 500 (BAppError e))
    end.
Proof. intros [Hm Hp]. unfold app, mounted, users_router. rewrite Hp, Hm. reflexivity. Qed.

Lemma app_get_user pdf env req id st :
  is_get_user req id ->
  app pdf env req st =
    match get_user env id st with
    | (st', Resolved r) => (st', r)
    | (st', Rejected e) => (st', status_json 500 (BAppError e))
    end.
Proof. intros [Hm Hp]. unfold app, mounted, users_router. rewrite Hp, Hm. reflexivity. Qed.

Lemma app_delete_user pdf env req id st :
  is_delete_user req id ->
  app pdf env req st =
    match delete_user env id st with
    | (st', Resolved r) => (st', r)
    | (st', Rejected e) => (st', status_json 500 (BAppError e))
    end.
Proof. intros [Hm Hp]. unfold app, mounted, users_router. rewrite Hp, Hm. reflexivity. Qed.

Lemma map_id_replace_user u' l :
  map user_id (Mongoose.replace_user u' l) = map user_id l.
Proof.
  unfold Mongoose.replace_user. induction l as [|x l IH]; simpl; [reflexivity|].
  rewrite IH. destruct (N.eqb_spec (user_id x) (user_id u')); congruence.
Qed.

Lemma remove_user_sub oid l x :
  In x (Mongoose.remove_user oid l) -> In x l.
Proof.
  induction l as [|y l IH]; simpl; [auto|].
  destruct (N.eqb (user_id y) oid); simpl; intuition.
Qed.

Lemma remove_user_nodup oid l :
  NoDup (map user_id l) -> NoDup (map user_id (Mongoose.remove_user oid l)).
Proof.
  induction l as [|y l IH]; simpl; [auto|].
  intros Hnd. apply NoDup_cons in Hnd as [Hy Hnd].
  destruct (N.eqb (user_id y) oid); simpl; [exact Hnd|].
  apply NoDup_cons. split; [|apply IH, Hnd].
  intros Hin. apply Hy.
  apply list_elem_of_In, in_map_iff in Hin as (x & Hx & Hin).
  apply list_elem_of_In, in_map_iff. exists x. split; [exact Hx|].
  eapply remove_user_sub, Hin.
Qed.

Lemma find_user_absent oid l :
  (forall x, In x l -> user_id x <> oid) -> Mongoose.find_user oid l = None.
Proof.
  unfold Mongoose.find_user. induction l as [|y l IH]; simpl; [reflexivity|].
  intros H. destruct (N.eqb_spec (user_id y) oid) as [Heq|_].
  - exfalso. apply (H y); auto.
  - apply IH. intros x Hx. apply H. auto.
Qed.

Lemma find_user_none oid l x :
  Mongoose.find_user oid l = None -> In x l -> user_id x <> oid.
Proof.
  unfold Mongoose.find_user. intros Hnone Hin Heq.
  apply (List.find_none _ _ Hnone) in Hin. apply N.eqb_neq in Hin. contradiction.
Qed.

(** What a POST /users does to the Owner records: nothing, or it adds one
    record whose identifier no record had. *)
Lemma post_users_users_effect env b st :
  (nextId st <= nextId (fst (post_users env b st)))%N /\
  (Users (fst (post_users env b st)) = Users st \/
   exists u, Mongoose.find_user (user_id u) (Users st) = None /\
     Users (fst (post_users env b st)) = (Users st ++ [u])%list).
Proof.
  unfold_handlers.
  split_cases; (split; [simpl; lia|]); try (left; reflexivity).
  all: right; eexists; split; [|reflexivity]; simpl; assumption.
Qed.

Lemma delete_user_users_effect env id st :
  nextId (fst (delete_user env id st)) = nextId st /\
  (Users (fst (delete_user env id st)) = Users st \/
   exists oid, Users (fst (delete_user env id st)) = Mongoose.remove_user oid (Users st)).
Proof.
  unfold_handlers.
  split_cases; (split; [reflexivity|]); try (left; reflexivity); right; eexists; reflexivity.
Qed.

Lemma user_ids_fresh_step pdf env req st :
  user_ids_fresh st -> user_ids_fresh (fst (app pdf env req st)).
Proof.
  intros Hnd.
  apply (app_store_cases pdf env req st user_ids_fresh).
  - exact Hnd.
  - destruct (post_files_users_effect pdf env (req_body req) st)
      as [Hmono [Heq|(u & Hin & Hlt & Heq)]]; unfold user_ids_fresh; rewrite Heq.
    + exact Hnd.
    + rewrite map_id_replace_user. exact Hnd.
  - destruct (post_users_users_effect env (req_body req) st)
      as [Hmono [Heq|(u & Hnone & Heq)]]; unfold user_ids_fresh; rewrite Heq.
    + exact Hnd.
    + rewrite map_app. simpl. apply NoDup_app. split; [exact Hnd|].
      split; [|apply NoDup_singleton].
      intros x Hx Hx'. apply list_elem_of_singleton in Hx'. subst x.
      apply list_elem_of_In, in_map_iff in Hx as (y & Hy & Hin).
      exact (find_user_none _ _ _ Hnone Hin Hy).
  - intros id.
    destruct (delete_user_users_effect env id st) as [Hn [Heq|(oid & Heq)]];
      unfold user_ids_fresh; rewrite Heq.
    + exact Hnd.
    + apply remove_user_nodup, Hnd.
Qed.

Lemma reachable_user_ids_fresh pdf st : reachable pdf st -> user_ids_fresh st.
Proof.
  induction 1 as [|st env req Hr IH].
  - constructor.
  - apply user_ids_fresh_step, IH.
Qed.

Lemma find_user_fresh l u :
  Mongoose.find_user (user_id u) l = None ->
  Mongoose.find_user (user_id u) (l ++ [u]) = Some u.
Proof.
  unfold Mongoose.find_user. induction l as [|v l IH]; simpl.
  - rewrite N.eqb_refl. reflexivity.
  - destruct (N.eqb_spec (user_id v) (user_id u)); [discriminate|]. exact IH.
Qed.

(** The run of a POST /users whose body the schema accepts and whose
    identifier is free. *)
Lemma post_users_created env b n ids oid st :
  user_body b n ids ->
  new_user_id b st = Some oid ->
  Mongoose.find_user oid (Users st) = None ->
  fault env OpUserSave = None ->
  exists st1,
    Files st1 = Files st /\ Users st1 = Users st /\
    post_users env b st =
      (set_Users (Users st ++ [mkUser oid n ids]) st1,
       Resolved (status_json 201 (BUser (mkUser oid n ids)))).
Proof.
  intros (Hname & Hn & Hids) Hid Hfree Hf.
  unfold new_user_id in Hid.
  unfold post_users, Mongoose.User_create, Mongoose.new_ObjectId. unfold_async.
  apply String.eqb_neq in Hn.
  destruct (field_id (body_fields b)) as [s|].
  - rewrite Hid. simpl. rewrite Hids, Hname, Hn, Hf. simpl. rewrite Hfree.
    exists st. auto.
  - injection Hid as <-. simpl. rewrite Hids, Hname, Hn, Hf. simpl. rewrite Hfree.
    exists (set_nextId (N.succ (nextId st)) st). auto.
Qed.

(** X16: a POST /users whose body, JSON or form-encoded, gives a non-empty
    name and well-formed file identifiers, and whose identifier (the _id of
    the body, or else the one the store allocates) is well formed and not
    yet that of an Owner record, is answered 201 with a new Owner record of
    that identifier, name and list, added at the end of the collection;
    a later GET /users/:id with that identifier answers the same record,
    its file identifiers replaced by the Documents they name. *)
Theorem created_user_is_read_back pdf env req n ids oid st env' req' id :
  is_create_user req ->
  user_body (req_body req) n ids ->
  new_user_id (req_body req) st = Some oid ->
  Mongoose.find_user oid (Users st) = None ->
  fault env OpUserSave = None ->
  is_get_user req' id ->
  fault env' OpUserFindById = None ->
  fault env' OpFileFind = None ->
  exists u,
    snd (app pdf env req st) = status_json 201 (BUser u) /\
    user_id u = oid /\ name u = n /\ files u = ids /\
    Users (fst (app pdf env req st)) = (Users st ++ [u])%list /\
    (Mongoose.castObjectId id = Some oid ->
     snd (app pdf env' req' (fst (app pdf env req st)))
     = json (BUserPopulated u
               (omap (fun oid => Mongoose.find_file oid (Files st)) ids))).
Proof.
  intros Hcr Hb Hid Hfree Hf Hget Hf1 Hf2.
  exists (mkUser oid n ids).
  rewrite (app_create_user _ _ _ _ Hcr).
  destruct (post_users_created env (req_body req) n ids oid st Hb Hid Hfree Hf)
    as (st1 & HF & HU & ->).
  cbn [fst snd Users set_Users user_id name files].
  split; [reflexivity|]. split; [reflexivity|]. split; [reflexivity|].
  split; [reflexivity|]. split; [reflexivity|]. intros Hcast.
  rewrite (app_get_user _ _ _ _ _ Hget).
  unfold get_user, Mongoose.User_findById_populate, Mongoose.User_findById.
  unfold_async. rewrite Hcast, Hf1, Hf2. simpl.
  pose proof (find_user_fresh (Users st) (mkUser oid n ids) Hfree) as Hfu.
  simpl in Hfu. rewrite Hfu. simpl. rewrite HF. reflexivity.
Qed.

(** X17: a POST /users whose body has no name (a body that is neither JSON
    nor form-encoded has none), has an empty name, lists a malformed file
    identifier, or whose identifier (the _id of the body, or else the one
    the store allocates) is malformed or already that of an Owner record,
    is answered 400 "Failed to create user", and neither collection
    changes. *)
Theorem invalid_user_is_refused pdf env req st :
  is_create_user req ->
  refused_body (req_body req) st ->
  snd (app pdf env req st) = status_json 400 (BError "Failed to create user") /\
  Users (fst (app pdf env req st)) = Users st /\
  Files (fst (app pdf env req st)) = Files st.
Proof.
  intros Hcr Hbad. rewrite (app_create_user _ _ _ _ Hcr).
  unfold refused_body, new_user_id in Hbad.
  unfold post_users, Mongoose.User_create, Mongoose.new_ObjectId. unfold_async.
  destruct (field_id (body_fields (req_body req))) as [s|];
    [destruct (Mongoose.castObjectId s) as [oid|]|]; simpl; auto.
  all: destruct (mapM Mongoose.castObjectId _) as [ids|]; simpl; auto.
  all: destruct (field_name _) as [n|]; simpl; auto.
  all: destruct (String.eqb_spec n ""); simpl; auto.
  all: destruct (fault env OpUserSave); simpl; auto.
  all: destruct (Mongoose.find_user _ (Users st)) eqn:Hfind; simpl; auto.
  all: exfalso; destruct Hbad as [Hb|[Hb|[Hb|Hb]]]; try discriminate;
    try (injection Hb as ->; contradiction); apply Hb; reflexivity.
Qed.

Lemma find_removed_user oid l :
  NoDup (map user_id l) ->
  Mongoose.find_user oid (Mongoose.remove_user oid l) = None.
Proof.
  unfold Mongoose.find_user. induction l as [|y l IH]; simpl; [reflexivity|].
  intros Hnd. apply NoDup_cons in Hnd as [Hy Hnd].
  destruct (N.eqb_spec (user_id y) oid) as [Heq|Hne]; simpl.
  - apply find_user_absent. intros x Hx Hxid. apply Hy.
    apply list_elem_of_In, in_map_iff. exists x. split; [congruence|exact Hx].
  - destruct (N.eqb_spec (user_id y) oid); [contradiction|]. apply IH, Hnd.
Qed.

Lemma find_other_user oid o l :
  o <> oid ->
  Mongoose.find_user o (Mongoose.remove_user oid l) = Mongoose.find_user o l.
Proof.
  unfold Mongoose.find_user. intros Hne. induction l as [|y l IH]; simpl; [reflexivity|].
  destruct (N.eqb_spec (user_id y) oid) as [Heq|Hny]; simpl.
  - destruct (N.eqb_spec (user_id y) o); [congruence|reflexivity].
  - destruct (N.eqb_spec (user_id y) o); [reflexivity|exact IH].
Qed.

Lemma delete_found pdf env req id oid u st :
  is_delete_user req id ->
  Mongoose.castObjectId id = Some oid ->
  Mongoose.find_user oid (Users st) = Some u ->
  fault env OpUserDelete = None ->
  app pdf env req st =
    (set_Users (Mongoose.remove_user oid (Users st)) st,
     json (BMessage "User deleted successfully")).
Proof.
  intros Hdel Hcast Hfind Hf. rewrite (app_delete_user _ _ _ _ _ Hdel).
  unfold delete_user, Mongoose.User_findByIdAndDelete. unfold_async.
  rewrite Hcast, Hf. simpl. rewrite Hfind. reflexivity.
Qed.

(** X18: on a reachable store, the DELETE of an existing Owner is answered
    200 "User deleted successfully"; afterwards the Owner is not found any
    more, every other Owner is found as before, and the Files collection
    is untouched: the Documents of the deleted Owner stay. *)
Theorem deleted_user_is_gone pdf env req id oid u st :
  reachable pdf st ->
  is_delete_user req id ->
  Mongoose.castObjectId id = Some oid ->
  Mongoose.find_user oid (Users st) = Some u ->
  fault env OpUserDelete = None ->
  snd (app pdf env req st) = json (BMessage "User deleted successfully") /\
  Mongoose.find_user oid (Users (fst (app pdf env req st))) = None /\
  (forall o, o <> oid ->
     Mongoose.find_user o (Users (fst (app pdf env req st)))
     = Mongoose.find_user o (Users st)) /\
  Files (fst (app pdf env req st)) = Files st.
Proof.
  intros Hreach Hdel Hcast Hfind Hf.
  pose proof (reachable_user_ids_fresh pdf st Hreach) as Hnd.
  rewrite (delete_found pdf env req id oid u st Hdel Hcast Hfind Hf). simpl.
  split; [reflexivity|]. split; [apply find_removed_user, Hnd|].
  split; [intros o Ho; apply find_other_user, Ho|reflexivity].
Qed.

Lemma remove_absent_user oid l :
  Mongoose.find_user oid l = None -> Mongoose.remove_user oid l = l.
Proof.
  unfold Mongoose.find_user. induction l as [|y l IH]; simpl; [reflexivity|].
  destruct (N.eqb (user_id y) oid); [discriminate|].
  intros H. rewrite (IH H). reflexivity.
Qed.

(** X19: the DELETE of a well-formed identifier that names no Owner is
    answered 404 "User not found" and leaves the store exactly as it was. *)
Theorem delete_of_unknown_user_changes_nothing pdf env req id oid st :
  is_delete_user req id ->
  Mongoose.castObjectId id = Some oid ->
  Mongoose.find_user oid (Users st) = None ->
  fault env OpUserDelete = None ->
  app pdf env req st = (st, status_json 404 (BError "User not found")).
Proof.
  intros Hdel Hcast Hfind Hf. rewrite (app_delete_user _ _ _ _ _ Hdel).
  unfold delete_user, Mongoose.User_findByIdAndDelete. unfold_async.
  rewrite Hcast, Hf. simpl. rewrite Hfind, (remove_absent_user _ _ Hfind).
  destruct st; reflexivity.
Qed.

(** X20: deleting an Owner does not cascade. On a reachable store, after the
    Owner was deleted each of its Documents is still answered by
    GET /files/:id, with the same record and a null owner. *)
Theorem document_of_deleted_owner_is_orphaned
    pdf env req id oid u st env' req' fid f_id f :
  reachable pdf st ->
  is_delete_user req id ->
  Mongoose.castObjectId id = Some oid ->
  Mongoose.find_user oid (Users st) = Some u ->
  fault env OpUserDelete = None ->
  is_get_file req' fid ->
  Mongoose.castObjectId fid = Some f_id ->
  Mongoose.find_file f_id (Files st) = Some f ->
  uploadedBy f = Some oid ->
  fault env' OpFileFindById = None ->
  fault env' OpUserFind = None ->
  snd (app pdf env' req' (fst (app pdf env req st))) = json (BFilePopulated f None).
Proof.
  intros Hreach Hdel Hcast Hfind Hf Hget Hfcast Hffind Hown Hf1 Hf2.
  pose proof (reachable_user_ids_fresh pdf st Hreach) as Hnd.
  rewrite (delete_found pdf env req id oid u st Hdel Hcast Hfind Hf). simpl.
  rewrite (app_get_file _ _ _ _ _ Hget).
  unfold get_file, Mongoose.File_findById_populate. unfold_async.
  rewrite Hfcast, Hf1, Hf2. simpl. rewrite Hffind, Hown. simpl.
  rewrite (find_removed_user oid (Users st) Hnd). reflexivity.
Qed.

Lemma find_file_app_other oid l f :
  oid <> file_id f ->
  Mongoose.find_file oid (l ++ [f]) = Mongoose.find_file oid l.
Proof.
  unfold Mongoose.find_file. intros Hne. induction l as [|g l IH]; simpl.
  - destruct (N.eqb_spec (file_id f) oid); [congruence|reflexivity].
  - destruct (N.eqb (file_id g) oid); [reflexivity|exact IH].
Qed.

Lemma omap_find_file_app ids l f :
  ~ In (file_id f) ids ->
  omap (fun oid => Mongoose.find_file oid (l ++ [f])) ids
  = omap (fun oid => Mongoose.find_file oid l) ids.
Proof.
  induction ids as [|i ids IH]; intros Hnot; [reflexivity|].
  assert (Hcons : forall g : N -> option File,
            omap g (i :: ids)
            = match g i with Some y => y :: omap g ids | None => omap g ids end)
    by reflexivity.
  rewrite !Hcons.
  rewrite find_file_app_other by (intros ->; apply Hnot; left; reflexivity).
  rewrite IH by (intros Hin; apply Hnot; right; exact Hin). reflexivity.
Qed.

(** X21: on a reachable store whose next identifier no Owner lists yet, after
    an upload answered 201 the owner's own view shows the new Document:
    GET /users/:id with the owner's identifier answers the Owner record
    with the new identifier pushed on its list, and the Documents it had
    followed by the new one. *)
Theorem owner_view_shows_new_document
    pdf env req userId part st env' req' :
  reachable pdf st ->
  next_id_unlisted st ->
  is_upload req userId part ->
  status (snd (app pdf env req st)) = 201 ->
  fault env' OpUserFindById = None ->
  fault env' OpFileFind = None ->
  exists s f owner,
    userId = Some s /\
    body (snd (app pdf env req st)) = BFile f /\
    owner_of st userId = Some owner /\
    (is_get_user req' s ->
     snd (app pdf env' req' (fst (app pdf env req st)))
     = json (BUserPopulated (linked owner f)
               (omap (fun oid => Mongoose.find_file oid (Files st)) (files owner)
                  ++ [f]))).
Proof.
  intros Hreach Hfresh Hup Hst Hf1 Hf2.
  rewrite (app_upload _ _ _ _ _ _ Hup) in *.
  destruct (post_files_on pdf env userId part st) as [st' [r|e]] eqn:Hrun;
    simpl in Hst; [|discriminate].
  destruct (upload_created_inv pdf env userId part st st' r Hrun Hst)
    as (s & p & oid & u & pages & -> & -> & Hacc & Hcast & Hfind & Hfault & Hpdf & Hfs & Hus).
  rewrite (pipeline pdf env s p oid u pages st Hacc Hcast Hfind Hfault Hpdf) in Hrun.
  rewrite Hfs, Hus in Hrun. simpl in Hrun. injection Hrun as <- <-.
  set (doc := document_of env p (nextId st) pages oid).
  exists s, doc, u. cbn [fst snd body status_json].
  split; [reflexivity|]. split; [reflexivity|].
  split; [unfold owner_of; rewrite Hcast; exact Hfind|].
  intros Hget.
  destruct (reachable_ids_ordered pdf st Hreach) as [_ Hbelow].
  destruct (find_user_spec _ _ _ Hfind) as [Huid Hin].
  rewrite (app_get_user _ _ _ _ _ Hget).
  unfold get_user, Mongoose.User_findById_populate, Mongoose.User_findById.
  unfold_async. rewrite Hcast, Hf1, Hf2. cbn [Users set_Users Files set_Files fst snd].
  rewrite (find_replace_user oid (Users st) u (linked u doc) Hfind Huid).
  cbn [fst snd files linked file_id Files set_Users set_Files].
  rewrite omap_app.
  rewrite (omap_find_file_app (files u) (Files st) doc) by (apply Hfresh, Hin).
  cbn [omap list_omap file_id].
  pose proof (find_file_fresh (Files st) doc Hbelow) as Hff.
  change (file_id doc) with (nextId st) in *.
  simpl. rewrite Hff. reflexivity.
Qed.

(** X22: after an Owner was deleted, an upload in its name is refused: on a
    reachable store the answer is 404 "User not found" and neither
    collection changes. *)
Theorem upload_for_deleted_owner_is_refused
    pdf env req id oid u st env' req' p :
  reachable pdf st ->
  is_delete_user req id ->
  Mongoose.castObjectId id = Some oid ->
  Mongoose.find_user oid (Users st) = Some u ->
  fault env OpUserDelete = None ->
  is_upload req' (Some id) (Some p) ->
  accepted p ->
  fault env' OpUserFindById = None ->
  snd (app pdf env' req' (fst (app pdf env req st)))
  = status_json 404 (BError "User not found") /\
  Users (fst (app pdf env' req' (fst (app pdf env req st))))
  = Users (fst (app pdf env req st)) /\
  Files (fst (app pdf env' req' (fst (app pdf env req st)))) = Files st.
Proof.
  intros Hreach Hdel Hcast Hfind Hf Hup Hacc Hf'.
  pose proof (reachable_user_ids_fresh pdf st Hreach) as Hnd.
  rewrite (delete_found pdf env req id oid u st Hdel Hcast Hfind Hf). simpl.
  rewrite (app_upload _ _ _ _ _ _ Hup).
  rewrite pipeline_unresolved; [|exact Hacc|].
  - simpl. unfold unresolved_response. rewrite Hcast, Hf'. auto.
  - unfold owner_of. rewrite Hcast. simpl. apply find_removed_user, Hnd.
Qed.

(** X23: the Document record of an upload answered 201 describes the
    payload as the middleware read it: its original name is the declared
    file name without its directories, its type is the declared type in
    lower case and without parameters, which is application/pdf, its size
    is the number of bytes, its page count is the one the PDF parser
    returns for these bytes, and its stored name is the clock value, a
    hyphen and the original name, the path under uploads/ where these bytes
    were written. *)
Theorem document_describes_its_payload pdf env req userId raw st :
  sends req userId raw ->
  status (snd (app pdf env req st)) = 201 ->
  exists f,
    body (snd (app pdf env req st)) = BFile f /\
    originalname f = Busboy.basename (raw_filename raw) /\
    mimetype f = Busboy.mimeType (raw_type raw) /\
    mimetype f = "application/pdf" /\
    size f = Z.of_nat (length (raw_content raw)) /\
    (exists pages, pdf (raw_content raw) = Resolved pages /\ pageCount f = Some pages) /\
    filename f
    = Multer.number_to_string (now env) ++ "-" ++ Busboy.basename (raw_filename raw) /\
    uploads (fst (app pdf env req st)) !! (Multer.destination ++ filename f)
    = Some (raw_content raw).
Proof.
  intros Hsend Hst. apply sends_upload in Hsend as Hup.
  rewrite (app_upload _ _ _ _ _ _ Hup) in *.
  destruct (post_files_on pdf env userId (taken (Some raw)) st) as [st' [r|e]] eqn:Hrun;
    simpl in Hst; [|discriminate].
  destruct (upload_created_inv pdf env userId _ st st' r Hrun Hst)
    as (s & p & oid & u & pages & -> & Hp & Hacc & Hcast & Hfind & Hfault & Hpdf & Hfs & Hus).
  rewrite Hp in Hrun.
  rewrite (pipeline pdf env s p oid u pages st Hacc Hcast Hfind Hfault Hpdf) in Hrun.
  rewrite Hfs, Hus in Hrun. simpl in Hrun. injection Hrun as <- <-.
  assert (Hfile : p = Busboy.file raw).
  { unfold taken in Hp. destruct (String.eqb _ _); [discriminate|]. congruence. }
  destruct Hacc as (Hmime & _ & _).
  exists (document_of env p (nextId st) pages oid). subst p. simpl.
  repeat split; auto.
  - exists pages. auto.
  - apply lookup_insert_eq.
Qed.

(** ** What the read routes can answer *)

Lemma find_file_spec oid l f :
  Mongoose.find_file oid l = Some f -> file_id f = oid /\ In f l.
Proof.
  unfold Mongoose.find_file. intros H.
  apply List.find_some in H as [Hin Heq]. apply N.eqb_eq in Heq. auto.
Qed.

(** X24: a 200 answer of the get-by-id route carries the Document of the
    collection that has the requested identifier, and the owner shown with
    it is null or the identifier and name of the Owner record that the
    Document references. *)
Theorem get_file_answers_the_named_document pdf env req id st f owner :
  is_get_file req id ->
  snd (app pdf env req st) = json (BFilePopulated f owner) ->
  Mongoose.castObjectId id = Some (file_id f) /\
  In f (Files st) /\
  (owner = None \/
   exists u, In u (Users st) /\ uploadedBy f = Some (user_id u) /\
             owner = Some (user_id u, name u)).
Proof.
  intros Hget. rewrite (app_get_file _ _ _ _ _ Hget).
  unfold get_file, Mongoose.File_findById_populate. unfold_async.
  destruct (Mongoose.castObjectId id) as [oid|] eqn:Hcast; [|discriminate].
  destruct (fault env OpFileFindById); [discriminate|]. simpl.
  destruct (Mongoose.find_file oid (Files st)) as [g|] eqn:Hfind; [|discriminate].
  apply find_file_spec in Hfind as [Hid Hin].
  destruct (uploadedBy g) as [uid|] eqn:Hown.
  - destruct (fault env OpUserFind); [discriminate|]. simpl.
    intros [= <- <-]. split; [congruence|]. split; [exact Hin|].
    destruct (Mongoose.find_user uid (Users st)) as [u|] eqn:Hu; [|left; reflexivity].
    right. apply find_user_spec in Hu as [Huid Huin].
    exists u. subst uid. auto.
  - simpl. intros [= <- <-]. split; [congruence|]. split; [exact Hin|]. left; reflexivity.
Qed.

Lemma omap_find_file_spec l ids d :
  In d (omap (fun oid => Mongoose.find_file oid l) ids) ->
  In (file_id d) ids /\ In d l.
Proof.
  intros Hd. apply list_elem_of_In, list_elem_of_omap in Hd as (oid & Hoid & Hfind).
  apply find_file_spec in Hfind as [Hid Hin].
  subst oid. split; [apply list_elem_of_In, Hoid|exact Hin].
Qed.

(** X25: a 200 answer of GET /users/:id carries the Owner record of the
    requested identifier, and every Document shown with it is a record of
    the Files collection whose identifier the Owner lists; the owner
    reference of the Document is not consulted. *)
Theorem get_user_shows_the_listed_documents pdf env req id st u docs :
  is_get_user req id ->
  snd (app pdf env req st) = json (BUserPopulated u docs) ->
  Mongoose.castObjectId id = Some (user_id u) /\
  In u (Users st) /\
  docs = omap (fun oid => Mongoose.find_file oid (Files st)) (files u) /\
  (forall d, In d docs -> In (file_id d) (files u) /\ In d (Files st)).
Proof.
  intros Hget. rewrite (app_get_user _ _ _ _ _ Hget).
  unfold get_user, Mongoose.User_findById_populate, Mongoose.User_findById.
  unfold_async.
  destruct (Mongoose.castObjectId id) as [oid|] eqn:Hcast; [|discriminate].
  destruct (fault env OpUserFindById); [discriminate|]. simpl.
  destruct (Mongoose.find_user oid (Users st)) as [v|] eqn:Hfind; [|discriminate].
  apply find_user_spec in Hfind as [Hid Hin].
  destruct (fault env OpFileFind); [discriminate|]. simpl.
  intros [= <- <-]. split; [congruence|]. split; [exact Hin|].
  split; [reflexivity|]. intros d Hd. eapply omap_find_file_spec. exact Hd.
Qed.

(** ** Concrete instances of the properties above *)
Lemma get_requests_change_nothing_witness :
  fst (app Sample.toy_pdf Sample.env0
           (Sample.list_files Sample.alice_id "2" "10") Sample.st_alice_15)
  = Sample.st_alice_15.
Proof.
  apply (get_requests_change_nothing Sample.toy_pdf Sample.env0
           (Sample.list_files Sample.alice_id "2" "10") Sample.st_alice_15).
  reflexivity.
Defined.

Lemma upload_without_file_is_refused_witness :
  app Sample.toy_pdf Sample.env0 Scenario.upload_nothing Sample.st_alice
  = (Sample.st_alice, status_json 400 (BError "No file uploaded")).
Proof.
  apply (upload_without_file_is_refused Sample.toy_pdf Sample.env0
           Scenario.upload_nothing Sample.st_alice).
  - reflexivity.
  - reflexivity.
  - reflexivity.
Defined.

Lemma oversized_upload_is_refused_witness :
  Multer.fileSize_limit < Z.of_nat (length (part_content Scenario.big_part)) /\
  app Sample.toy_pdf Sample.env0 (Sample.upload Sample.alice_id Scenario.big_part)
      Sample.st_alice
  = (Sample.st_alice, status_json 500 (BAppError "File too large")).
Proof.
  assert (H : Multer.fileSize_limit < Z.of_nat (length (part_content Scenario.big_part))).
  { unfold Scenario.big_part. cbn [part_content]. rewrite repeat_length.
    unfold Multer.fileSize_limit. lia. }
  split; [exact H|].
  apply (oversized_upload_is_refused Sample.toy_pdf Sample.env0
           (Sample.upload Sample.alice_id Scenario.big_part)
           (Some Sample.alice_id) Scenario.big_part Sample.st_alice).
  - solve_upload.
  - reflexivity.
  - exact H.
Defined.

Lemma upload_all_or_nothing_witness :
  Users (fst (app Sample.toy_pdf Sample.env0
                  (Sample.upload Sample.alice_id Sample.broken_part) Sample.st_alice))
  = Users Sample.st_alice /\
  Files (fst (app Sample.toy_pdf Sample.env0
                  (Sample.upload Sample.alice_id Sample.broken_part) Sample.st_alice))
  = Files Sample.st_alice.
Proof.
  apply (upload_all_or_nothing Sample.toy_pdf Sample.env0
           (Sample.upload Sample.alice_id Sample.broken_part)
           (Some Sample.alice_id) (Some Sample.broken_part) Sample.st_alice).
  - solve_upload.
  - reflexivity.
  - vm_compute. discriminate.
Defined.

Lemma stored_documents_are_valid_witness :
  valid_document (document_of Sample.env0 Sample.pdf_part 2%N 1 1%N).
Proof.
  apply (stored_documents_are_valid Sample.toy_pdf Sample.st_alice_15).
  - exact st_alice_15_reachable.
  - vm_compute. left. reflexivity.
Defined.

Lemma new_document_has_existing_owner_witness :
  exists f oid u,
    Files (fst Scenario.uploaded) = (Files Sample.st_alice ++ [f])%list /\
    uploadedBy f = Some oid /\
    Mongoose.find_user oid (Users Sample.st_alice) = Some u.
Proof.
  apply (new_document_has_existing_owner Sample.toy_pdf Sample.env0
           (Sample.upload Sample.alice_id Sample.pdf_part) Sample.st_alice).
  vm_compute. discriminate.
Defined.

Lemma upload_extends_only_its_owner_witness :
  exists s oid f,
    Some Sample.alice_id = Some s /\
    Mongoose.castObjectId s = Some oid /\
    body (snd Scenario.uploaded) = BFile f /\
    documents_of (fst Scenario.uploaded) oid
    = (documents_of Sample.st_alice oid ++ [f])%list /\
    (forall o, o <> oid ->
       documents_of (fst Scenario.uploaded) o = documents_of Sample.st_alice o).
Proof.
  apply (upload_extends_only_its_owner Sample.toy_pdf Sample.env0
           (Sample.upload Sample.alice_id Sample.pdf_part)
           (Some Sample.alice_id) (Some Sample.pdf_part) Sample.st_alice).
  - solve_upload.
  - reflexivity.
Defined.

Lemma uploaded_document_is_read_back_witness :
  exists f oid owner,
    body (snd Scenario.uploaded) = BFile f /\
    uploadedBy f = Some oid /\
    Mongoose.find_user oid (Users Sample.st_alice) = Some owner /\
    (Mongoose.castObjectId Scenario.file_2 = Some (file_id f) ->
     app Sample.toy_pdf Sample.env0 (Scenario.get_file_req Scenario.file_2)
         (fst Scenario.uploaded)
     = (fst Scenario.uploaded, json (BFilePopulated f (Some (oid, name owner))))).
Proof.
  apply (uploaded_document_is_read_back Sample.toy_pdf Sample.env0
           (Sample.upload Sample.alice_id Sample.pdf_part)
           (Some Sample.alice_id) (Some Sample.pdf_part) Sample.st_alice
           Sample.env0 (Scenario.get_file_req Scenario.file_2) Scenario.file_2).
  - exact st_alice_reachable.
  - solve_upload.
  - reflexivity.
  - split; reflexivity.
  - reflexivity.
  - reflexivity.
Defined.

Lemma unknown_document_is_not_found_witness :
  app Sample.toy_pdf Sample.env0 (Scenario.get_file_req Sample.bob_id) Sample.st_alice_15
  = (Sample.st_alice_15, status_json 404 (BError "File not found")).
Proof.
  apply (unknown_document_is_not_found Sample.toy_pdf Sample.env0
           (Scenario.get_file_req Sample.bob_id) Sample.bob_id 255%N Sample.st_alice_15).
  - split; reflexivity.
  - reflexivity.
  - vm_compute. reflexivity.
  - reflexivity.
Defined.

Lemma listing_without_documents_is_empty_witness :
  app Sample.toy_pdf Sample.env0 (Sample.list_files Sample.bob_id "1" "10")
      Sample.st_alice_15
  = (Sample.st_alice_15, json (BListing [] 0 0 1)).
Proof.
  apply (listing_without_documents_is_empty Sample.toy_pdf Sample.env0
           (Sample.list_files Sample.bob_id "1" "10") Sample.bob_id 255%N
           Sample.st_alice_15 10 1).
  - split; reflexivity.
  - reflexivity.
  - vm_compute. reflexivity.
  - reflexivity.
  - reflexivity.
  - reflexivity.
  - reflexivity.
  - lia.
  - lia.
  - vm_compute. discriminate.
Defined.

Lemma listing_ignores_owner_records_witness :
  Files Sample.st_alice_15 = Files (fst Scenario.alice_deleted) /\
  snd (app Sample.toy_pdf Sample.env0 (Sample.list_files Sample.alice_id "2" "10")
           Sample.st_alice_15)
  = snd (app Sample.toy_pdf Sample.env0 (Sample.list_files Sample.alice_id "2" "10")
             (fst Scenario.alice_deleted)).
Proof.
  assert (H : Files Sample.st_alice_15 = Files (fst Scenario.alice_deleted))
    by (vm_compute; reflexivity).
  split; [exact H|].
  apply (listing_ignores_owner_records Sample.toy_pdf Sample.env0
           (Sample.list_files Sample.alice_id "2" "10") Sample.alice_id
           Sample.st_alice_15 (fst Scenario.alice_deleted)).
  - split; reflexivity.
  - exact H.
Defined.

Lemma pages_partition_the_documents_witness :
  concat (map (fun i => listing_files
                          (snd (app Sample.toy_pdf Sample.env0 (Scenario.page_req i)
                                    Sample.st_alice_15)))
              (seq 0 2))
  = firstn (2 * Z.to_nat 10) (scanned Sample.env0 Sample.st_alice_15 1%N) /\
  scanned Sample.env0 Sample.st_alice_15 1%N ≡ₚ documents_of Sample.st_alice_15 1%N /\
  (Z.of_nat (length (documents_of Sample.st_alice_15 1%N)) <= Z.of_nat 2 * 10 ->
   concat (map (fun i => listing_files
                           (snd (app Sample.toy_pdf Sample.env0 (Scenario.page_req i)
                                     Sample.st_alice_15)))
               (seq 0 2))
   = scanned Sample.env0 Sample.st_alice_15 1%N).
Proof.
  apply (pages_partition_the_documents Sample.toy_pdf Sample.env0 Scenario.page_req
           Sample.alice_id 1%N Sample.st_alice_15 10 2).
  - reflexivity.
  - reflexivity.
  - reflexivity.
  - lia.
  - vm_compute. discriminate.
  - intros i Hi. destruct i as [|[|i]]; [| |lia]; repeat split.
Defined.

Lemma stored_name_identifies_upload_witness :
  Multer.storage_filename Sample.env0 Sample.pdf_part = "1700000000000-a.pdf" /\
  now Sample.env0 = now Sample.env_user_save_fails /\
  part_originalname Sample.pdf_part = part_originalname Sample.pdf_part.
Proof.
  split; [reflexivity|].
  apply (stored_name_identifies_upload Sample.env0 Sample.env_user_save_fails
           Sample.pdf_part Sample.pdf_part).
  - vm_compute. discriminate.
  - vm_compute. discriminate.
  - reflexivity.
Defined.

Lemma accepted_upload_stays_staged_witness :
  uploads (fst (app Sample.toy_pdf Sample.env0
                    (Sample.upload Sample.bob_id Sample.broken_part) Sample.st_alice))
  = <[Multer.destination ++ Multer.storage_filename Sample.env0 Sample.broken_part
      := part_content Sample.broken_part]> (uploads Sample.st_alice).
Proof.
  apply (accepted_upload_stays_staged Sample.toy_pdf Sample.env0
           (Sample.upload Sample.bob_id Sample.broken_part)
           (Some Sample.bob_id) Sample.broken_part Sample.st_alice).
  - solve_upload.
  - solve_accepted.
Defined.

Lemma created_user_is_read_back_witness :
  exists u,
    snd Scenario.bob_created = status_json 201 (BUser u) /\
    user_id u = 2%N /\ name u = "Bob" /\ files u = [] /\
    Users (fst Scenario.bob_created) = (Users Sample.st_alice ++ [u])%list /\
    (Mongoose.castObjectId Scenario.file_2 = Some 2%N ->
     snd (app Sample.toy_pdf Sample.env0 (Scenario.get_user_req Scenario.file_2)
              (fst Scenario.bob_created))
     = json (BUserPopulated u
               (omap (fun oid => Mongoose.find_file oid (Files Sample.st_alice)) []))).
Proof.
  apply (created_user_is_read_back Sample.toy_pdf Sample.env0
           (Scenario.create_user_req (Form (Scenario.named "Bob"))) "Bob" [] 2%N
           Sample.st_alice Sample.env0
           (Scenario.get_user_req Scenario.file_2) Scenario.file_2).
  - split; reflexivity.
  - split; [reflexivity|]. split; [discriminate|reflexivity].
  - reflexivity.
  - reflexivity.
  - reflexivity.
  - split; reflexivity.
  - reflexivity.
  - reflexivity.
Defined.

Lemma invalid_user_is_refused_witness :
  snd (app Sample.toy_pdf Sample.env0 (Scenario.create_user_req Scenario.alice_again)
           Sample.st_alice)
  = status_json 400 (BError "Failed to create user") /\
  Users (fst (app Sample.toy_pdf Sample.env0
                  (Scenario.create_user_req Scenario.alice_again)
                  Sample.st_alice)) = Users Sample.st_alice /\
  Files (fst (app Sample.toy_pdf Sample.env0
                  (Scenario.create_user_req Scenario.alice_again)
                  Sample.st_alice)) = Files Sample.st_alice.
Proof.
  apply (invalid_user_is_refused Sample.toy_pdf Sample.env0
           (Scenario.create_user_req Scenario.alice_again) Sample.st_alice).
  - split; reflexivity.
  - right. right. right. vm_compute. discriminate.
Defined.

Lemma deleted_user_is_gone_witness :
  snd Scenario.alice_deleted = json (BMessage "User deleted successfully") /\
  Mongoose.find_user 1%N (Users (fst Scenario.alice_deleted)) = None /\
  (forall o, o <> 1%N ->
     Mongoose.find_user o (Users (fst Scenario.alice_deleted))
     = Mongoose.find_user o (Users Sample.st_alice_15)) /\
  Files (fst Scenario.alice_deleted) = Files Sample.st_alice_15.
Proof.
  apply (deleted_user_is_gone Sample.toy_pdf Sample.env0
           (Scenario.delete_user_req Sample.alice_id) Sample.alice_id 1%N
           (mkUser 1%N "Alice" [2; 3; 4; 5; 6; 7; 8; 9; 10; 11; 12; 13; 14; 15; 16]%N)
           Sample.st_alice_15).
  - exact st_alice_15_reachable.
  - split; reflexivity.
  - reflexivity.
  - vm_compute. reflexivity.
  - reflexivity.
Defined.

Lemma delete_of_unknown_user_changes_nothing_witness :
  app Sample.toy_pdf Sample.env0 (Scenario.delete_user_req Sample.bob_id) Sample.st_alice
  = (Sample.st_alice, status_json 404 (BError "User not found")).
Proof.
  apply (delete_of_unknown_user_changes_nothing Sample.toy_pdf Sample.env0
           (Scenario.delete_user_req Sample.bob_id) Sample.bob_id 255%N Sample.st_alice).
  - split; reflexivity.
  - reflexivity.
  - reflexivity.
  - reflexivity.
Defined.

Lemma document_of_deleted_owner_is_orphaned_witness :
  snd (app Sample.toy_pdf Sample.env0 (Scenario.get_file_req Scenario.file_2)
           (fst Scenario.alice_deleted))
  = json (BFilePopulated (document_of Sample.env0 Sample.pdf_part 2%N 1 1%N) None).
Proof.
  apply (document_of_deleted_owner_is_orphaned Sample.toy_pdf Sample.env0
           (Scenario.delete_user_req Sample.alice_id) Sample.alice_id 1%N
           (mkUser 1%N "Alice" [2; 3; 4; 5; 6; 7; 8; 9; 10; 11; 12; 13; 14; 15; 16]%N)
           Sample.st_alice_15 Sample.env0
           (Scenario.get_file_req Scenario.file_2) Scenario.file_2 2%N).
  - exact st_alice_15_reachable.
  - split; reflexivity.
  - reflexivity.
  - vm_compute. reflexivity.
  - reflexivity.
  - split; reflexivity.
  - reflexivity.
  - vm_compute. reflexivity.
  - reflexivity.
  - reflexivity.
  - reflexivity.
Defined.

Lemma owner_view_shows_new_document_witness :
  exists s f owner,
    Some Sample.alice_id = Some s /\
    body (snd Scenario.uploaded) = BFile f /\
    owner_of Sample.st_alice (Some Sample.alice_id) = Some owner /\
    (is_get_user (Scenario.get_user_req Sample.alice_id) s ->
     snd (app Sample.toy_pdf Sample.env0 (Scenario.get_user_req Sample.alice_id)
              (fst Scenario.uploaded))
     = json (BUserPopulated (linked owner f)
               (omap (fun oid => Mongoose.find_file oid (Files Sample.st_alice))
                     (files owner) ++ [f]))).
Proof.
  apply (owner_view_shows_new_document Sample.toy_pdf Sample.env0
           (Sample.upload Sample.alice_id Sample.pdf_part)
           (Some Sample.alice_id) (Some Sample.pdf_part) Sample.st_alice
           Sample.env0 (Scenario.get_user_req Sample.alice_id)).
  - exact st_alice_reachable.
  - exact (uploads_by_alice_unlisted 0).
  - solve_upload.
  - reflexivity.
  - reflexivity.
  - reflexivity.
Defined.

Lemma upload_for_deleted_owner_is_refused_witness :
  snd (app Sample.toy_pdf Sample.env0 (Sample.upload Sample.alice_id Sample.pdf_part)
           (fst Scenario.alice_deleted))
  = status_json 404 (BError "User not found") /\
  Users (fst (app Sample.toy_pdf Sample.env0
                  (Sample.upload Sample.alice_id Sample.pdf_part)
                  (fst Scenario.alice_deleted)))
  = Users (fst Scenario.alice_deleted) /\
  Files (fst (app Sample.toy_pdf Sample.env0
                  (Sample.upload Sample.alice_id Sample.pdf_part)
                  (fst Scenario.alice_deleted)))
  = Files Sample.st_alice_15.
Proof.
  apply (upload_for_deleted_owner_is_refused Sample.toy_pdf Sample.env0
           (Scenario.delete_user_req Sample.alice_id) Sample.alice_id 1%N
           (mkUser 1%N "Alice" [2; 3; 4; 5; 6; 7; 8; 9; 10; 11; 12; 13; 14; 15; 16]%N)
           Sample.st_alice_15 Sample.env0
           (Sample.upload Sample.alice_id Sample.pdf_part) Sample.pdf_part).
  - exact st_alice_15_reachable.
  - split; reflexivity.
  - reflexivity.
  - vm_compute. reflexivity.
  - reflexivity.
  - solve_upload.
  - solve_accepted.
  - reflexivity.
Defined.

Lemma document_describes_its_payload_witness :
  exists f,
    body (snd Scenario.uploaded_nested) = BFile f /\
    originalname f = Busboy.basename "dir/sub/a.pdf" /\
    mimetype f = Busboy.mimeType "application/pdf; charset=binary" /\
    mimetype f = "application/pdf" /\
    size f = Z.of_nat (length Sample.one_page) /\
    (exists pages, Sample.toy_pdf Sample.one_page = Resolved pages /\
                   pageCount f = Some pages) /\
    filename f
    = Multer.number_to_string (now Sample.env0) ++ "-" ++ Busboy.basename "dir/sub/a.pdf" /\
    uploads (fst Scenario.uploaded_nested) !! (Multer.destination ++ filename f)
    = Some Sample.one_page.
Proof.
  apply (document_describes_its_payload Sample.toy_pdf Sample.env0
           (Sample.upload_raw Sample.alice_id Sample.nested_part)
           (Some Sample.alice_id) Sample.nested_part Sample.st_alice).
  - repeat split.
  - vm_compute. reflexivity.
Defined.

Lemma get_file_answers_the_named_document_witness :
  Mongoose.castObjectId Scenario.file_2
  = Some (file_id (document_of Sample.env0 Sample.pdf_part 2%N 1 1%N)) /\
  In (document_of Sample.env0 Sample.pdf_part 2%N 1 1%N) (Files Sample.st_alice_15) /\
  (Some (1%N, "Alice") = None \/
   exists u, In u (Users Sample.st_alice_15) /\
             uploadedBy (document_of Sample.env0 Sample.pdf_part 2%N 1 1%N)
             = Some (user_id u) /\
             Some (1%N, "Alice") = Some (user_id u, name u)).
Proof.
  apply (get_file_answers_the_named_document Sample.toy_pdf Sample.env0
           (Scenario.get_file_req Scenario.file_2) Scenario.file_2 Sample.st_alice_15).
  - split; reflexivity.
  - vm_compute. reflexivity.
Defined.

Lemma get_user_shows_the_listed_documents_witness :
  Mongoose.castObjectId Sample.alice_id
  = Some (user_id (linked (mkUser 1%N "Alice" [])
                     (document_of Sample.env0 Sample.pdf_part 2%N 1 1%N))) /\
  In (linked (mkUser 1%N "Alice" []) (document_of Sample.env0 Sample.pdf_part 2%N 1 1%N))
     (Users (fst Scenario.uploaded)) /\
  [document_of Sample.env0 Sample.pdf_part 2%N 1 1%N]
  = omap (fun oid => Mongoose.find_file oid (Files (fst Scenario.uploaded)))
      (files (linked (mkUser 1%N "Alice" [])
                (document_of Sample.env0 Sample.pdf_part 2%N 1 1%N))) /\
  (forall d, In d [document_of Sample.env0 Sample.pdf_part 2%N 1 1%N] ->
     In (file_id d)
        (files (linked (mkUser 1%N "Alice" [])
                  (document_of Sample.env0 Sample.pdf_part 2%N 1 1%N))) /\
     In d (Files (fst Scenario.uploaded))).
Proof.
  apply (get_user_shows_the_listed_documents Sample.toy_pdf Sample.env0
           (Scenario.get_user_req Sample.alice_id) Sample.alice_id
           (fst Scenario.uploaded)).
  - split; reflexivity.
  - vm_compute. reflexivity.
Defined.
